(** * Cafe passport: the nested visit save and the sticker controller

    A shallow embedding of [project/models.py], [project/forms.py] and
    [project/views.py].  The entity store is an explicit record of tables,
    the views are state-passing functions on it, Python exceptions are the
    left summand of a result, and [transaction.atomic()] restores the
    store it was entered with when its body raises. *)

From Stdlib Require Import ZArith List String Ascii Bool Lia DecimalString.
From Stdlib Require Import Floats.PrimFloat Floats.SpecFloat Floats.FloatOps.
Import ListNotations.

Set Warnings "-register-all".

Open Scope string_scope.
Open Scope list_scope.
Open Scope Z_scope.

(* ================================================================== *)
(** * Python values *)
(* ================================================================== *)

(** The exception classes the views can meet.  [JSONDecodeError] and
    [UnicodeDecodeError] are subclasses of [ValueError] in Python; the
    views only ever test for the subclass, so they are kept apart. *)
Inductive exn : Type :=
| TypeError
| ValueError
| OverflowError
| AttributeError
| JSONDecodeError
| UnicodeDecodeError
| RecursionError
| UnboundLocalError
| Http404
| IntegrityError
| ValidationError
| DoesNotExist
| RelatedObjectDoesNotExist.

Definition result (A : Type) : Type := (exn + A)%type.

(** What [json.loads] returns: [None], [bool], [int], [float], [str],
    [list] and [dict].  A dict is kept as its members in document order;
    [assoc_last] below gives the last binding of a repeated key, as
    [json.loads] does. *)
Inductive json : Type :=
| JNull
| JBool (b : bool)
| JInt (z : Z)
| JFloat (f : float)
| JStr (s : string)
| JArr (l : list json)
| JObj (kvs : list (string * json)).

(** Last binding of [k], or [None]: lookup in a dict read from a document
    and [QueryDict.get] alike. *)
Fixpoint assoc_last {A : Type} (k : string) (l : list (string * A)) : option A :=
  match l with
  | [] => None
  | (k', v) :: tl =>
      match assoc_last k tl with
      | Some v' => Some v'
      | None => if String.eqb k k' then Some v else None
      end
  end.

(** Python truth value: [if not v]. *)
Definition truthy (v : json) : bool :=
  match v with
  | JNull => false
  | JBool b => b
  | JInt z => negb (z =? 0)
  | JFloat f => negb (PrimFloat.eqb f 0%float)
  | JStr s => negb (String.eqb s "")
  | JArr l => match l with [] => false | _ => true end
  | JObj kvs => match kvs with [] => false | _ => true end
  end.

(** The member [k] of a dict, or [d] when there is none. *)
Definition member_default (kvs : list (string * json)) (k : string) (d : json) : json :=
  match assoc_last k kvs with
  | Some x => x
  | None => d
  end.

Definition member (kvs : list (string * json)) (k : string) : json :=
  member_default kvs k JNull.

(** [v.get(k)]: only a dict has the method; an absent key gives [None]. *)
Definition py_get (v : json) (k : string) : result json :=
  match v with
  | JObj kvs => inr (member kvs k)
  | _ => inl AttributeError
  end.

(** [v.get(k, default)]. *)
Definition py_get_default (v : json) (k : string) (d : json) : result json :=
  match v with
  | JObj kvs => inr (member_default kvs k d)
  | _ => inl AttributeError
  end.

Fixpoint chars (s : string) : list json :=
  match s with
  | EmptyString => []
  | String c tl => JStr (String c EmptyString) :: chars tl
  end.

Fixpoint dedup_keys (seen : list string) (kvs : list (string * json)) : list json :=
  match kvs with
  | [] => []
  | (k, _) :: tl =>
      if existsb (String.eqb k) seen then dedup_keys seen tl
      else JStr k :: dedup_keys (k :: seen) tl
  end.

(** [for x in v]: a list gives its members, a str its characters, a dict
    its keys; the other values are not iterable. *)
Definition py_iter (v : json) : result (list json) :=
  match v with
  | JArr l => inr l
  | JStr s => inr (chars s)
  | JObj kvs => inr (dedup_keys [] kvs)
  | JNull | JBool _ | JInt _ | JFloat _ => inl TypeError
  end.

(** [float(n)] for an int: the nearest double, [OverflowError] beyond the
    range. *)
Definition float_of_int (z : Z) : result float :=
  match binary_normalize prec emax z 0 false with
  | S754_infinity _ => inl OverflowError
  | sf => inr (SF2Prim sf)
  end.

(** [int(f)] for a float: truncation towards zero. *)
Definition int_of_float (f : float) : result Z :=
  match Prim2SF f with
  | S754_nan => inl ValueError
  | S754_infinity _ => inl OverflowError
  | S754_zero _ => inr 0
  | S754_finite s m e =>
      let a := if 0 <=? e then Z.shiftl (Z.pos m) e else Z.shiftr (Z.pos m) (- e) in
      inr (if s then - a else a)
  end.

(** Why [json.loads] does not return: the text is not a JSON document,
    the bytes of the body are not text at all, or the document is nested
    deeper than the interpreter follows. *)
Inductive DecodeFault : Type :=
| not_json
| not_utf8
| too_deep.

Definition decode_exn (f : DecodeFault) : exn :=
  match f with
  | not_json => JSONDecodeError
  | not_utf8 => UnicodeDecodeError
  | too_deep => RecursionError
  end.

(** The parts of the Python runtime and of Django that are parsers or
    printers of text and images.  They are not code of this repository;
    the views are stated over any implementation of them. *)
Class PyRuntime : Type := {
  (** [json.loads(text)]; [None] when it raises. *)
  json_loads : string -> option json;
  (** What [json.loads(text)] raises when it does. *)
  json_fault : string -> DecodeFault;
  (** [float(s)] for a str; [None] is [ValueError]. *)
  float_of_str : string -> option float;
  (** [int(s)] for a str; [None] is [ValueError]. *)
  int_of_str : string -> option Z;
  (** [str(v)] for a value that is not a str. *)
  str_of_json : json -> string;
  (** [s.strip()]. *)
  str_strip : string -> string;
  (** [forms.DateField]'s parser (the input formats of the settings). *)
  form_parse_date : string -> option Z;
  (** [models.DateField.to_python] on a str (ISO format only). *)
  model_parse_date : string -> option Z;
  (** [forms.IntegerField.to_python] on the text of a hidden field. *)
  form_parse_int : string -> option Z;
  (** Whether an uploaded file passes [forms.ImageField]'s check. *)
  valid_image : string -> bool
}.

Section Coercions.
Context {RT : PyRuntime}.

(** [float(v)]. *)
Definition py_float (v : json) : result float :=
  match v with
  | JNull => inl TypeError
  | JBool b => inr (if b then 1%float else 0%float)
  | JInt z => float_of_int z
  | JFloat f => inr f
  | JStr s => match float_of_str s with Some f => inr f | None => inl ValueError end
  | JArr _ | JObj _ => inl TypeError
  end.

(** The value an integer column is compared with in a lookup
    ([IntegerField.get_prep_value]): [None] stays [None] (SQL NULL), the
    rest goes through [int()]. *)
Definition int_prep (v : json) : result (option Z) :=
  match v with
  | JNull => inr None
  | JBool b => inr (Some (if b then 1 else 0))
  | JInt z => inr (Some z)
  | JFloat f => match int_of_float f with inl e => inl e | inr z => inr (Some z) end
  | JStr s => match int_of_str s with Some z => inr (Some z) | None => inl ValueError end
  | JArr _ | JObj _ => inl TypeError
  end.

(** The value a text column is compared with or stored as
    ([CharField.to_python]): a str or [None] is kept, the rest goes
    through [str()]. *)
Definition char_prep (v : json) : option string :=
  match v with
  | JNull => None
  | JStr s => Some s
  | _ => Some (str_of_json v)
  end.

(** The value a float column is stored as ([FloatField.get_prep_value]):
    [None] stays [None], the rest goes through [float()]. *)
Definition float_prep (v : json) : result (option float) :=
  match v with
  | JNull => inr None
  | _ => match py_float v with inl e => inl e | inr f => inr (Some f) end
  end.

End Coercions.

(* ================================================================== *)
(** * The entity store ([models.py]) *)
(* ================================================================== *)

Definition pk : Type := Z.

(** [Cafe]: of its columns the modelled views read the key and the name. *)
Record Cafe : Type := {
  cafe_id : pk;
  cafe_name : string
}.

(** [CafeWish], unique on (profile, cafe).  [added_on] is filled by the
    clock and read by none of the modelled views. *)
Record CafeWish : Type := {
  wish_id : pk;
  wish_profile : pk;
  wish_cafe : pk;
  wish_visited : bool
}.

Record Visit : Type := {
  visit_id : pk;
  visit_profile : pk;
  visit_cafe : pk;
  date_visited : Z;
  user_rating : float;
  amount_spent : float;
  notes : string
}.

Record VisitPhoto : Type := {
  vphoto_id : pk;
  vphoto_visit : pk;
  vphoto_image : string;
  vphoto_caption : string
}.

Record FavoriteItem : Type := {
  item_id : pk;
  item_visit : pk;
  item_name : string;
  item_price : float;
  item_rating : float;
  item_description : string
}.

Record ItemPhoto : Type := {
  iphoto_id : pk;
  iphoto_item : pk;
  iphoto_image : string;
  iphoto_caption : string
}.

Record StickerType : Type := {
  stype_id : pk;
  stype_name : string;
  stype_image : string
}.

Record Sticker : Type := {
  sticker_id : pk;
  sticker_visit : pk;
  sticker_type : pk;
  x_position : float;
  y_position : float;
  rotation : float;
  scale : float;
  sticker_image : option string
}.

Record Store : Type := {
  cafes : list Cafe;
  wishes : list CafeWish;
  visits : list Visit;
  visit_photos : list VisitPhoto;
  favorite_items : list FavoriteItem;
  item_photos : list ItemPhoto;
  sticker_types : list StickerType;
  stickers : list Sticker
}.

Definition set_wishes (s : Store) (l : list CafeWish) : Store :=
  {| cafes := cafes s; wishes := l; visits := visits s;
     visit_photos := visit_photos s; favorite_items := favorite_items s;
     item_photos := item_photos s; sticker_types := sticker_types s;
     stickers := stickers s |}.

Definition set_visits (s : Store) (l : list Visit) : Store :=
  {| cafes := cafes s; wishes := wishes s; visits := l;
     visit_photos := visit_photos s; favorite_items := favorite_items s;
     item_photos := item_photos s; sticker_types := sticker_types s;
     stickers := stickers s |}.

Definition set_visit_photos (s : Store) (l : list VisitPhoto) : Store :=
  {| cafes := cafes s; wishes := wishes s; visits := visits s;
     visit_photos := l; favorite_items := favorite_items s;
     item_photos := item_photos s; sticker_types := sticker_types s;
     stickers := stickers s |}.

Definition set_favorite_items (s : Store) (l : list FavoriteItem) : Store :=
  {| cafes := cafes s; wishes := wishes s; visits := visits s;
     visit_photos := visit_photos s; favorite_items := l;
     item_photos := item_photos s; sticker_types := sticker_types s;
     stickers := stickers s |}.

Definition set_item_photos (s : Store) (l : list ItemPhoto) : Store :=
  {| cafes := cafes s; wishes := wishes s; visits := visits s;
     visit_photos := visit_photos s; favorite_items := favorite_items s;
     item_photos := l; sticker_types := sticker_types s;
     stickers := stickers s |}.

Definition set_stickers (s : Store) (l : list Sticker) : Store :=
  {| cafes := cafes s; wishes := wishes s; visits := visits s;
     visit_photos := visit_photos s; favorite_items := favorite_items s;
     item_photos := item_photos s; sticker_types := sticker_types s;
     stickers := l |}.

(** The key the database gives a new row: one above every key of the
    table. *)
Definition next_pk (ids : list pk) : pk := 1 + fold_right Z.max 0 ids.

(* ================================================================== *)
(** * Store-passing computations that may raise *)
(* ================================================================== *)

(** A computation on the store.  When it raises, the store it leaves is
    the one reached so far: outside a transaction every write is committed
    as it is made. *)
Definition DB (A : Type) : Type := Store -> result A * Store.

Definition ret {A : Type} (a : A) : DB A := fun s => (inr a, s).

Definition raise {A : Type} (e : exn) : DB A := fun s => (inl e, s).

Definition bind {A B : Type} (m : DB A) (k : A -> DB B) : DB B :=
  fun s => match m s with
           | (inr a, s') => k a s'
           | (inl e, s') => (inl e, s')
           end.

Definition lift {A : Type} (r : result A) : DB A := fun s => (r, s).

(** A query: it reads the store and leaves it as it is. *)
Definition query {A : Type} (q : Store -> A) : DB A := fun s => (inr (q s), s).

Notation "x <- m ;; k" := (bind m (fun x => k))
  (at level 61, m at next level, right associativity).
Notation "m ;;; k" := (bind m (fun _ => k))
  (at level 61, right associativity).

(** [try: m  except Exception as e: h e]. *)
Definition try_except {A : Type} (m : DB A) (h : exn -> DB A) : DB A :=
  fun s => match m s with
           | (inl e, s') => h e s'
           | r => r
           end.

(** [with transaction.atomic(): m].  When the body raises, the writes it
    made are rolled back and the exception goes on. *)
Definition atomic {A : Type} (m : DB A) : DB A :=
  fun s => match m s with
           | (inr a, s') => (inr a, s')
           | (inl e, _) => (inl e, s)
           end.

(** [for x in l: f x]. *)
Fixpoint for_each {A : Type} (l : list A) (f : A -> DB unit) : DB unit :=
  match l with
  | [] => ret tt
  | x :: tl => f x ;;; for_each tl f
  end.

(* ================================================================== *)
(** * Table operations (the ORM calls the views make) *)
(* ================================================================== *)

(** The row of a table with key [k]; a lookup against SQL NULL matches
    nothing. *)
Definition find_pk {R : Type} (key : R -> pk) (rows : list R) (k : option pk) : option R :=
  match k with
  | None => None
  | Some z => find (fun r => key r =? z) rows
  end.

Definition replace_pk {R : Type} (key : R -> pk) (r' : R) (rows : list R) : list R :=
  map (fun r => if key r =? key r' then r' else r) rows.

Definition remove_pk {R : Type} (key : R -> pk) (k : pk) (rows : list R) : list R :=
  filter (fun r => negb (key r =? k)) rows.

(** The cleaned fields of a photo form and of an item form. *)
Record PhotoData : Type := {
  pd_image : string;
  pd_caption : string
}.

Record ItemData : Type := {
  idata_name : string;
  idata_price : float;
  idata_rating : float;
  idata_description : string
}.

Record VisitData : Type := {
  vd_date_visited : Z;
  vd_user_rating : float;
  vd_amount_spent : option float;
  vd_notes : string
}.

(** A column declared without [null=True] refuses NULL when the row is
    written. *)
Definition not_null {A : Type} (o : option A) : DB A :=
  match o with
  | Some a => ret a
  | None => raise IntegrityError
  end.

(** INSERT of a [Visit]. *)
Definition Visit_insert (profile cafe : pk) (date : option Z)
    (rating amount : option float) (text : option string) : DB pk :=
  d <- not_null date ;;
  r <- not_null rating ;;
  a <- not_null amount ;;
  n <- not_null text ;;
  fun s =>
    let k := next_pk (map visit_id (visits s)) in
    (inr k, set_visits s (visits s ++
       [{| visit_id := k; visit_profile := profile; visit_cafe := cafe;
           date_visited := d; user_rating := r; amount_spent := a;
           notes := n |}])).

(** UPDATE of the four form columns of a [Visit]. *)
Definition Visit_update (v : Visit) (date : option Z)
    (rating amount : option float) (text : option string) : DB pk :=
  d <- not_null date ;;
  r <- not_null rating ;;
  a <- not_null amount ;;
  n <- not_null text ;;
  fun s =>
    (inr (visit_id v), set_visits s (replace_pk visit_id
       {| visit_id := visit_id v; visit_profile := visit_profile v;
          visit_cafe := visit_cafe v; date_visited := d; user_rating := r;
          amount_spent := a; notes := n |} (visits s))).

Definition VisitPhoto_insert (visit : pk) (image : string)
    (caption : option string) : DB pk :=
  c <- not_null caption ;;
  fun s =>
    let k := next_pk (map vphoto_id (visit_photos s)) in
    (inr k, set_visit_photos s (visit_photos s ++
       [{| vphoto_id := k; vphoto_visit := visit; vphoto_image := image;
           vphoto_caption := c |}])).

Definition VisitPhoto_update (k visit : pk) (d : PhotoData) : DB pk :=
  fun s =>
    (inr k, set_visit_photos s (replace_pk vphoto_id
       {| vphoto_id := k; vphoto_visit := visit; vphoto_image := pd_image d;
          vphoto_caption := pd_caption d |} (visit_photos s))).

Definition VisitPhoto_delete (k : pk) : DB unit :=
  fun s => (inr tt, set_visit_photos s (remove_pk vphoto_id k (visit_photos s))).

Definition FavoriteItem_insert (visit : pk) (name : option string)
    (price rating : option float) (description : option string) : DB pk :=
  n <- not_null name ;;
  p <- not_null price ;;
  r <- not_null rating ;;
  d <- not_null description ;;
  fun s =>
    let k := next_pk (map item_id (favorite_items s)) in
    (inr k, set_favorite_items s (favorite_items s ++
       [{| item_id := k; item_visit := visit; item_name := n;
           item_price := p; item_rating := r; item_description := d |}])).

Definition FavoriteItem_update (k visit : pk) (d : ItemData) : DB pk :=
  fun s =>
    (inr k, set_favorite_items s (replace_pk item_id
       {| item_id := k; item_visit := visit; item_name := idata_name d;
          item_price := idata_price d; item_rating := idata_rating d;
          item_description := idata_description d |} (favorite_items s))).

(** DELETE of a [FavoriteItem]; its [ItemPhoto] rows go with it
    ([on_delete=CASCADE]). *)
Definition FavoriteItem_delete (k : pk) : DB unit :=
  fun s =>
    (inr tt,
     set_item_photos
       (set_favorite_items s (remove_pk item_id k (favorite_items s)))
       (filter (fun p => negb (iphoto_item p =? k)) (item_photos s))).

Definition ItemPhoto_insert (item : pk) (image : string)
    (caption : option string) : DB pk :=
  c <- not_null caption ;;
  fun s =>
    let k := next_pk (map iphoto_id (item_photos s)) in
    (inr k, set_item_photos s (item_photos s ++
       [{| iphoto_id := k; iphoto_item := item; iphoto_image := image;
           iphoto_caption := c |}])).

Definition ItemPhoto_update (k item : pk) (d : PhotoData) : DB pk :=
  fun s =>
    (inr k, set_item_photos s (replace_pk iphoto_id
       {| iphoto_id := k; iphoto_item := item; iphoto_image := pd_image d;
          iphoto_caption := pd_caption d |} (item_photos s))).

Definition ItemPhoto_delete (k : pk) : DB unit :=
  fun s => (inr tt, set_item_photos s (remove_pk iphoto_id k (item_photos s))).

Definition Sticker_insert (visit type : pk) (x y rot sc : float)
    (image : option string) : DB pk :=
  fun s =>
    let k := next_pk (map sticker_id (stickers s)) in
    (inr k, set_stickers s (stickers s ++
       [{| sticker_id := k; sticker_visit := visit; sticker_type := type;
           x_position := x; y_position := y; rotation := rot; scale := sc;
           sticker_image := image |}])).

(** [sticker.save()] on a row read from the table. *)
Definition Sticker_save (r : Sticker) : DB unit :=
  fun s => (inr tt, set_stickers s (replace_pk sticker_id r (stickers s))).

(** [sticker.delete()]; no table refers to [Sticker]. *)
Definition Sticker_delete (r : Sticker) : DB unit :=
  fun s => (inr tt, set_stickers s (remove_pk sticker_id (sticker_id r) (stickers s))).

Definition wish_exists (profile cafe : pk) (s : Store) : bool :=
  existsb (fun w => (wish_profile w =? profile) && (wish_cafe w =? cafe)) (wishes s).

(** [CafeWish.objects.create(profile=.., cafe=..)]: the
    [unique_together] constraint refuses a second row for the pair. *)
Definition CafeWish_create (profile cafe : pk) : DB pk :=
  fun s =>
    if wish_exists profile cafe s then (inl IntegrityError, s)
    else
      let k := next_pk (map wish_id (wishes s)) in
      (inr k, set_wishes s (wishes s ++
         [{| wish_id := k; wish_profile := profile; wish_cafe := cafe;
             wish_visited := false |}])).

(** [get_object_or_404(Model, ...)] on the outcome of the lookup. *)
Definition get_object_or_404 {R : Type} (o : option R) : DB R :=
  match o with
  | Some r => ret r
  | None => raise Http404
  end.

(* ================================================================== *)
(** * Requests *)
(* ================================================================== *)

(** [request.user]: anonymous, or a user with or without a [CafeProfile]. *)
Inductive User : Type :=
| AnonymousUser
| AuthUser (cafe_profile : option pk).

Definition QueryDict : Type := list (string * string).

(** [request.FILES] maps a field name to an uploaded file, kept by its
    name; storing the bytes is the storage backend's work. *)
Record Request : Type := {
  body : string;
  POST : QueryDict;
  FILES : list (string * string);
  user : User
}.

(** [request.user.cafe_profile]. *)
Definition user_cafe_profile (u : User) : result pk :=
  match u with
  | AnonymousUser => inl AttributeError
  | AuthUser None => inl RelatedObjectDoesNotExist
  | AuthUser (Some p) => inr p
  end.

(* ================================================================== *)
(** * Django forms and formsets, as [forms.py] declares them *)
(* ================================================================== *)

(** [QueryDict.get(k)]. *)
Definition qd_get (d : QueryDict) (k : string) : option string := assoc_last k d.

Definition lower_ascii (c : ascii) : ascii :=
  let n := nat_of_ascii c in
  if (Nat.leb 65 n && Nat.leb n 90)%bool then ascii_of_nat (n + 32) else c.

Fixpoint lower (s : string) : string :=
  match s with
  | EmptyString => EmptyString
  | String c tl => String (lower_ascii c) (lower tl)
  end.

(** [CheckboxInput.value_from_datadict]: an absent key is unchecked, the
    texts true and false are read in any case, any other text counts by
    its truth value. *)
Definition checkbox (d : QueryDict) (k : string) : bool :=
  match qd_get d k with
  | None => false
  | Some v =>
      if String.eqb (lower v) "true" then true
      else if String.eqb (lower v) "false" then false
      else negb (String.eqb v "")
  end.

Definition string_of_nat (n : nat) : string :=
  NilEmpty.string_of_uint (Nat.to_uint n).

(** The name of field [name] under [prefix]. *)
Definition add_prefix (prefix name : string) : string :=
  (prefix ++ "-" ++ name)%string.

Definition or_empty (o : option string) : string :=
  match o with
  | Some t => t
  | None => ""
  end.

Section Fields.
Context {RT : PyRuntime}.

(** [forms.CharField(required, max_length).clean]: the text is stripped;
    [None] is a validation error. *)
Definition clean_char (required : bool) (max_length : option nat)
    (raw : option string) : option string :=
  let v := str_strip (or_empty raw) in
  if String.eqb v "" then (if required then None else Some "")
  else match max_length with
       | Some n => if Nat.ltb n (String.length v) then None else Some v
       | None => Some v
       end.

(** [forms.FloatField(required, min_value, max_value).clean]: an empty
    value is [None]; a value must be finite and within the bounds. *)
Definition clean_float (required : bool) (min_value max_value : option float)
    (raw : option string) : option (option float) :=
  if String.eqb (or_empty raw) "" then (if required then None else Some None)
  else
    match float_of_str (or_empty raw) with
    | None => None
    | Some f =>
        if negb (PrimFloat.is_finite f) then None
        else if match min_value with Some m => PrimFloat.ltb f m | None => false end
        then None
        else if match max_value with Some m => PrimFloat.ltb m f | None => false end
        then None
        else Some (Some f)
    end.

(** [forms.DateField().clean], required. *)
Definition clean_date (raw : option string) : option Z :=
  if String.eqb (or_empty raw) "" then None else form_parse_date (or_empty raw).

(** [forms.ImageField().clean(data, initial)], required: an upload must
    be an image; without an upload the stored file is kept. *)
Definition clean_image (upload : option string) (initial : option string) : option string :=
  match upload with
  | Some f => if valid_image f then Some f else None
  | None => initial
  end.

(** [forms.IntegerField().clean] of a hidden management field. *)
Definition clean_int (raw : option string) : option Z :=
  if String.eqb (or_empty raw) "" then None else form_parse_int (or_empty raw).

(** [VisitForm]: [date_visited], [user_rating] in 0..5, optional
    [amount_spent] from 0, and [notes].  The left summand names the
    fields in error. *)
Definition VisitForm (d : QueryDict) : list string + VisitData :=
  let date := clean_date (qd_get d "date_visited") in
  let rating := clean_float true (Some 0%float) (Some 5%float) (qd_get d "user_rating") in
  let amount := clean_float false (Some 0%float) None (qd_get d "amount_spent") in
  let text := clean_char false None (qd_get d "notes") in
  match date, rating, amount, text with
  | Some dt, Some (Some r), Some a, Some n =>
      inr {| vd_date_visited := dt; vd_user_rating := r;
             vd_amount_spent := a; vd_notes := n |}
  | _, _, _, _ =>
      inl ((match date with None => ["date_visited"] | _ => [] end) ++
           (match rating with Some (Some _) => [] | _ => ["user_rating"] end) ++
           (match amount with None => ["amount_spent"] | _ => [] end) ++
           (match text with None => ["notes"] | _ => [] end))
  end.

End Fields.

(** A bound form of a model formset.  [N] is the type of what the views
    hang on the form as [nested_photo_formset]. *)
Record BoundForm (D N : Type) : Type := {
  form_prefix : string;
  (** [form.instance.pk] *)
  form_instance : option pk;
  empty_permitted : bool;
  has_changed : bool;
  (** the DELETE checkbox as sent *)
  delete_checked : bool;
  (** the cleaned fields, or the names of the fields in error *)
  cleaned : list string + D;
  nested_photo_formset : option N
}.
Arguments form_prefix {D N} _.
Arguments form_instance {D N} _.
Arguments empty_permitted {D N} _.
Arguments has_changed {D N} _.
Arguments delete_checked {D N} _.
Arguments cleaned {D N} _.
Arguments nested_photo_formset {D N} _.

(** [full_clean] returns at once on a form that may be empty and has not
    changed: it is valid and its [cleaned_data] is the empty dict. *)
Definition skipped {D N : Type} (f : BoundForm D N) : bool :=
  empty_permitted f && negb (has_changed f).

(** [form.is_valid()]. *)
Definition form_is_valid {D N : Type} (f : BoundForm D N) : bool :=
  skipped f || match cleaned f with inr _ => true | inl _ => false end.

(** [form.cleaned_data] as a truth value: the dict is empty exactly for a
    skipped form; any other holds at least the DELETE entry. *)
Definition cleaned_data_truthy {D N : Type} (f : BoundForm D N) : bool :=
  negb (skipped f).

(** [form.cleaned_data.get('DELETE')]. *)
Definition cleaned_DELETE {D N : Type} (f : BoundForm D N) : bool :=
  cleaned_data_truthy f && delete_checked f.

Definition form_errors {D N : Type} (f : BoundForm D N) : list string :=
  if skipped f then []
  else match cleaned f with inl errs => errs | inr _ => [] end.

(** The options of a formset class. *)
Record FormSetFactory : Type := {
  extra : nat;
  max_num : nat;
  validate_max : bool;
  absolute_max : nat;
  min_num : nat;
  validate_min : bool;
  can_delete : bool
}.

(** [inlineformset_factory(parent, model, form=.., extra=.., max_num=..)]
    with Django's defaults for what is not passed: [validate_max] and
    [validate_min] are off, [absolute_max] is [max_num + 1000], [min_num]
    is 0 and [can_delete] is on. *)
Definition inlineformset_factory (extra max_num : nat) : FormSetFactory :=
  {| extra := extra; max_num := max_num; validate_max := false;
     absolute_max := max_num + 1000; min_num := 0; validate_min := false;
     can_delete := true |}.

Definition VisitPhotoFormSet : FormSetFactory := inlineformset_factory 1 5.
Definition ItemPhotoFormSetFactory : FormSetFactory := inlineformset_factory 1 2.
Definition FavoriteItemFormSet : FormSetFactory := inlineformset_factory 1 3.

(** A formset.  [management] holds the cleaned TOTAL_FORMS and
    INITIAL_FORMS, or [None] when the management form is invalid;
    [errors_cache] is [_errors]: [None] until [full_clean] has run. *)
Record FormSet (D N : Type) : Type := {
  factory : FormSetFactory;
  is_bound : bool;
  management : option (Z * Z);
  forms : list (BoundForm D N);
  errors_cache : option (list (list string))
}.
Arguments factory {D N} _.
Arguments is_bound {D N} _.
Arguments management {D N} _.
Arguments forms {D N} _.
Arguments errors_cache {D N} _.

Definition total_form_count (fac : FormSetFactory) (m : option (Z * Z)) : nat :=
  match m with
  | Some (total, _) => Z.to_nat (Z.min total (Z.of_nat (absolute_max fac)))
  | None => 0
  end.

Definition initial_form_count (m : option (Z * Z)) : Z :=
  match m with
  | Some (_, initial) => initial
  | None => 0
  end.

(** The position a Python slice bound [n] stands for in [l]: a negative
    bound counts from the end. *)
Definition slice_bound {A : Type} (n : Z) (l : list A) : nat :=
  if n <? 0 then Z.to_nat (Z.max 0 (Z.of_nat (List.length l) + n)) else Z.to_nat n.

(** [formset.initial_forms] is [forms[:initial_form_count]] and
    [formset.extra_forms] is [forms[initial_form_count:]]. *)
Definition initial_forms {A : Type} (n : Z) (l : list A) : list A :=
  firstn (slice_bound n l) l.

Definition extra_forms {A : Type} (n : Z) (l : list A) : list A :=
  skipn (slice_bound n l) l.

(** [_should_delete_form]. *)
Definition should_delete {D N : Type} (fac : FormSetFactory) (f : BoundForm D N) : bool :=
  can_delete fac && cleaned_DELETE f.

(** The errors of the formset as a whole: an invalid management form,
    too many forms, too few forms. *)
Definition non_form_errors {D N : Type} (fs : FormSet D N) : list string :=
  match management fs with
  | None => ["missing_management_form"]
  | Some (total, _) =>
      let fac := factory fs in
      let n := List.length (forms fs) in
      let deleted := List.length (filter (should_delete fac) (forms fs)) in
      let empty := List.length (filter (fun f => negb (has_changed f) && empty_permitted f)
                                  (forms fs)) in
      (if (validate_max fac && Nat.ltb (max_num fac) (n - deleted))
          || (Z.of_nat (absolute_max fac) <? total)
       then ["too_many_forms"] else []) ++
      (if validate_min fac && Nat.ltb (n - deleted - empty) (min_num fac)
       then ["too_few_forms"] else [])
  end.

(** [formset.is_valid()] as a value. *)
Definition is_valid {D N : Type} (fs : FormSet D N) : bool :=
  is_bound fs &&
  forallb (fun f => should_delete (factory fs) f || form_is_valid f) (forms fs) &&
  match non_form_errors fs with [] => true | _ => false end.

(** [formset.full_clean()]: what [is_valid()] leaves on the formset. *)
Definition full_clean {D N : Type} (fs : FormSet D N) : FormSet D N :=
  {| factory := factory fs; is_bound := is_bound fs;
     management := management fs; forms := forms fs;
     errors_cache :=
       if is_bound fs
       then Some (map form_errors
                    (filter (fun f => negb (should_delete (factory fs) f)) (forms fs)))
       else errors_cache fs |}.

(** [formset.errors]: [full_clean()] runs when it has not yet, then the
    errors of the forms that are not marked for deletion, form by form. *)
Definition errors {D N : Type} (fs : FormSet D N) : list (list string) :=
  match errors_cache fs with
  | Some e => e
  | None =>
      if is_bound fs
      then map form_errors
             (filter (fun f => negb (should_delete (factory fs) f)) (forms fs))
      else []
  end.

(** [formset.total_error_count()]. *)
Definition total_error_count {D N : Type} (fs : FormSet D N) : nat :=
  (if is_bound fs then List.length (non_form_errors fs) else 0%nat) +
  fold_right (fun form_errors n => (List.length form_errors + n)%nat) 0%nat (errors fs).

(** [FormSetClass(prefix=..)], without data: not bound and never valid.
    Its blank forms hold no data and no errors; they are left out. *)
Definition unbound {D N : Type} (fac : FormSetFactory) : FormSet D N :=
  {| factory := fac; is_bound := false; management := None; forms := [];
     errors_cache := None |}.

Section Binding.
Context {RT : PyRuntime}.

(** The instance of an initial form: the row of the formset's queryset
    whose key the hidden [id] field names, when there is one. *)
Definition existing_object {R : Type} (qs : list (pk * R)) (initial : bool)
    (raw_id : option string) : option (pk * R) :=
  if initial
  then match raw_id with
       | Some t => match int_of_str t with
                   | Some k => find (fun r => fst r =? k) qs
                   | None => None
                   end
       | None => None
       end
  else None.

(** The hidden [id] field is a [ModelChoiceField] over all the rows of
    the model, required on the initial forms only: the key of a row of
    the table, or empty on an extra form. *)
Definition id_field_ok (initial : bool) (table : list pk) (raw_id : option string) : bool :=
  if String.eqb (or_empty raw_id) "" then negb initial
  else match int_of_str (or_empty raw_id) with
       | Some k => existsb (Z.eqb k) table
       | None => false
       end.

(** [str(parent.pk)]. *)
Definition show_pk (parent : option pk) : string :=
  match parent with
  | Some k => NilZero.string_of_int (Z.to_int k)
  | None => "None"
  end.

(** The hidden field of the foreign key ([InlineForeignKeyField]): empty,
    or the text of the key of the parent instance. *)
Definition fk_field_ok (parent : option pk) (raw : option string) : bool :=
  String.eqb (or_empty raw) "" || String.eqb (or_empty raw) (show_pk parent).

(** [VisitPhotoForm] and [ItemPhotoForm] at [prefix] inside the inline
    formset of [parent], whose foreign key is the field [fk]; [table] are
    the keys of all the rows of the model and [qs] the rows of [parent]. *)
Definition bind_photo_form {N : Type} (d : QueryDict) (files : list (string * string))
    (fk : string) (parent : option pk) (table : list pk)
    (qs : list (pk * PhotoData)) (initial : bool) (prefix : string)
    : BoundForm PhotoData N :=
  let raw_id := qd_get d (add_prefix prefix "id") in
  let inst := existing_object qs initial raw_id in
  let upload := assoc_last (add_prefix prefix "image") files in
  let image := clean_image upload (option_map (fun r => pd_image (snd r)) inst) in
  let caption := clean_char false None (qd_get d (add_prefix prefix "caption")) in
  let del := checkbox d (add_prefix prefix "DELETE") in
  let id_ok := id_field_ok initial table raw_id in
  let fk_ok := fk_field_ok parent (qd_get d (add_prefix prefix fk)) in
  {| form_prefix := prefix;
     form_instance := option_map fst inst;
     empty_permitted := negb initial;
     has_changed :=
       match upload with Some _ => true | None => false end ||
       negb (String.eqb (or_empty caption)
               (match inst with Some r => pd_caption (snd r) | None => "" end)) ||
       del ||
       match inst with
       | Some _ => false
       | None => negb (String.eqb (or_empty raw_id) "")
       end;
     delete_checked := del;
     cleaned :=
       match image, caption, id_ok && fk_ok with
       | Some i, Some c, true => inr {| pd_image := i; pd_caption := c |}
       | _, _, _ =>
           inl ((match image with None => ["image"] | _ => [] end) ++
                (match caption with None => ["caption"] | _ => [] end) ++
                (if id_ok then [] else ["id"]) ++
                (if fk_ok then [] else [fk]))
       end;
     nested_photo_formset := None |}.

Definition float_changed (raw : option string) (stored : option float) : bool :=
  if String.eqb (or_empty raw) "" then match stored with Some _ => true | None => false end
  else match float_of_str (or_empty raw), stored with
       | Some f, Some g => negb (PrimFloat.eqb f g)
       | _, _ => true
       end.

(** [FavoriteItemForm] at [prefix] inside the inline formset of the visit
    [parent]. *)
Definition bind_item_form {N : Type} (d : QueryDict)
    (parent : option pk) (table : list pk)
    (qs : list (pk * ItemData)) (initial : bool) (prefix : string)
    : BoundForm ItemData N :=
  let raw_id := qd_get d (add_prefix prefix "id") in
  let inst := existing_object qs initial raw_id in
  let name := clean_char true (Some 255%nat) (qd_get d (add_prefix prefix "name")) in
  let price := clean_float true None None (qd_get d (add_prefix prefix "price")) in
  let rating := clean_float true None None (qd_get d (add_prefix prefix "rating")) in
  let description := clean_char false None (qd_get d (add_prefix prefix "description")) in
  let del := checkbox d (add_prefix prefix "DELETE") in
  let id_ok := id_field_ok initial table raw_id in
  let fk_ok := fk_field_ok parent (qd_get d (add_prefix prefix "visit")) in
  {| form_prefix := prefix;
     form_instance := option_map fst inst;
     empty_permitted := negb initial;
     has_changed :=
       negb (String.eqb (str_strip (or_empty (qd_get d (add_prefix prefix "name"))))
               (match inst with Some r => idata_name (snd r) | None => "" end)) ||
       float_changed (qd_get d (add_prefix prefix "price"))
         (option_map (fun r => idata_price (snd r)) inst) ||
       float_changed (qd_get d (add_prefix prefix "rating"))
         (option_map (fun r => idata_rating (snd r)) inst) ||
       negb (String.eqb (str_strip (or_empty (qd_get d (add_prefix prefix "description"))))
               (match inst with Some r => idata_description (snd r) | None => "" end)) ||
       del ||
       match inst with
       | Some _ => false
       | None => negb (String.eqb (or_empty raw_id) "")
       end;
     delete_checked := del;
     cleaned :=
       match name, price, rating, description, id_ok && fk_ok with
       | Some n, Some (Some p), Some (Some r), Some ds, true =>
           inr {| idata_name := n; idata_price := p; idata_rating := r;
                  idata_description := ds |}
       | _, _, _, _, _ =>
           inl ((match name with None => ["name"] | _ => [] end) ++
                (match price with Some (Some _) => [] | _ => ["price"] end) ++
                (match rating with Some (Some _) => [] | _ => ["rating"] end) ++
                (match description with None => ["description"] | _ => [] end) ++
                (if id_ok then [] else ["id"]) ++
                (if fk_ok then [] else ["visit"]))
       end;
     nested_photo_formset := None |}.

(** [FormSetClass(data, files, instance=.., prefix=prefix)]: the
    management form gives the counts, form [i] is bound at
    [prefix-i], and the forms below INITIAL_FORMS are the initial ones. *)
Definition bind_formset {D N : Type} (fac : FormSetFactory)
    (bind_form : bool -> string -> BoundForm D N) (d : QueryDict) (prefix : string)
    : FormSet D N :=
  let m := match clean_int (qd_get d (add_prefix prefix "TOTAL_FORMS")),
                 clean_int (qd_get d (add_prefix prefix "INITIAL_FORMS")) with
           | Some total, Some initial => Some (total, initial)
           | _, _ => None
           end in
  {| factory := fac; is_bound := true; management := m;
     forms := map (fun i => bind_form (Z.of_nat i <? initial_form_count m)
                              (add_prefix prefix (string_of_nat i)))
                (seq 0 (total_form_count fac m));
     errors_cache := None |}.

End Binding.

(** The writes a model formset makes for its model. *)
Record TableOps (D : Type) : Type := {
  op_insert : pk -> D -> DB pk;
  op_update : pk -> pk -> D -> DB pk;
  op_delete : pk -> DB unit
}.
Arguments op_insert {D} _.
Arguments op_update {D} _.
Arguments op_delete {D} _.

Definition visit_photo_ops : TableOps PhotoData :=
  {| op_insert := fun visit d => VisitPhoto_insert visit (pd_image d) (Some (pd_caption d));
     op_update := VisitPhoto_update;
     op_delete := VisitPhoto_delete |}.

Definition item_photo_ops : TableOps PhotoData :=
  {| op_insert := fun item d => ItemPhoto_insert item (pd_image d) (Some (pd_caption d));
     op_update := ItemPhoto_update;
     op_delete := ItemPhoto_delete |}.

(** [form.save()]: a form with errors cannot be saved. *)
Definition cleaned_or_raise {D N : Type} (f : BoundForm D N) : DB D :=
  match cleaned f with
  | inr d => ret d
  | inl _ => raise ValueError
  end.

(** [formset.instance = parent; formset.save()]: first the initial forms
    (a stored row is deleted when its form is among the deleted forms,
    written again when the form has changed), then the extra forms (a new
    row for each that has changed and is not marked for deletion). *)
Definition formset_save {D N : Type} (ops : TableOps D) (parent : pk)
    (fs : FormSet D N) : DB unit :=
  let n := initial_form_count (management fs) in
  for_each (initial_forms n (forms fs))
    (fun f =>
       match form_instance f with
       | None => ret tt
       | Some k =>
           if is_valid fs && should_delete (factory fs) f then op_delete ops k
           else if has_changed f
                then d <- cleaned_or_raise f ;; op_update ops k parent d ;;; ret tt
                else ret tt
       end) ;;;
  for_each (extra_forms n (forms fs))
    (fun f =>
       if negb (has_changed f) then ret tt
       else if should_delete (factory fs) f then ret tt
       else d <- cleaned_or_raise f ;; op_insert ops parent d ;;; ret tt).

(** The formset of the photos of one item, and the formset of the items
    with those hung on its forms. *)
Definition PhotoFormSet : Type := FormSet PhotoData Empty_set.
Definition ItemFormSet : Type := FormSet ItemData PhotoFormSet.
Definition ItemForm : Type := BoundForm ItemData PhotoFormSet.

(** What [get_context_data] puts in the context for [form_valid]. *)
Record TemplateContext : Type := {
  favorite_item_formset : ItemFormSet;
  visit_photo_formset : PhotoFormSet
}.

(* ================================================================== *)
(** * Responses *)
(* ================================================================== *)

(** [reverse(name, kwargs)], kept symbolic. *)
Inductive Route : Type :=
| route_login
| route_visit_detail (k : pk)
| route_show_cafe (k : pk)
| route_wishlist.

(** The flash messages of the views, by the line that sends them; the
    argument is the cafe name the text quotes. *)
Inductive Message : Type :=
| success_wish_added (name : string)
| info_wish_already (name : string)
| success_wish_selected (name : string)
| error_wish_exception (e : exn)
| error_select_cafe
| success_visit_logged (name : string)
| success_visit_updated (name : string)
| error_item_photos.

(** The JSON objects the views answer with. *)
Inductive Payload : Type :=
| status_success_id (k : pk)          (* {"status": "success", "id": k} *)
| status_success                      (* {"status": "success"} *)
| status_success_deleted (v : json)   (* {"status": "success", "message": "Sticker v deleted."} *)
| status_error (e : exn)              (* {"status": "error", "message": str(e)} *)
| detail (text : string)              (* {"detail": text} *)
| detail_exception (e : exn)          (* {"detail": "An internal server error occurred: ..."} *)
| success_redirect (to : Route).      (* {"success": True, "detail": .., "redirect_url": to} *)

(** What a page is rendered from: the formsets of the context of the
    visit views, as [get_context_data] has just built them; the two forms
    of the wishlist page, which are not looked into. *)
Inductive Context : Type :=
| visit_formsets (context : TemplateContext)
| wishlist_forms.

Inductive Response : Type :=
| JsonResponse (payload : Payload) (status : Z)
| HttpResponseBadRequest (content : string)
| HttpResponseRedirect (to : Route) (flash : list Message)
| TemplateResponse (template : string) (context : Context) (flash : list Message).

Definition status_code (r : Response) : Z :=
  match r with
  | JsonResponse _ st => st
  | HttpResponseBadRequest _ => 400
  | HttpResponseRedirect _ _ => 302
  | TemplateResponse _ _ _ => 200
  end.

(** [LoginRequiredMixin.dispatch]. *)
Definition login_required (req : Request) (view : DB Response) : DB Response :=
  match user req with
  | AnonymousUser => ret (HttpResponseRedirect route_login [])
  | AuthUser _ => view
  end.

(* ================================================================== *)
(** * The sticker controller *)
(* ================================================================== *)

Section Lookups.
Context {RT : PyRuntime}.

(** [get_object_or_404(Visit, pk=v)]. *)
Definition Visit_or_404 (v : json) : DB Visit :=
  k <- lift (int_prep v) ;;
  row <- query (fun s => find_pk visit_id (visits s) k) ;;
  get_object_or_404 row.

(** [get_object_or_404(Sticker, pk=v)]. *)
Definition Sticker_or_404 (v : json) : DB Sticker :=
  k <- lift (int_prep v) ;;
  row <- query (fun s => find_pk sticker_id (stickers s) k) ;;
  get_object_or_404 row.

(** [get_object_or_404(StickerType, name=v)]. *)
Definition StickerType_or_404 (v : json) : DB StickerType :=
  row <- query (fun s =>
           match char_prep v with
           | None => None
           | Some n => find (fun t => String.eqb (stype_name t) n) (sticker_types s)
           end) ;;
  get_object_or_404 row.

(** [get_object_or_404(Cafe, pk=k)] for a key taken from the URL. *)
Definition Cafe_or_404 (k : pk) : DB Cafe :=
  row <- query (fun s => find_pk cafe_id (cafes s) (Some k)) ;;
  get_object_or_404 row.

(** [float(data.get(k))]. *)
Definition float_field (data : json) (k : string) : DB float :=
  v <- lift (py_get data k) ;;
  lift (py_float v).

(** [float(data.get(k, d))]. *)
Definition float_field_default (data : json) (k : string) (d : float) : DB float :=
  v <- lift (py_get_default data k (JFloat d)) ;;
  lift (py_float v).

End Lookups.

Module PlaceStickerView.
Section View.
Context {RT : PyRuntime}.

(** The body of the [try] once [data] is bound. *)
Definition place (data : json) : DB Response :=
  v_id <- lift (py_get data "visit_id") ;;
  sticker_type_name <- lift (py_get data "sticker_type") ;;
  x <- float_field_default data "x" 0%float ;;
  y <- float_field_default data "y" 0%float ;;
  rot <- float_field_default data "rotation" 0%float ;;
  sc <- float_field_default data "scale" 1%float ;;
  visit <- Visit_or_404 v_id ;;
  sticker_type_obj <- StickerType_or_404 sticker_type_name ;;
  new_sticker <- Sticker_insert (visit_id visit) (stype_id sticker_type_obj)
                   x y rot sc (Some (stype_image sticker_type_obj)) ;;
  ret (JsonResponse (status_success_id new_sticker) 200).

(** [post].  The handler prints [data]: when [json.loads] itself raised,
    the name is unbound and the handler raises in turn. *)
Definition post (req : Request) : DB Response :=
  match json_loads (body req) with
  | None => raise UnboundLocalError
  | Some data =>
      try_except (place data)
        (fun e => ret (JsonResponse (status_error e) 400))
  end.

Definition dispatch (req : Request) : DB Response :=
  login_required req (post req).

End View.
End PlaceStickerView.

Module UpdateStickerView.
Section View.
Context {RT : PyRuntime}.

(** The body of the [try] once [data] is bound. *)
Definition update (data : json) : DB Response :=
  s_id <- lift (py_get data "sticker_id") ;;
  sticker <- Sticker_or_404 s_id ;;
  x <- float_field data "x" ;;
  y <- float_field data "y" ;;
  rot <- float_field data "rotation" ;;
  sc <- float_field data "scale" ;;
  Sticker_save {| sticker_id := sticker_id sticker;
                  sticker_visit := sticker_visit sticker;
                  sticker_type := sticker_type sticker;
                  x_position := x; y_position := y;
                  rotation := rot; scale := sc;
                  sticker_image := sticker_image sticker |} ;;;
  ret (JsonResponse status_success 200).

Definition post (req : Request) : DB Response :=
  match json_loads (body req) with
  | None => raise UnboundLocalError
  | Some data =>
      try_except (update data)
        (fun e => ret (JsonResponse (status_error e) 400))
  end.

End View.
End UpdateStickerView.

Module StickerDeleteView.
Section View.
Context {RT : PyRuntime}.

(** The second [try]. *)
Definition delete (s_id : json) : DB Response :=
  sticker <- Sticker_or_404 s_id ;;
  Sticker_delete sticker ;;;
  ret (JsonResponse (status_success_deleted s_id) 200).

(** [post].  The first [try] catches [json.JSONDecodeError] only: a body
    that is not text, or is nested too deep, leaves the view with the
    exception of the decoder, and so does the [AttributeError] of
    [data.get] on a document that is not an object. *)
Definition post (req : Request) : DB Response :=
  match json_loads (body req) with
  | None =>
      match json_fault (body req) with
      | not_json => ret (HttpResponseBadRequest "Invalid JSON format.")
      | fault => raise (decode_exn fault)
      end
  | Some data =>
      s_id <- lift (py_get data "sticker_id") ;;
      if negb (truthy s_id)
      then ret (HttpResponseBadRequest "Missing sticker_id in request body.")
      else try_except (delete s_id)
             (fun e => ret (JsonResponse (status_error e) 500))
  end.

End View.
End StickerDeleteView.

(* ================================================================== *)
(** * The wishlist *)
(* ================================================================== *)

Module AddToWishlistView.

Definition post (req : Request) (cafe_pk : pk) : DB Response :=
  cafe <- Cafe_or_404 cafe_pk ;;
  profile <- lift (user_cafe_profile (user req)) ;;
  found <- query (wish_exists profile (cafe_id cafe)) ;;
  if negb found
  then CafeWish_create profile (cafe_id cafe) ;;;
       ret (HttpResponseRedirect (route_show_cafe cafe_pk)
              [success_wish_added (cafe_name cafe)])
  else ret (HttpResponseRedirect (route_show_cafe cafe_pk)
              [info_wish_already (cafe_name cafe)]).

Definition dispatch (req : Request) (cafe_pk : pk) : DB Response :=
  login_required req (post req cafe_pk).

End AddToWishlistView.

Module AddWishlistView.
Section View.
Context {RT : PyRuntime}.

(** [WishlistAddForm({'cafe_choice': raw})]: the [ModelChoiceField]
    resolves a non-empty value to the cafe with that key. *)
Definition clean_cafe_choice (raw : string) (s : Store) : option Cafe :=
  match int_of_str raw with
  | Some k => find_pk cafe_id (cafes s) (Some k)
  | None => None
  end.

(** The branch of [post] for a cafe picked from the list: it is taken
    when the new-cafe form was not submitted and [cafe_choice] is in the
    POST data with a non-empty value. *)
Definition post_cafe_choice (req : Request) (raw : string) : DB Response :=
  choice <- query (clean_cafe_choice raw) ;;
  match choice with
  | Some cafe_choice =>
      try_except
        (profile <- lift (user_cafe_profile (user req)) ;;
         found <- query (wish_exists profile (cafe_id cafe_choice)) ;;
         (if negb found
          then CafeWish_create profile (cafe_id cafe_choice) ;;; ret tt
          else ret tt) ;;;
         ret (HttpResponseRedirect route_wishlist
                [success_wish_selected (cafe_name cafe_choice)]))
        (fun e => ret (TemplateResponse "project/add_to_wishlist.html"
                         wishlist_forms [error_wish_exception e]))
  | None =>
      ret (TemplateResponse "project/add_to_wishlist.html"
             wishlist_forms [error_select_cafe])
  end.

End View.
End AddWishlistView.

(* ================================================================== *)
(** * The nested save, protocol A: [VisitCreateView], [VisitUpdateView] *)
(* ================================================================== *)

(** [form.prefix.replace(item_formset.prefix, 'item_photos')]: the formset
    prefix is [items] and a form prefix is [items-i], with the one
    occurrence at its head. *)
Definition nested_prefix (form_prefix : string) : string :=
  match form_prefix with
  | String "i" (String "t" (String "e" (String "m" (String "s" rest)))) =>
      ("item_photos" ++ rest)%string
  | _ => form_prefix
  end.

(** [form.nested_photo_formset = fs]. *)
Definition attach (f : ItemForm) (fs : PhotoFormSet) : ItemForm :=
  {| form_prefix := form_prefix f; form_instance := form_instance f;
     empty_permitted := empty_permitted f; has_changed := has_changed f;
     delete_checked := delete_checked f; cleaned := cleaned f;
     nested_photo_formset := Some fs |}.

Definition with_forms (fs : ItemFormSet) (l : list ItemForm) : ItemFormSet :=
  {| factory := factory fs; is_bound := is_bound fs;
     management := management fs; forms := l;
     errors_cache := errors_cache fs |}.

Definition nonempty {A : Type} (l : list A) : bool :=
  match l with
  | [] => false
  | _ => true
  end.

(** The loop that checks the nested formsets (the same in both views).
    [is_valid()] is called on the nested formset of each form that is not
    marked for deletion and has one, until one is invalid: the loop
    breaks there.  The forms come back with what the calls left in the
    caches of their nested formsets. *)
Fixpoint check_nested (item_forms : list ItemForm) : bool * list ItemForm :=
  match item_forms with
  | [] => (true, [])
  | item_form :: rest =>
      match nested_photo_formset item_form with
      | Some nested =>
          if negb (cleaned_DELETE item_form)
          then
            if negb (is_valid nested)
            then (false, attach item_form (full_clean nested) :: rest)
            else let (ok, rest') := check_nested rest in
                 (ok, attach item_form (full_clean nested) :: rest')
          else let (ok, rest') := check_nested rest in (ok, item_form :: rest')
      | None => let (ok, rest') := check_nested rest in (ok, item_form :: rest')
      end
  end.

Definition is_ok {E A : Type} (x : E + A) : bool :=
  match x with
  | inr _ => true
  | inl _ => false
  end.

(** [favorite_item = item_form.save(commit=False);
     favorite_item.visit = self.object; favorite_item.save()] and the save
    of the nested formset when the form has one. *)
Definition save_item_form (visit : pk) (item_form : ItemForm) : DB unit :=
  d <- cleaned_or_raise item_form ;;
  favorite_item <-
    match form_instance item_form with
    | Some k => FavoriteItem_update k visit d
    | None => FavoriteItem_insert visit (Some (idata_name d)) (Some (idata_price d))
                (Some (idata_rating d)) (Some (idata_description d))
    end ;;
  match nested_photo_formset item_form with
  | Some nested => formset_save item_photo_ops favorite_item nested
  | None => ret tt
  end.

Module VisitCreateView.
Section View.
Context {RT : PyRuntime}.

Definition template : string := "project/create_visit.html".

(** [get_context_data]: the two formsets bound to the POST data, without
    an instance, and a nested photo formset on every item form.  The
    store is read for the keys the hidden [id] fields may name. *)
Definition get_context_data (req : Request) (s : Store) : TemplateContext :=
  let item_formset : ItemFormSet :=
    if nonempty (POST req)
    then bind_formset FavoriteItemFormSet
           (bind_item_form (POST req) None (map item_id (favorite_items s)) [])
           (POST req) "items"
    else unbound FavoriteItemFormSet in
  let photo_formset : PhotoFormSet :=
    if nonempty (POST req)
    then bind_formset VisitPhotoFormSet
           (bind_photo_form (POST req) (FILES req) "visit" None
              (map vphoto_id (visit_photos s)) [])
           (POST req) "photos"
    else unbound VisitPhotoFormSet in
  let nested (form : ItemForm) : PhotoFormSet :=
    if nonempty (POST req) || nonempty (FILES req)
    then bind_formset ItemPhotoFormSetFactory
           (bind_photo_form (POST req) (FILES req) "favorite_item" None
              (map iphoto_id (item_photos s)) [])
           (POST req) (nested_prefix (form_prefix form))
    else unbound ItemPhotoFormSetFactory in
  {| favorite_item_formset :=
       with_forms item_formset
         (map (fun form => attach form (nested form)) (forms item_formset));
     visit_photo_formset := photo_formset |}.

(** The loop body of the save.  In this view a form marked for deletion
    calls [delete()] on its instance whatever it is; an instance that was
    never saved refuses. *)
Definition save_or_delete (visit : pk) (item_form : ItemForm) : DB unit :=
  if cleaned_data_truthy item_form && negb (cleaned_DELETE item_form)
  then save_item_form visit item_form
  else if cleaned_data_truthy item_form && cleaned_DELETE item_form
  then match form_instance item_form with
       | Some k => FavoriteItem_delete k
       | None => raise ValueError
       end
  else ret tt.

(** The body of [with transaction.atomic()]. *)
Definition save_all (req : Request) (cafe : Cafe) (form : VisitData)
    (photos : PhotoFormSet) (item_forms : list ItemForm) : DB pk :=
  profile <- lift (user_cafe_profile (user req)) ;;
  object <- Visit_insert profile (cafe_id cafe) (Some (vd_date_visited form))
              (Some (vd_user_rating form)) (vd_amount_spent form)
              (Some (vd_notes form)) ;;
  formset_save visit_photo_ops object photos ;;;
  for_each item_forms (save_or_delete object) ;;;
  ret object.

(** [self.render_to_response(self.get_context_data(form=form))]: the
    page is rendered from a context built anew, whose formsets are bound
    to the request again and have not been cleaned yet. *)
Definition render_to_response (req : Request) (flash : list Message) : DB Response :=
  context <- query (get_context_data req) ;;
  ret (TemplateResponse template (visit_formsets context) flash).

Definition form_valid (req : Request) (cafe : Cafe) (form : list string + VisitData)
    : DB Response :=
  context <- query (get_context_data req) ;;
  match form with
  | inr data =>
      if negb (is_valid (visit_photo_formset context))
         || negb (is_valid (favorite_item_formset context))
      then render_to_response req []
      else
        let (all_nested_valid, item_forms) :=
          check_nested (forms (favorite_item_formset context)) in
        if negb all_nested_valid
        then render_to_response req [error_item_photos]
        else
          object <- atomic (save_all req cafe data (visit_photo_formset context)
                              item_forms) ;;
          ret (HttpResponseRedirect (route_visit_detail object)
                 [success_visit_logged (cafe_name cafe)])
  | inl _ => render_to_response req []
  end.

(** [ProcessFormView.post]; an invalid form goes to [form_invalid], which
    renders the page as above. *)
Definition post (req : Request) (cafe : Cafe) : DB Response :=
  let form := VisitForm (POST req) in
  if is_ok form then form_valid req cafe form
  else render_to_response req [].

(** [dispatch]: the cafe of the route is loaded first, then the login is
    checked. *)
Definition dispatch (req : Request) (cafe_pk : pk) : DB Response :=
  cafe <- Cafe_or_404 cafe_pk ;;
  login_required req (post req cafe).

End View.
End VisitCreateView.

Module VisitUpdateView.
Section View.
Context {RT : PyRuntime}.

Definition template : string := "project/update_visit.html".

Definition photos_of_visit (visit : pk) (s : Store) : list (pk * PhotoData) :=
  map (fun p => (vphoto_id p,
                 {| pd_image := vphoto_image p; pd_caption := vphoto_caption p |}))
    (filter (fun p => vphoto_visit p =? visit) (visit_photos s)).

Definition items_of_visit (visit : pk) (s : Store) : list (pk * ItemData) :=
  map (fun i => (item_id i,
                 {| idata_name := item_name i; idata_price := item_price i;
                    idata_rating := item_rating i;
                    idata_description := item_description i |}))
    (filter (fun i => item_visit i =? visit) (favorite_items s)).

Definition photos_of_item (item : pk) (s : Store) : list (pk * PhotoData) :=
  map (fun p => (iphoto_id p,
                 {| pd_image := iphoto_image p; pd_caption := iphoto_caption p |}))
    (filter (fun p => iphoto_item p =? item) (item_photos s)).

(** [get_context_data]: the formsets bound to the POST data over the rows
    of the visit; a nested photo formset only on the forms of stored
    items. *)
Definition get_context_data (req : Request) (visit : Visit) (s : Store)
    : TemplateContext :=
  let item_formset : ItemFormSet :=
    if nonempty (POST req)
    then bind_formset FavoriteItemFormSet
           (bind_item_form (POST req) (Some (visit_id visit))
              (map item_id (favorite_items s)) (items_of_visit (visit_id visit) s))
           (POST req) "items"
    else unbound FavoriteItemFormSet in
  let photo_formset : PhotoFormSet :=
    if nonempty (POST req)
    then bind_formset VisitPhotoFormSet
           (bind_photo_form (POST req) (FILES req) "visit" (Some (visit_id visit))
              (map vphoto_id (visit_photos s)) (photos_of_visit (visit_id visit) s))
           (POST req) "photos"
    else unbound VisitPhotoFormSet in
  let nested (form : ItemForm) (k : pk) : PhotoFormSet :=
    if nonempty (POST req) || nonempty (FILES req)
    then bind_formset ItemPhotoFormSetFactory
           (bind_photo_form (POST req) (FILES req) "favorite_item" (Some k)
              (map iphoto_id (item_photos s)) (photos_of_item k s))
           (POST req) (nested_prefix (form_prefix form))
    else unbound ItemPhotoFormSetFactory in
  {| favorite_item_formset :=
       with_forms item_formset
         (map (fun form => match form_instance form with
                           | Some k => attach form (nested form k)
                           | None => form
                           end) (forms item_formset));
     visit_photo_formset := photo_formset |}.

(** The loop body of the save.  Here the deletion is guarded by
    [if item_form.instance.pk]. *)
Definition save_or_delete (visit : pk) (item_form : ItemForm) : DB unit :=
  if cleaned_data_truthy item_form && negb (cleaned_DELETE item_form)
  then save_item_form visit item_form
  else if cleaned_data_truthy item_form && cleaned_DELETE item_form
  then match form_instance item_form with
       | Some k => FavoriteItem_delete k
       | None => ret tt
       end
  else ret tt.

(** The body of [with transaction.atomic()]. *)
Definition save_all (visit : Visit) (form : VisitData)
    (photos : PhotoFormSet) (item_forms : list ItemForm) : DB pk :=
  object <- Visit_update visit (Some (vd_date_visited form))
              (Some (vd_user_rating form)) (vd_amount_spent form)
              (Some (vd_notes form)) ;;
  formset_save visit_photo_ops object photos ;;;
  for_each item_forms (save_or_delete object) ;;;
  ret object.

(** [self.object.cafe.name] *)
Definition cafe_name_of (visit : Visit) : DB string :=
  row <- query (fun s => find_pk cafe_id (cafes s) (Some (visit_cafe visit))) ;;
  match row with
  | Some c => ret (cafe_name c)
  | None => raise DoesNotExist
  end.

(** [self.render_to_response(self.get_context_data(form=form))], as in
    the creation view. *)
Definition render_to_response (req : Request) (visit : Visit) (flash : list Message)
    : DB Response :=
  context <- query (get_context_data req visit) ;;
  ret (TemplateResponse template (visit_formsets context) flash).

Definition form_valid (req : Request) (visit : Visit) (form : list string + VisitData)
    : DB Response :=
  context <- query (get_context_data req visit) ;;
  match form with
  | inr data =>
      if negb (is_valid (visit_photo_formset context))
         || negb (is_valid (favorite_item_formset context))
      then render_to_response req visit []
      else
        let (all_nested_valid, item_forms) :=
          check_nested (forms (favorite_item_formset context)) in
        if negb all_nested_valid
        then render_to_response req visit [error_item_photos]
        else
          object <- atomic (save_all visit data (visit_photo_formset context)
                              item_forms) ;;
          name <- cafe_name_of visit ;;
          ret (HttpResponseRedirect (route_visit_detail object)
                 [success_visit_updated name])
  | inl _ => render_to_response req visit []
  end.

(** [BaseUpdateView.post]: the visit of the route is loaded, the form is
    bound to it. *)
Definition post (req : Request) (visit_pk : pk) : DB Response :=
  row <- query (fun s => find_pk visit_id (visits s) (Some visit_pk)) ;;
  visit <- get_object_or_404 row ;;
  let form := VisitForm (POST req) in
  if is_ok form then form_valid req visit form
  else render_to_response req visit [].

Definition dispatch (req : Request) (visit_pk : pk) : DB Response :=
  login_required req (post req visit_pk).

End View.
End VisitUpdateView.

(* ================================================================== *)
(** * The nested save, protocol B: [LogCafeVisitView] *)
(* ================================================================== *)

Module LogCafeVisitView.
Section View.
Context {RT : PyRuntime}.

(** The value a float column takes from a text of the POST data. *)
Definition float_column (raw : option string) : result (option float) :=
  match raw with
  | None => inr None
  | Some t => match float_of_str t with
              | Some f => inr (Some f)
              | None => inl ValueError
              end
  end.

(** The value a date column takes from a text of the POST data. *)
Definition date_column (raw : option string) : result (option Z) :=
  match raw with
  | None => inr None
  | Some t => match model_parse_date t with
              | Some d => inr (Some d)
              | None => inl ValidationError
              end
  end.

(** [Visit.objects.create(profile=.., cafe=.., date_visited=..,
    user_rating=.., amount_spent=.., notes=..)] on texts of the POST data:
    the columns are converted in the order of the model, then the row is
    written. *)
Definition Visit_objects_create (profile cafe : pk)
    (date rating amount text : option string) : DB pk :=
  d <- lift (date_column date) ;;
  r <- lift (float_column rating) ;;
  a <- lift (float_column amount) ;;
  Visit_insert profile cafe d r a text.

(** [FavoriteItem.objects.create(visit=.., name=.., price=.., rating=..,
    description=..)] on members of the document. *)
Definition FavoriteItem_objects_create (visit : pk)
    (name price rating description : json) : DB pk :=
  p <- lift (float_prep price) ;;
  r <- lift (float_prep rating) ;;
  FavoriteItem_insert visit (char_prep name) p r (char_prep description).

(** [file_key and file_key in request.FILES]: a list or a dict cannot be
    hashed; a key that is not a str names no file. *)
Definition resolves (files : list (string * string)) (file_key : json)
    : result (option string) :=
  if negb (truthy file_key) then inr None
  else match file_key with
       | JStr k => inr (assoc_last k files)
       | JArr _ | JObj _ => inl TypeError
       | _ => inr None
       end.

(** The body of the loop over [visitPhotos]. *)
Definition save_visit_photo (files : list (string * string)) (visit : pk)
    (photo_data : json) : DB unit :=
  file_key <- lift (py_get photo_data "file_key") ;;
  caption <- lift (py_get photo_data "caption") ;;
  upload <- lift (resolves files file_key) ;;
  match upload with
  | Some image => VisitPhoto_insert visit image (char_prep caption) ;;; ret tt
  | None => ret tt
  end.

(** The body of the loop over the [photos] of an item. *)
Definition save_item_photo (files : list (string * string)) (item : pk)
    (item_photo_data : json) : DB unit :=
  item_file_key <- lift (py_get item_photo_data "file_key") ;;
  item_caption <- lift (py_get item_photo_data "caption") ;;
  upload <- lift (resolves files item_file_key) ;;
  match upload with
  | Some image => ItemPhoto_insert item image (char_prep item_caption) ;;; ret tt
  | None => ret tt
  end.

(** The body of the loop over [favoriteItems]. *)
Definition save_favorite_item (files : list (string * string)) (visit : pk)
    (item_data : json) : DB unit :=
  name <- lift (py_get item_data "name") ;;
  if negb (truthy name) then ret tt
  else
    price <- lift (py_get item_data "price") ;;
    rating <- lift (py_get item_data "rating") ;;
    description <- lift (py_get item_data "description") ;;
    favorite_item <- FavoriteItem_objects_create visit name price rating description ;;
    photos <- lift (py_get_default item_data "photos" (JArr [])) ;;
    photo_list <- lift (py_iter photos) ;;
    for_each photo_list (save_item_photo files favorite_item).

Definition save_favorite_items (files : list (string * string)) (visit : pk)
    (dynamic_data : json) : DB unit :=
  items <- lift (py_get_default dynamic_data "favoriteItems" (JArr [])) ;;
  item_list <- lift (py_iter items) ;;
  for_each item_list (save_favorite_item files visit).

(** The body of [with transaction.atomic()]. *)
Definition save_all (req : Request) (cafe : Cafe) (dynamic_data : json) : DB pk :=
  profile <- lift (user_cafe_profile (user req)) ;;
  new_visit <- Visit_objects_create profile (cafe_id cafe)
                 (qd_get (POST req) "date_visited")
                 (qd_get (POST req) "user_rating")
                 (qd_get (POST req) "amount_spent")
                 (qd_get (POST req) "notes") ;;
  photos <- lift (py_get_default dynamic_data "visitPhotos" (JArr [])) ;;
  photo_list <- lift (py_iter photos) ;;
  for_each photo_list (save_visit_photo (FILES req) new_visit) ;;;
  save_favorite_items (FILES req) new_visit dynamic_data ;;;
  ret new_visit.

(** What [json.loads] raises on a str of the POST data: there are no
    bytes to decode. *)
Definition str_decode_exn (f : DecodeFault) : exn :=
  match f with
  | too_deep => RecursionError
  | _ => JSONDecodeError
  end.

(** The body of the [try]. *)
Definition attempt (req : Request) (cafe_pk : pk) : DB Response :=
  cafe <- Cafe_or_404 cafe_pk ;;
  match qd_get (POST req) "dynamic_data" with
  | None | Some "" =>
      ret (JsonResponse (detail "Missing 'dynamic_data' payload.") 400)
  | Some dynamic_data_json =>
      match json_loads dynamic_data_json with
      | None => raise (str_decode_exn (json_fault dynamic_data_json))
      | Some dynamic_data =>
          new_visit <- atomic (save_all req cafe dynamic_data) ;;
          ret (JsonResponse (success_redirect (route_visit_detail new_visit)) 200)
      end
  end.

(** The three [except] clauses. *)
Definition handler (e : exn) : DB Response :=
  match e with
  | JSONDecodeError =>
      ret (JsonResponse (detail "Invalid JSON format in 'dynamic_data' field.") 400)
  | IntegrityError =>
      ret (JsonResponse
             (detail "A database error occurred (missing required data or constraint violation).")
             500)
  | _ => ret (JsonResponse (detail_exception e) 500)
  end.

Definition post (req : Request) (cafe_pk : pk) : DB Response :=
  try_except (attempt req cafe_pk) handler.

Definition dispatch (req : Request) (cafe_pk : pk) : DB Response :=
  login_required req (post req cafe_pk).

End View.
End LogCafeVisitView.

(* ================================================================== *)
(** * Vocabulary of the statements *)
(* ================================================================== *)

Section Vocabulary.
Context {RT : PyRuntime}.

(** [float(v)] returns. *)
Definition numeric (v : json) : bool :=
  match py_float v with
  | inr _ => true
  | inl _ => false
  end.

(** [data] is an object whose member [k] is there and numeric. *)
Definition numeric_field (data : json) (k : string) : bool :=
  match data with
  | JObj kvs =>
      match assoc_last k kvs with
      | Some v => numeric v
      | None => false
      end
  | _ => false
  end.

End Vocabulary.

Section Transactions.
Context {RT : PyRuntime}.

(** The transaction [VisitCreateView.form_valid] opens for a valid form,
    entered on the store [s]. *)
Definition create_transaction (req : Request) (cafe : Cafe) (data : VisitData)
    (s : Store) : DB pk :=
  let context := VisitCreateView.get_context_data req s in
  VisitCreateView.save_all req cafe data (visit_photo_formset context)
    (snd (check_nested (forms (favorite_item_formset context)))).

(** The transaction [VisitUpdateView.form_valid] opens for a valid form,
    entered on the store [s]. *)
Definition update_transaction (req : Request) (visit : Visit) (data : VisitData)
    (s : Store) : DB pk :=
  let context := VisitUpdateView.get_context_data req visit s in
  VisitUpdateView.save_all visit data (visit_photo_formset context)
    (snd (check_nested (forms (favorite_item_formset context)))).

End Transactions.

(** The visit a response announces as created: the redirect of protocol
    A, the JSON success of protocol B. *)
Definition created (r : result Response) : option pk :=
  match r with
  | inr (HttpResponseRedirect (route_visit_detail k) _) => Some k
  | inr (JsonResponse (success_redirect (route_visit_detail k)) _) => Some k
  | _ => None
  end.

(** The fields by which a client could name an owner or a cafe in the
    body of the request. *)
Definition client_owner_field (k : string) : bool :=
  String.eqb k "profile" || String.eqb k "cafe".

(** Two requests that differ at most in those fields. *)
Definition same_but_profile_cafe (r1 r2 : Request) : Prop :=
  body r1 = body r2 /\ FILES r1 = FILES r2 /\ user r1 = user r2 /\
  forall k, client_owner_field k = false -> qd_get (POST r1) k = qd_get (POST r2) k.

(** Two answers that differ at most in the context a page is rendered
    from. *)
Definition same_but_context (r1 r2 : result Response) : Prop :=
  match r1, r2 with
  | inr (TemplateResponse t1 _ flash1), inr (TemplateResponse t2 _ flash2) =>
      t1 = t2 /\ flash1 = flash2
  | _, _ => r1 = r2
  end.

(** The nested photo formset of an item form is checked by the loop: the
    form is not marked for deletion and has one. *)
Definition checked (f : ItemForm) : bool :=
  negb (cleaned_DELETE f) &&
  match nested_photo_formset f with Some _ => true | None => false end.

(** ... and it is invalid. *)
Definition nested_invalid (f : ItemForm) : bool :=
  negb (cleaned_DELETE f) &&
  match nested_photo_formset f with
  | Some nested => negb (is_valid nested)
  | None => false
  end.

(** [is_valid()] has run on the nested photo formset of the form. *)
Definition inspected (f : ItemForm) : bool :=
  match nested_photo_formset f with
  | Some nested => match errors_cache nested with Some _ => true | None => false end
  | None => false
  end.

(** What the check leaves on a form it visits. *)
Definition inspect (f : ItemForm) : ItemForm :=
  match nested_photo_formset f with
  | Some nested => if negb (cleaned_DELETE f) then attach f (full_clean nested) else f
  | None => f
  end.

(** The two views of protocol A, each with what its [form_valid] is given
    beside the request: the cafe of the route, the visit of the route. *)
Inductive ProtocolA : Type :=
| creating (cafe : Cafe)
| updating (visit : Visit).

Section ProtocolA.
Context {RT : PyRuntime}.

Definition context_of (view : ProtocolA) (req : Request) (s : Store) : TemplateContext :=
  match view with
  | creating _ => VisitCreateView.get_context_data req s
  | updating visit => VisitUpdateView.get_context_data req visit s
  end.

Definition form_valid_of (view : ProtocolA) (req : Request)
    (form : list string + VisitData) : DB Response :=
  match view with
  | creating cafe => VisitCreateView.form_valid req cafe form
  | updating visit => VisitUpdateView.form_valid req visit form
  end.

Definition template_of (view : ProtocolA) : string :=
  match view with
  | creating _ => VisitCreateView.template
  | updating _ => VisitUpdateView.template
  end.

End ProtocolA.

(** The reading of the specification: when several item forms have an
    invalid nested photo formset, the check has run on each of them. *)
Definition nested_validation_is_exhaustive : Prop :=
  forall (RT : PyRuntime) (view : ProtocolA) (req : Request) (s : Store),
    let item_forms := forms (favorite_item_formset (context_of view req s)) in
    (2 <= List.length (filter nested_invalid item_forms))%nat ->
    forall f, In f (snd (check_nested item_forms)) ->
              nested_invalid f = true -> inspected f = true.

(** The reading of the specification for a deletion whose [sticker_id] is
    there and names no sticker: the answer has status 500 and the store is
    as it was. *)
Definition unresolved_delete_is_500 : Prop :=
  forall (RT : PyRuntime) (req : Request) (kvs : list (string * json)) (v : json)
         (s : Store),
    json_loads (body req) = Some (JObj kvs) ->
    assoc_last "sticker_id" kvs = Some v ->
    (forall st, fst (Sticker_or_404 v s) <> inr st) ->
    exists r, StickerDeleteView.post req s = (inr r, s) /\ status_code r = 500.

(** The number of [CafeWish] rows of a (profile, cafe) pair. *)
Definition wish_count (profile cafe : pk) (s : Store) : nat :=
  List.length (filter (fun w => (wish_profile w =? profile) && (wish_cafe w =? cafe))
            (wishes s)).

Definition wishes_unique (s : Store) : Prop :=
  forall profile cafe, (wish_count profile cafe s <= 1)%nat.

(** The row [CafeWish_create] adds. *)
Definition wish_row (s : Store) (profile cafe : pk) : CafeWish :=
  {| wish_id := next_pk (map wish_id (wishes s)); wish_profile := profile;
     wish_cafe := cafe; wish_visited := false |}.

(** A computation that leaves the [Visit] table as it is. *)
Definition keeps_visits {A : Type} (m : DB A) : Prop :=
  forall s, visits (snd (m s)) = visits s.

(* ================================================================== *)
(** * A runtime to run the examples on *)
(* ================================================================== *)

Module Example.

Definition digit (c : ascii) : option Z :=
  let n := Z.of_nat (nat_of_ascii c) in
  if (48 <=? n) && (n <=? 57) then Some (n - 48) else None.

Fixpoint digits (s : string) (acc : Z) : option Z :=
  match s with
  | EmptyString => Some acc
  | String c tl =>
      match digit c with
      | Some d => digits tl (10 * acc + d)
      | None => None
      end
  end.

(** Decimal integers, with an optional minus sign. *)
Definition parse_decimal (s : string) : option Z :=
  match s with
  | EmptyString => None
  | String "-" EmptyString => None
  | String "-" tl => option_map Z.opp (digits tl 0)
  | _ => digits s 0
  end.

Definition parse_float (s : string) : option float :=
  match parse_decimal s with
  | Some z => match float_of_int z with inr f => Some f | inl _ => None end
  | None => None
  end.

Definition is_space (c : ascii) : bool :=
  let n := nat_of_ascii c in
  (Nat.eqb n 32 || (Nat.leb 9 n && Nat.leb n 13))%bool.

Fixpoint lstrip (s : string) : string :=
  match s with
  | String c tl => if is_space c then lstrip tl else s
  | EmptyString => EmptyString
  end.

Fixpoint rstrip (s : string) : string :=
  match s with
  | String c tl =>
      match rstrip tl with
      | EmptyString => if is_space c then EmptyString else String c EmptyString
      | tl' => String c tl'
      end
  | EmptyString => EmptyString
  end.

Definition show_int (z : Z) : string := NilZero.string_of_int (Z.to_int z).

(** Dates written year-month-day, ten characters; the date is kept as
    the number [yyyymmdd]. *)
Definition parse_date (s : string) : option Z :=
  if (Nat.eqb (String.length s) 10
      && String.eqb (substring 4 1 s) "-" && String.eqb (substring 7 1 s) "-")%bool
  then
    match digits (substring 0 4 s) 0, digits (substring 5 2 s) 0,
          digits (substring 8 2 s) 0 with
    | Some y, Some m, Some d =>
        if (1 <=? m) && (m <=? 12) && (1 <=? d) && (d <=? 31)
        then Some (y * 10000 + m * 100 + d) else None
    | _, _, _ => None
    end
  else None.

(** The documents of the examples, by the text that stands for them. *)
Definition documents : list (string * json) :=
  [ ("place x=10 y=20",
     JObj [("visit_id", JInt 1); ("sticker_type", JStr "heart");
           ("x", JInt 10); ("y", JInt 20)]);
    ("update without rotation",
     JObj [("sticker_id", JInt 1); ("x", JInt 3); ("y", JInt 4);
           ("scale", JInt 2)]);
    ("delete without id", JObj []);
    ("delete 1", JObj [("sticker_id", JInt 1)]);
    ("delete 7", JObj [("sticker_id", JInt 7)]);
    ("one item without price",
     JObj [("visitPhotos", JArr []);
           ("favoriteItems", JArr [JObj [("name", JStr "latte")]])]);
    ("nameless item then latte",
     JObj [("favoriteItems",
            JArr [JObj [("price", JInt 3);
                        ("photos", JArr [JObj [("file_key", JStr "f1")]])];
                  JObj [("name", JStr "latte"); ("price", JInt 5);
                        ("rating", JInt 4); ("description", JStr "")]])]) ].

(** It reads decimal integers and the documents above, and strips ASCII
    blanks; on the inputs of the examples it answers as CPython and
    Django do. *)
Definition runtime : PyRuntime := {|
  json_loads := fun text => assoc_last text documents;
  json_fault := fun _ => not_json;
  float_of_str := fun s => parse_float (rstrip (lstrip s));
  int_of_str := fun s => parse_decimal (rstrip (lstrip s));
  str_of_json := fun v => match v with
                          | JInt z => show_int z
                          | JBool true => "True"
                          | JBool false => "False"
                          | JNull => "None"
                          | _ => ""
                          end;
  str_strip := fun s => rstrip (lstrip s);
  form_parse_date := parse_date;
  model_parse_date := parse_date;
  form_parse_int := parse_decimal;
  valid_image := fun name => negb (String.eqb name "")
|}.

Definition heart : StickerType :=
  {| stype_id := 1; stype_name := "heart"; stype_image := "sticker_options/heart.png" |}.

Definition visit1 : Visit :=
  {| visit_id := 1; visit_profile := 1; visit_cafe := 1; date_visited := 20251124;
     user_rating := 4%float; amount_spent := 12%float; notes := "" |}.

Definition sticker1 : Sticker :=
  {| sticker_id := 1; sticker_visit := 1; sticker_type := 1;
     x_position := 5%float; y_position := 6%float; rotation := 90%float;
     scale := 1%float; sticker_image := Some "sticker_options/heart.png" |}.

Definition store1 : Store :=
  {| cafes := [{| cafe_id := 1; cafe_name := "Pavement" |}];
     wishes := []; visits := [visit1]; visit_photos := [];
     favorite_items := []; item_photos := [];
     sticker_types := [heart]; stickers := [sticker1] |}.

Definition request (text : string) : Request :=
  {| body := text; POST := []; FILES := []; user := AuthUser (Some 1) |}.

(** The fields of [VisitForm] as a browser sends them. *)
Definition visit_fields : QueryDict :=
  [ ("date_visited", "2025-11-24"); ("user_rating", "4");
    ("amount_spent", "12"); ("notes", "") ].

Definition form_request (fields : QueryDict) (files : list (string * string)) : Request :=
  {| body := ""; POST := visit_fields ++ fields; FILES := files;
     user := AuthUser (Some 1) |}.

(** Six visit photos, each with an image, and no item. *)
Definition six_photos : Request :=
  form_request
    [ ("photos-TOTAL_FORMS", "6"); ("photos-INITIAL_FORMS", "0");
      ("items-TOTAL_FORMS", "0"); ("items-INITIAL_FORMS", "0") ]
    [ ("photos-0-image", "a.png"); ("photos-1-image", "b.png");
      ("photos-2-image", "c.png"); ("photos-3-image", "d.png");
      ("photos-4-image", "e.png"); ("photos-5-image", "f.png") ].

(** Two items, each with one nested photo form that has a caption and no
    image. *)
Definition two_bad_items : Request :=
  form_request
    [ ("photos-TOTAL_FORMS", "0"); ("photos-INITIAL_FORMS", "0");
      ("items-TOTAL_FORMS", "2"); ("items-INITIAL_FORMS", "0");
      ("items-0-name", "latte"); ("items-0-price", "5"); ("items-0-rating", "4");
      ("items-1-name", "scone"); ("items-1-price", "3"); ("items-1-rating", "5");
      ("item_photos-0-TOTAL_FORMS", "1"); ("item_photos-0-INITIAL_FORMS", "0");
      ("item_photos-0-0-caption", "foam");
      ("item_photos-1-TOTAL_FORMS", "1"); ("item_photos-1-INITIAL_FORMS", "0");
      ("item_photos-1-0-caption", "crumbs") ]
    [].

(** One item saved, then an item form sent with DELETE checked. *)
Definition item_then_deleted_item : Request :=
  form_request
    [ ("photos-TOTAL_FORMS", "0"); ("photos-INITIAL_FORMS", "0");
      ("items-TOTAL_FORMS", "2"); ("items-INITIAL_FORMS", "0");
      ("items-0-name", "latte"); ("items-0-price", "5"); ("items-0-rating", "4");
      ("items-1-name", "scone"); ("items-1-DELETE", "on");
      ("item_photos-0-TOTAL_FORMS", "0"); ("item_photos-0-INITIAL_FORMS", "0") ]
    [].

(** The same, with an owner and a cafe named in the body. *)
Definition six_photos_forged : Request :=
  {| body := body six_photos;
     POST := POST six_photos ++ [("profile", "99"); ("cafe", "7")];
     FILES := FILES six_photos; user := user six_photos |}.

(** Protocol B: the POST data name a document of [documents]. *)
Definition log_request (text : string) (files : list (string * string)) : Request :=
  {| body := ""; POST := visit_fields ++ [("dynamic_data", text)]; FILES := files;
     user := AuthUser (Some 1) |}.

End Example.

(* ================================================================== *)
(** * Further vocabulary: tables, runs and forms *)
(* ================================================================== *)

(** What an update of a sticker has no business with: the key, the visit,
    the type and the image. *)
Definition sticker_frame (r : Sticker) : pk * pk * pk * option string :=
  (sticker_id r, sticker_visit r, sticker_type r, sticker_image r).

(** The columns of a visit its form does not hold. *)
Definition visit_frame (v : Visit) : pk * pk * pk :=
  (visit_id v, visit_profile v, visit_cafe v).

(** A runtime like [Example.runtime] that decodes the documents [docs]. *)
(** A body of two bytes, 0xFF 0xFE, that is not UTF-8 text. *)
Definition not_utf8_body : string :=
  String (ascii_of_nat 255) (String (ascii_of_nat 254) EmptyString).

Definition runtime_with (docs : list (string * json)) : PyRuntime := {|
  json_loads := fun text => assoc_last text docs;
  json_fault := fun text => if String.eqb text not_utf8_body then not_utf8 else not_json;
  float_of_str := @float_of_str Example.runtime;
  int_of_str := @int_of_str Example.runtime;
  str_of_json := @str_of_json Example.runtime;
  str_strip := @str_strip Example.runtime;
  form_parse_date := @form_parse_date Example.runtime;
  model_parse_date := @model_parse_date Example.runtime;
  form_parse_int := @form_parse_int Example.runtime;
  valid_image := @valid_image Example.runtime
|}.

(** A step that only reads: whatever it answers, the store is the one it
    was given. *)
Definition reads_only {A : Type} (m : DB A) : Prop :=
  forall s, snd (m s) = s.

(** No two stickers share a key, and every sticker refers to a visit and
    to a sticker type of the store. *)
Definition stickers_consistent (s : Store) : Prop :=
  NoDup (map sticker_id (stickers s)) /\
  forall st, In st (stickers s) ->
    In (sticker_visit st) (map visit_id (visits s)) /\
    In (sticker_type st) (map stype_id (sticker_types s)).

(** The run ended in a response, not in an exception, and the status of
    the response is one of [codes]. *)
Definition answered (r : result Response) (codes : list Z) : Prop :=
  match r with
  | inr resp => In (status_code resp) codes
  | inl _ => False
  end.

(** More documents and stores for the examples. *)
Module Example2.

Definition documents : list (string * json) :=
  Example.documents ++
  [ ("move 1 to 3,4",
     JObj [("sticker_id", JInt 1); ("x", JInt 3); ("y", JInt 4);
           ("rotation", JInt 0); ("scale", JInt 2)]);
    ("move 1 to 7,8",
     JObj [("sticker_id", JStr "1"); ("x", JInt 7); ("y", JInt 8);
           ("rotation", JInt 45); ("scale", JInt 1)]);
    ("delete 2", JObj [("sticker_id", JInt 2)]);
    ("delete 0", JObj [("sticker_id", JInt 0)]);
    ("a list", JArr [JInt 1]);
    ("two photos, one file",
     JObj [("visitPhotos",
            JArr [JObj [("file_key", JStr "f1"); ("caption", JStr "door")];
                  JObj [("file_key", JStr "lost"); ("caption", JStr "window")]]);
           ("favoriteItems",
            JArr [JObj [("name", JStr "latte"); ("price", JInt 5);
                        ("rating", JInt 4); ("description", JStr "")];
                  JObj [("price", JInt 1)]])]) ].

Definition runtime : PyRuntime := runtime_with documents.

(** A visit form with the amount left empty, and no photo or item. *)
Definition no_amount : Request :=
  {| body := ""; FILES := [];
     POST := [ ("date_visited", "2025-11-24"); ("user_rating", "4");
               ("amount_spent", ""); ("notes", "");
               ("photos-TOTAL_FORMS", "0"); ("photos-INITIAL_FORMS", "0");
               ("items-TOTAL_FORMS", "0"); ("items-INITIAL_FORMS", "0") ];
     user := AuthUser (Some 1) |}.

(** The visit of the examples with two stored items. *)
Definition store_with_items : Store :=
  set_favorite_items Example.store1
    [ {| item_id := 1; item_visit := 1; item_name := "latte"; item_price := 5%float;
         item_rating := 4%float; item_description := "" |};
      {| item_id := 2; item_visit := 1; item_name := "scone"; item_price := 3%float;
         item_rating := 5%float; item_description := "" |} ].

(** An update that sends the two stored items as they are, each with one
    new nested photo form that has a caption and no image. *)
Definition two_bad_stored_items : Request :=
  Example.form_request
    [ ("photos-TOTAL_FORMS", "0"); ("photos-INITIAL_FORMS", "0");
      ("items-TOTAL_FORMS", "2"); ("items-INITIAL_FORMS", "2");
      ("items-0-id", "1"); ("items-0-visit", "1");
      ("items-0-name", "latte"); ("items-0-price", "5"); ("items-0-rating", "4");
      ("items-1-id", "2"); ("items-1-visit", "1");
      ("items-1-name", "scone"); ("items-1-price", "3"); ("items-1-rating", "5");
      ("item_photos-0-TOTAL_FORMS", "1"); ("item_photos-0-INITIAL_FORMS", "0");
      ("item_photos-0-0-caption", "foam");
      ("item_photos-1-TOTAL_FORMS", "1"); ("item_photos-1-INITIAL_FORMS", "0");
      ("item_photos-1-0-caption", "crumbs") ]
    [].

End Example2.

(** A computation whose store, however it ends, is related by [R] to
    the store it began with. *)
Definition respects {A : Type} (R : Store -> Store -> Prop) (m : DB A) : Prop :=
  forall s, R s (snd (m s)).

Definition preorder (R : Store -> Store -> Prop) : Prop :=
  (forall s, R s s) /\ (forall a b c, R a b -> R b c -> R a c).

(** [s1] is [s] with rows added: the visits, photos, items and item
    photos of [s] are there, in place, with possibly more rows after
    them, and the other tables are the same. *)
Definition extends (s s1 : Store) : Prop :=
  cafes s1 = cafes s /\ wishes s1 = wishes s /\
  sticker_types s1 = sticker_types s /\ stickers s1 = stickers s /\
  (exists l, visits s1 = visits s ++ l) /\
  (exists l, visit_photos s1 = visit_photos s ++ l) /\
  (exists l, favorite_items s1 = favorite_items s ++ l) /\
  (exists l, item_photos s1 = item_photos s ++ l).

(** A form that stands for no stored row, and so do the forms of the
    formset hung on it. *)
Definition unsaved {D N : Type} (f : BoundForm D N) : Prop := form_instance f = None.

Definition unsaved_item (f : ItemForm) : Prop :=
  unsaved f /\
  match nested_photo_formset f with
  | Some nested => Forall unsaved (forms nested)
  | None => True
  end.

Section ProtocolBVocabulary.
Context {RT : PyRuntime}.

(** The uploaded files the entries of a photo list name, in the order of
    the list: an entry counts when its [file_key] is a non-empty text
    that is a key of [request.FILES]. *)
Fixpoint uploaded (files : list (string * string)) (entries : list json) : list string :=
  match entries with
  | [] => []
  | JObj kvs :: rest =>
      match LogCafeVisitView.resolves files (member kvs "file_key") with
      | inr (Some image) => image :: uploaded files rest
      | _ => uploaded files rest
      end
  | _ :: rest => uploaded files rest
  end.

(** The names of the entries of an item list that have one, as they are
    stored. *)
Fixpoint named (entries : list json) : list (option string) :=
  match entries with
  | [] => []
  | JObj kvs :: rest =>
      if truthy (member kvs "name") then char_prep (member kvs "name") :: named rest
      else named rest
  | _ :: rest => named rest
  end.

End ProtocolBVocabulary.

(** Stores with the same visit photos; with the same items. *)
Definition same_visit_photos (s s' : Store) : Prop := visit_photos s' = visit_photos s.

Definition same_favorite_items (s s' : Store) : Prop :=
  favorite_items s' = favorite_items s.

(** Two requests that differ at most in who is logged in. *)
Definition same_but_user (r1 r2 : Request) : Prop :=
  body r1 = body r2 /\ POST r1 = POST r2 /\ FILES r1 = FILES r2 /\
  user r1 <> AnonymousUser /\ user r2 <> AnonymousUser.

(** The request [r] as sent by the user [u]. *)
Definition sent_by (u : User) (r : Request) : Request :=
  {| body := body r; POST := POST r; FILES := FILES r; user := u |}.

(* ================================================================== *)
(** * The wishlist pages and the removal of a wish *)
(* ================================================================== *)

(** What may leave the views below: the exceptions of before, and the
    one of a [get()] that finds several rows. *)
Inductive Raised : Type :=
| raised (e : exn)
| MultipleObjectsReturned.

(** The flash messages of the views below, by the line that sends them;
    the argument is the cafe name the text quotes. *)
Inductive Notice : Type :=
| success_wish_removed (name : string)
| error_wish_not_found (name : string)
| success_visit_deleted (name : string).

(** [redirect(..)] of the views below. *)
Inductive Target : Type :=
| to_login
| to_show_cafe (k : pk)
| to_cafe_home.

Record Redirect : Type := {
  redirect_to : Target;
  notices : list Notice
}.

(** [CafeWish.objects.get(profile=.., cafe=..)]. *)
Definition CafeWish_get (profile cafe : pk) (s : Store) : Raised + CafeWish :=
  match filter (fun w => (wish_profile w =? profile) && (wish_cafe w =? cafe))
               (wishes s) with
  | [] => inl (raised DoesNotExist)
  | [wish_item] => inr wish_item
  | _ => inl MultipleObjectsReturned
  end.

(** [wish_item.delete()]; no table refers to [CafeWish]. *)
Definition CafeWish_delete (w : CafeWish) (s : Store) : Store :=
  set_wishes s (remove_pk wish_id (wish_id w) (wishes s)).

(** The property [CafeWish.has_been_visited]. *)
Definition CafeWish_has_been_visited (w : CafeWish) (s : Store) : bool :=
  existsb (fun v => (visit_profile v =? wish_profile w) && (visit_cafe v =? wish_cafe w))
          (visits s).

Module RemoveFromWishlistView.

Definition post (req : Request) (cafe_pk : pk) (s : Store)
    : (Raised + Redirect) * Store :=
  match find_pk cafe_id (cafes s) (Some cafe_pk) with
  | None => (inl (raised Http404), s)
  | Some cafe =>
      match user_cafe_profile (user req) with
      | inl e => (inl (raised e), s)
      | inr profile =>
          match CafeWish_get profile (cafe_id cafe) s with
          | inr wish_item =>
              (inr {| redirect_to := to_show_cafe cafe_pk;
                      notices := [success_wish_removed (cafe_name cafe)] |},
               CafeWish_delete wish_item s)
          | inl (raised DoesNotExist) =>
              (inr {| redirect_to := to_show_cafe cafe_pk;
                      notices := [error_wish_not_found (cafe_name cafe)] |}, s)
          | inl e => (inl e, s)
          end
      end
  end.

(** [LoginRequiredMixin.dispatch]. *)
Definition dispatch (req : Request) (cafe_pk : pk) (s : Store)
    : (Raised + Redirect) * Store :=
  match user req with
  | AnonymousUser => (inr {| redirect_to := to_login; notices := [] |}, s)
  | AuthUser _ => post req cafe_pk s
  end.

End RemoveFromWishlistView.

(** The rows of a queryset of wishes with [select_related('cafe')]: a
    wish comes with the cafe it refers to. *)
Definition select_related_cafe (s : Store) (l : list CafeWish) : list (CafeWish * Cafe) :=
  flat_map (fun w => match find_pk cafe_id (cafes s) (Some (wish_cafe w)) with
                     | Some c => [(w, c)]
                     | None => []
                     end) l.

Module WishlistView.

Record DecoratedWish : Type := {
  wish : CafeWish;
  cafe : Cafe;
  has_visited : bool
}.

(** [get_queryset]: the wishes of the profile of the user, none for a
    user without one. *)
Definition get_queryset (req : Request) (s : Store) : list (CafeWish * Cafe) :=
  match user req with
  | AuthUser (Some profile) =>
      select_related_cafe s (filter (fun w => wish_profile w =? profile) (wishes s))
  | _ => []
  end.

(** [get_context_data]: the entry [wishes] of the context. *)
Definition get_context_data (req : Request) (s : Store) : list DecoratedWish :=
  match user req with
  | AuthUser (Some profile) =>
      let visited_cafe_ids :=
        map visit_cafe (filter (fun v => visit_profile v =? profile) (visits s)) in
      map (fun wc => {| wish := fst wc; cafe := snd wc;
                        has_visited := existsb (Z.eqb (cafe_id (snd wc))) visited_cafe_ids |})
          (get_queryset req s)
  | _ => []
  end.

End WishlistView.

Module ShowCafeProfileView.

(** The entry [wishlist] of the context of [get_context_data], for the
    profile of the page: each wish with its cafe and the annotation
    [is_visited]. *)
Definition wishlist (profile : pk) (s : Store) : list (CafeWish * Cafe * bool) :=
  map (fun wc =>
         (wc, existsb (fun v => (visit_cafe v =? wish_cafe (fst wc))
                                && (visit_profile v =? profile)) (visits s)))
      (select_related_cafe s (filter (fun w => wish_profile w =? profile) (wishes s))).

End ShowCafeProfileView.

Module CafeStatsView.

(** The counters of the context of [get_context_data]. *)
Record Counters : Type := {
  total_wishlist_cafes : Z;
  visited_wishlist_count : Z;
  unvisited_wishlist_count : Z;
  total_visits : Z
}.

Definition get_context_data (req : Request) (s : Store) : result Counters :=
  match user_cafe_profile (user req) with
  | inl e => inl e
  | inr profile =>
      let visits := filter (fun v => visit_profile v =? profile) (visits s) in
      let wishlist_items := filter (fun w => wish_profile w =? profile) (wishes s) in
      let total_wishlist := Z.of_nat (List.length wishlist_items) in
      let visited_cafes_in_wishlist :=
        Z.of_nat (List.length
          (filter (fun w => (wish_profile w =? profile)
                            && existsb (Z.eqb (wish_cafe w)) (map visit_cafe visits))
                  (wishes s))) in
      inr {| total_wishlist_cafes := total_wishlist;
             visited_wishlist_count := visited_cafes_in_wishlist;
             unvisited_wishlist_count := total_wishlist - visited_cafes_in_wishlist;
             total_visits := Z.of_nat (List.length visits) |}
  end.

End CafeStatsView.

(** No wish refers to a cafe that is not there. *)
Definition wishes_refer_to_cafes (s : Store) : Prop :=
  forall w, In w (wishes s) -> In (wish_cafe w) (map cafe_id (cafes s)).

(** No wish has its stored [visited] column set. *)
Definition no_wish_marked (s : Store) : Prop :=
  Forall (fun w => wish_visited w = false) (wishes s).

(* ================================================================== *)
(** * Showing and deleting a visit *)
(* ================================================================== *)

Module VisitDetailView.

(** [get_queryset]: the visits of the profile of the user. *)
Definition get_queryset (req : Request) : DB (list Visit) :=
  profile <- lift (user_cafe_profile (user req)) ;;
  query (fun s => filter (fun v => visit_profile v =? profile) (visits s)).

(** [get_object]: the row of the queryset under the key of the route. *)
Definition get_object (req : Request) (k : pk) : DB Visit :=
  queryset <- get_queryset req ;;
  get_object_or_404 (find_pk visit_id queryset (Some k)).

End VisitDetailView.

Module FavoriteItemDetailView.

(** [get_queryset]: [filter(visit__profile__user=request.user)], the
    items of the visits of the profile of the user; a user without a
    profile has none, and a visitor who is not a user cannot be compared
    with the column. *)
Definition get_queryset (req : Request) : DB (list FavoriteItem) :=
  match user req with
  | AnonymousUser => raise TypeError
  | AuthUser None => ret []
  | AuthUser (Some profile) =>
      query (fun s =>
        filter (fun i => match find_pk visit_id (visits s) (Some (item_visit i)) with
                         | Some v => visit_profile v =? profile
                         | None => false
                         end)
               (favorite_items s))
  end.

Definition get_object (req : Request) (k : pk) : DB FavoriteItem :=
  queryset <- get_queryset req ;;
  get_object_or_404 (find_pk item_id queryset (Some k)).

End FavoriteItemDetailView.

(** [visit.delete()]: the rows that refer to the visit go with it
    ([on_delete=CASCADE]): its photos, its stickers, its items and the
    photos of those. *)
Definition Visit_delete (v : Visit) : DB unit :=
  fun s =>
    let k := visit_id v in
    let gone := map item_id (filter (fun i => item_visit i =? k) (favorite_items s)) in
    (inr tt,
     {| cafes := cafes s;
        wishes := wishes s;
        visits := remove_pk visit_id k (visits s);
        visit_photos := filter (fun p => negb (vphoto_visit p =? k)) (visit_photos s);
        favorite_items := filter (fun i => negb (item_visit i =? k)) (favorite_items s);
        item_photos :=
          filter (fun p => negb (existsb (Z.eqb (iphoto_item p)) gone)) (item_photos s);
        sticker_types := sticker_types s;
        stickers := filter (fun st => negb (sticker_visit st =? k)) (stickers s) |}).

Module VisitDeleteView.

(** [form_valid]: the name of the cafe is read, the visit is deleted,
    the message is sent. *)
Definition form_valid (visit : Visit) : DB Redirect :=
  row <- query (fun s => find_pk cafe_id (cafes s) (Some (visit_cafe visit))) ;;
  match row with
  | None => raise DoesNotExist
  | Some cafe =>
      Visit_delete visit ;;;
      ret {| redirect_to := to_cafe_home;
             notices := [success_visit_deleted (cafe_name cafe)] |}
  end.

(** [BaseDeleteView.post]: the visit of the route is loaded; the form of
    the view has no field. *)
Definition post (req : Request) (visit_pk : pk) : DB Redirect :=
  row <- query (fun s => find_pk visit_id (visits s) (Some visit_pk)) ;;
  visit <- get_object_or_404 row ;;
  form_valid visit.

(** [LoginRequiredMixin.dispatch]. *)
Definition dispatch (req : Request) (visit_pk : pk) : DB Redirect :=
  match user req with
  | AnonymousUser => ret {| redirect_to := to_login; notices := [] |}
  | AuthUser _ => post req visit_pk
  end.

End VisitDeleteView.

(** Every photo, item and sticker refers to a visit of the store, and
    every item photo to an item of the store. *)
Definition visit_rows_consistent (s : Store) : Prop :=
  (forall p, In p (visit_photos s) -> In (vphoto_visit p) (map visit_id (visits s))) /\
  (forall i, In i (favorite_items s) -> In (item_visit i) (map visit_id (visits s))) /\
  (forall p, In p (item_photos s) -> In (iphoto_item p) (map item_id (favorite_items s))) /\
  (forall st, In st (stickers s) -> In (sticker_visit st) (map visit_id (visits s))).

(* ================================================================== *)
(** * The theme of a user *)
(* ================================================================== *)

(** [CafeProfile], by its key and its theme. *)
Record CafeProfile : Type := {
  profile_id : pk;
  theme_preference : string
}.

(** The choices of [CafeProfile.theme_preference], by their stored
    values. *)
Definition theme_choices : list string :=
  ["default"; "dark"; "forest"; "ocean"; "roastery"; "lavender"; "gothic"].

(** [request.user.cafe_profile] as a row. *)
Definition cafe_profile_row (u : User) (profiles : list CafeProfile) : result CafeProfile :=
  match user_cafe_profile u with
  | inl e => inl e
  | inr k =>
      match find_pk profile_id profiles (Some k) with
      | Some row => inr row
      | None => inl RelatedObjectDoesNotExist
      end
  end.

(** What [update_theme_preference] answers. *)
Inductive ThemeResponse : Type :=
| theme_login                       (* the redirect of [login_required] *)
| theme_not_allowed                 (* the 405 of [require_POST] *)
| theme_bad_request (content : string)
| theme_success (theme : string)    (* {'status': 'success', 'theme': theme} *)
| theme_error (e : exn).            (* {'status': 'error', ..}, status 500 *)

Definition allowed_themes : list string :=
  ["default"; "dark"; "forest"; "ocean"; "roastery"; "lavender"; "gothic"].

Definition update_theme_preference (u : User) (method theme_name : string)
    (profiles : list CafeProfile) : ThemeResponse * list CafeProfile :=
  match u with
  | AnonymousUser => (theme_login, profiles)
  | AuthUser _ =>
      if negb (String.eqb method "POST") then (theme_not_allowed, profiles)
      else if negb (existsb (String.eqb theme_name) allowed_themes)
      then (theme_bad_request "Invalid theme name.", profiles)
      else match cafe_profile_row u profiles with
           | inl e => (theme_error e, profiles)
           | inr profile =>
               (theme_success theme_name,
                replace_pk profile_id
                  {| profile_id := profile_id profile;
                     theme_preference := theme_name |} profiles)
           end
  end.

(** [context_processors.user_theme_processor]: the entry [user_theme]. *)
Definition user_theme_processor (u : User) (profiles : list CafeProfile) : string :=
  match u with
  | AnonymousUser => "default"
  | AuthUser _ =>
      match cafe_profile_row u profiles with
      | inr profile => theme_preference profile
      | inl _ => "default"
      end
  end.

(** Every stored theme is one of the choices of the model. *)
Definition themes_are_choices (profiles : list CafeProfile) : Prop :=
  Forall (fun p => In (theme_preference p) theme_choices) profiles.

(* ================================================================== *)
(** * Properties *)
(* ================================================================== *)

(** ** The store-passing combinators *)

Lemma bind_inr {A B : Type} (m : DB A) (k : A -> DB B) s a s' :
  m s = (inr a, s') -> bind m k s = k a s'.
Proof. unfold bind. intros ->. reflexivity. Qed.

Lemma bind_inl {A B : Type} (m : DB A) (k : A -> DB B) s e s' :
  m s = (inl e, s') -> bind m k s = (inl e, s').
Proof. unfold bind. intros ->. reflexivity. Qed.

Lemma bind_assoc {A B C : Type} (m : DB A) (k : A -> DB B) (h : B -> DB C) s :
  bind (bind m k) h s = bind m (fun a => bind (k a) h) s.
Proof. unfold bind. destruct (m s) as [[e|a] s']; reflexivity. Qed.

Lemma bind_ext {A B : Type} (m : DB A) (k1 k2 : A -> DB B) s :
  (forall a s', k1 a s' = k2 a s') -> bind m k1 s = bind m k2 s.
Proof. intros H. unfold bind. destruct (m s) as [[e|a] s']; auto. Qed.

Lemma bind_cong {A B : Type} (m1 m2 : DB A) (k : A -> DB B) s :
  m1 s = m2 s -> bind m1 k s = bind m2 k s.
Proof. intros H. unfold bind. rewrite H. reflexivity. Qed.

Lemma atomic_all_or_nothing {A : Type} (m : DB A) (s : Store) :
  (exists a, m s = (inr a, snd (m s)) /\ atomic m s = m s) \/
  (exists e, fst (m s) = inl e /\ atomic m s = (inl e, s)).
Proof.
  unfold atomic. destruct (m s) as [[e | a] s']; simpl.
  - right. exists e. split; reflexivity.
  - left. exists a. split; reflexivity.
Qed.

Lemma atomic_inl {A : Type} (m : DB A) (s s' : Store) e :
  atomic m s = (inl e, s') -> s' = s.
Proof.
  unfold atomic. destruct (m s) as [[e' | a] s'']; intros H; inversion H; reflexivity.
Qed.

(** Unfolds the combinators in the goal. *)
Ltac db_unfold :=
  unfold get_object_or_404, not_null, bind, lift, query, try_except, ret, raise in *.

(** ** Lookups leave the store alone *)

Section LookupFacts.
Context {RT : PyRuntime}.

Lemma Sticker_or_404_store v s r s' :
  Sticker_or_404 v s = (r, s') -> s' = s.
Proof.
  unfold Sticker_or_404. db_unfold.
  destruct (int_prep v); [intros H; inversion H; reflexivity|].
  destruct (find_pk sticker_id (stickers s) o); intros H; inversion H; reflexivity.
Qed.

End LookupFacts.

(** ** Sticker update *)

Section UpdateFacts.
Context {RT : PyRuntime}.

Lemma float_field_cases data k s :
  (exists e, float_field data k s = (inl e, s) /\ numeric_field data k = false) \/
  (exists f, float_field data k s = (inr f, s) /\ numeric_field data k = true).
Proof.
  unfold float_field, numeric_field, numeric, py_get, member, member_default. db_unfold.
  destruct data; try (left; eexists; split; reflexivity).
  destruct (assoc_last k kvs) as [v|].
  - destruct (py_float v) as [e|f].
    + left. exists e. split; reflexivity.
    + right. exists f. split; reflexivity.
  - left. exists TypeError. split; reflexivity.
Qed.

(** A member that is left out, null, a list or an object is not numeric,
    whatever the runtime. *)
Lemma not_numeric_shapes kvs k :
  (assoc_last k kvs = None -> numeric_field (JObj kvs) k = false) /\
  numeric JNull = false /\
  (forall l, numeric (JArr l) = false) /\
  (forall m, numeric (JObj m) = false).
Proof.
  repeat split.
  intros H. unfold numeric_field. rewrite H. reflexivity.
Qed.

(** The body of the update either raises with the store as it was, or
    all four fields are numeric and one row is written. *)
Lemma update_cases data s :
  (exists e, UpdateStickerView.update data s = (inl e, s)) \/
  (numeric_field data "x" = true /\ numeric_field data "y" = true /\
   numeric_field data "rotation" = true /\ numeric_field data "scale" = true /\
   exists r, UpdateStickerView.update data s =
             (inr (JsonResponse status_success 200),
              set_stickers s (replace_pk sticker_id r (stickers s)))).
Proof.
  unfold UpdateStickerView.update.
  destruct (py_get data "sticker_id") as [e|v] eqn:Hid.
  { left. exists e. reflexivity. }
  rewrite (bind_inr _ _ s v s) by reflexivity.
  destruct (Sticker_or_404 v s) as [[e|st] s1] eqn:Hst.
  { pose proof (Sticker_or_404_store _ _ _ _ Hst); subst s1.
    left. exists e. apply bind_inl. exact Hst. }
  pose proof (Sticker_or_404_store _ _ _ _ Hst); subst s1.
  rewrite (bind_inr _ _ _ _ _ Hst).
  destruct (float_field_cases data "x" s) as [[e [Hx _]]|[x [Hx Nx]]].
  { left. exists e. apply bind_inl. exact Hx. }
  rewrite (bind_inr _ _ _ _ _ Hx).
  destruct (float_field_cases data "y" s) as [[e [Hy _]]|[y [Hy Ny]]].
  { left. exists e. apply bind_inl. exact Hy. }
  rewrite (bind_inr _ _ _ _ _ Hy).
  destruct (float_field_cases data "rotation" s) as [[e [Hr _]]|[rot [Hr Nr]]].
  { left. exists e. apply bind_inl. exact Hr. }
  rewrite (bind_inr _ _ _ _ _ Hr).
  destruct (float_field_cases data "scale" s) as [[e [Hc _]]|[sc [Hc Nc]]].
  { left. exists e. apply bind_inl. exact Hc. }
  rewrite (bind_inr _ _ _ _ _ Hc).
  right. repeat (split; [assumption|]).
  eexists. reflexivity.
Qed.

End UpdateFacts.

(** C5.  A sticker update whose document lacks one of [x], [y],
    [rotation], [scale], or holds there a value [float()] refuses, is
    answered with the JSON error and status 400, and the store (so the
    targeted sticker's row) is exactly what it was. *)
Theorem update_sticker_faulty_field_rejected
    {RT : PyRuntime} (req : Request) (data : json) (s : Store) (k : string) :
  json_loads (body req) = Some data ->
  In k ["x"; "y"; "rotation"; "scale"] ->
  numeric_field data k = false ->
  exists e,
    UpdateStickerView.post req s = (inr (JsonResponse (status_error e) 400), s) /\
    status_code (JsonResponse (status_error e) 400) = 400 /\
    stickers (snd (UpdateStickerView.post req s)) = stickers s.
Proof.
  intros Hbody Hk Hbad.
  unfold UpdateStickerView.post. rewrite Hbody.
  destruct (update_cases data s) as [[e He]|(Nx & Ny & Nr & Nc & _)].
  - exists e. unfold try_except. rewrite He. simpl. repeat split; reflexivity.
  - exfalso. simpl in Hk.
    destruct Hk as [<-|[<-|[<-|[<-|[]]]]]; congruence.
Qed.

Lemma update_sticker_faulty_field_rejected_witness :
  exists e,
    UpdateStickerView.post (RT := Example.runtime)
      (Example.request "update without rotation") Example.store1
    = (inr (JsonResponse (status_error e) 400), Example.store1) /\
    status_code (JsonResponse (status_error e) 400) = 400 /\
    stickers (snd (UpdateStickerView.post (RT := Example.runtime)
                     (Example.request "update without rotation") Example.store1))
    = stickers Example.store1.
Proof.
  apply (update_sticker_faulty_field_rejected (RT := Example.runtime)
           (Example.request "update without rotation")
           (JObj [("sticker_id", JInt 1); ("x", JInt 3); ("y", JInt 4);
                  ("scale", JInt 2)])
           Example.store1 "rotation").
  - reflexivity.
  - right; right; left; reflexivity.
  - reflexivity.
Defined.

(** ** Sticker placement *)

(** C6.  A placement by a logged-in user whose document names a visit
    and a sticker type that exist, whose [x] and [y] are numeric or left
    out (then 0.0), and which leaves out [rotation] and [scale], adds one
    sticker with rotation 0.0, scale 1.0 and the image of the sticker
    type, and answers with the key of the new row. *)
Theorem place_sticker_defaults
    {RT : PyRuntime} (req : Request) (kvs : list (string * json)) (s : Store)
    (visit : Visit) (ty : StickerType) (x y : float) :
  user req <> AnonymousUser ->
  json_loads (body req) = Some (JObj kvs) ->
  assoc_last "rotation" kvs = None ->
  assoc_last "scale" kvs = None ->
  py_float (member_default kvs "x" (JFloat 0)) = inr x ->
  py_float (member_default kvs "y" (JFloat 0)) = inr y ->
  Visit_or_404 (member kvs "visit_id") s = (inr visit, s) ->
  StickerType_or_404 (member kvs "sticker_type") s = (inr ty, s) ->
  PlaceStickerView.dispatch req s =
    (inr (JsonResponse (status_success_id (next_pk (map sticker_id (stickers s)))) 200),
     set_stickers s
       (stickers s ++
        [{| sticker_id := next_pk (map sticker_id (stickers s));
            sticker_visit := visit_id visit;
            sticker_type := stype_id ty;
            x_position := x; y_position := y;
            rotation := 0%float; scale := 1%float;
            sticker_image := Some (stype_image ty) |}])) /\
  (assoc_last "x" kvs = None -> x = 0%float) /\
  (assoc_last "y" kvs = None -> y = 0%float).
Proof.
  intros Hu Hbody Hrot Hsc Hx Hy Hvisit Hty.
  split; [|split].
  - unfold PlaceStickerView.dispatch, login_required.
    destruct (user req); [congruence|].
    unfold PlaceStickerView.post. rewrite Hbody.
    unfold try_except, PlaceStickerView.place.
    rewrite (bind_inr _ _ s (member kvs "visit_id") s) by reflexivity.
    rewrite (bind_inr _ _ s (member kvs "sticker_type") s) by reflexivity.
    rewrite (bind_inr _ _ s x s)
      by (unfold float_field_default, py_get_default; db_unfold; rewrite Hx; reflexivity).
    rewrite (bind_inr _ _ s y s)
      by (unfold float_field_default, py_get_default; db_unfold; rewrite Hy; reflexivity).
    rewrite (bind_inr _ _ s 0%float s)
      by (unfold float_field_default, py_get_default, member_default; db_unfold;
          rewrite Hrot; reflexivity).
    rewrite (bind_inr _ _ s 1%float s)
      by (unfold float_field_default, py_get_default, member_default; db_unfold;
          rewrite Hsc; reflexivity).
    rewrite (bind_inr _ _ _ _ _ Hvisit).
    rewrite (bind_inr _ _ _ _ _ Hty).
    reflexivity.
  - intros Hnone. unfold member_default in Hx. rewrite Hnone in Hx.
    simpl in Hx. congruence.
  - intros Hnone. unfold member_default in Hy. rewrite Hnone in Hy.
    simpl in Hy. congruence.
Qed.

Lemma place_sticker_defaults_witness :
  PlaceStickerView.dispatch (RT := Example.runtime)
    (Example.request "place x=10 y=20") Example.store1 =
  (inr (JsonResponse (status_success_id 2) 200),
   set_stickers Example.store1
     [Example.sticker1;
      {| sticker_id := 2; sticker_visit := 1; sticker_type := 1;
         x_position := 10%float; y_position := 20%float;
         rotation := 0%float; scale := 1%float;
         sticker_image := Some "sticker_options/heart.png" |}]).
Proof.
  refine (proj1 (place_sticker_defaults (RT := Example.runtime)
           (Example.request "place x=10 y=20")
           [("visit_id", JInt 1); ("sticker_type", JStr "heart");
            ("x", JInt 10); ("y", JInt 20)]
           Example.store1 Example.visit1 Example.heart 10%float 20%float
           _ eq_refl eq_refl eq_refl eq_refl eq_refl eq_refl eq_refl)).
  discriminate.
Defined.

(** ** Sticker deletion *)

Lemma find_remove_pk {R : Type} (key : R -> pk) (k : pk) (rows : list R) :
  find_pk key (remove_pk key k rows) (Some k) = None.
Proof.
  unfold find_pk, remove_pk.
  induction rows as [|r rows IH]; simpl; [reflexivity|].
  destruct (key r =? k) eqn:E; simpl; [exact IH|].
  rewrite E. exact IH.
Qed.

(** A delete request whose document is an object: without a
    [sticker_id] member the answer is the 400 response for a missing id
    and the store is untouched; with a [sticker_id] that passes the test
    of the view and names a sticker, that row is removed and the success
    acknowledgment is returned. *)
Lemma delete_of_an_object
    {RT : PyRuntime} (req : Request) (kvs : list (string * json)) (s : Store) :
  json_loads (body req) = Some (JObj kvs) ->
  (assoc_last "sticker_id" kvs = None ->
   StickerDeleteView.post req s =
     (inr (HttpResponseBadRequest "Missing sticker_id in request body."), s) /\
   status_code (HttpResponseBadRequest "Missing sticker_id in request body.") = 400) /\
  (forall v st,
     assoc_last "sticker_id" kvs = Some v ->
     truthy v = true ->
     Sticker_or_404 v s = (inr st, s) ->
     StickerDeleteView.post req s =
       (inr (JsonResponse (status_success_deleted v) 200),
        set_stickers s (remove_pk sticker_id (sticker_id st) (stickers s))) /\
     find_pk sticker_id
       (stickers (snd (StickerDeleteView.post req s))) (Some (sticker_id st)) = None).
Proof.
  intros Hbody. split.
  - intros Hnone. split; [|reflexivity].
    unfold StickerDeleteView.post. rewrite Hbody.
    unfold py_get, member, member_default. rewrite Hnone. reflexivity.
  - intros v st Hsome Htruthy Hfound.
    assert (Hpost : StickerDeleteView.post req s =
       (inr (JsonResponse (status_success_deleted v) 200),
        set_stickers s (remove_pk sticker_id (sticker_id st) (stickers s)))).
    { unfold StickerDeleteView.post. rewrite Hbody.
      unfold py_get, member, member_default. rewrite Hsome.
      rewrite (bind_inr _ _ s v s) by reflexivity.
      rewrite Htruthy. cbn [negb]. cbv beta iota.
      unfold try_except, StickerDeleteView.delete.
      rewrite (bind_inr _ _ _ _ _ Hfound). reflexivity. }
    split; [exact Hpost|].
    rewrite Hpost. simpl. apply find_remove_pk.
Qed.

Lemma delete_of_an_object_example :
  (StickerDeleteView.post (RT := Example.runtime)
     (Example.request "delete without id") Example.store1 =
   (inr (HttpResponseBadRequest "Missing sticker_id in request body."), Example.store1)) /\
  (StickerDeleteView.post (RT := Example.runtime)
     (Example.request "delete 1") Example.store1 =
   (inr (JsonResponse (status_success_deleted (JInt 1)) 200),
    set_stickers Example.store1 [])).
Proof.
  split.
  - apply (proj1 (delete_of_an_object (RT := Example.runtime)
             (Example.request "delete without id") [] Example.store1 eq_refl)).
    reflexivity.
  - apply (proj2 (delete_of_an_object (RT := Example.runtime)
             (Example.request "delete 1") [("sticker_id", JInt 1)]
             Example.store1 eq_refl) (JInt 1) Example.sticker1);
      reflexivity.
Qed.

(** C9.  A delete request whose body is JSON but not an object has no
    [sticker_id], and is not answered with 400: [data.get] raises
    [AttributeError], which the first [try] does not catch (it names
    [json.JSONDecodeError] only) and the second comes too late for; the
    exception leaves the view.  No row is deleted.  So it is for every
    document that is not an object, and for the list [[1]] of the
    example. *)
Theorem delete_sticker_body_not_an_object :
  (forall (RT : PyRuntime) (req : Request) (s : Store),
     match json_loads (body req) with
     | Some (JObj kvs) => True
     | Some data =>
         py_get data "sticker_id" = inl AttributeError /\
         StickerDeleteView.post req s = (inl AttributeError, s)
     | None => True
     end) /\
  @json_loads Example2.runtime (body (Example.request "a list")) = Some (JArr [JInt 1]) /\
  StickerDeleteView.post (RT := Example2.runtime) (Example.request "a list")
    Example.store1
  = (inl AttributeError, Example.store1).
Proof.
  split; [|split; reflexivity].
  intros RT req s.
  destruct (json_loads (body req)) as [data|] eqn:Hb; [|exact I].
  destruct data; try exact I;
    (split; [reflexivity|]; unfold StickerDeleteView.post; rewrite Hb; reflexivity).
Qed.

(** C10, as the code has it.  A delete request whose [sticker_id] is
    given and for which the lookup fails leaves the store untouched; the
    answer depends on the truth value of what was given.  A value that
    passes [if not sticker_id] reaches the lookup, whose exception the
    generic handler turns into the JSON error with status 500: the
    [Http404] of a key that names no sticker, and also what the
    conversion of a value that is no key raises.  A value that does not
    pass (0, null, false, an empty string, list or object) is answered
    with 400 [Missing sticker_id in request body.]. *)
Theorem delete_sticker_unresolved_answer
    {RT : PyRuntime} (req : Request) (kvs : list (string * json)) (s : Store)
    (v : json) (e : exn) :
  json_loads (body req) = Some (JObj kvs) ->
  assoc_last "sticker_id" kvs = Some v ->
  fst (Sticker_or_404 v s) = inl e ->
  StickerDeleteView.post req s =
    (inr (if truthy v
          then JsonResponse (status_error e) 500
          else HttpResponseBadRequest "Missing sticker_id in request body."), s) /\
  status_code (if truthy v
               then JsonResponse (status_error e) 500
               else HttpResponseBadRequest "Missing sticker_id in request body.")
  = (if truthy v then 500 else 400) /\
  (forall k, int_prep v = inr k -> e = Http404).
Proof.
  intros Hbody Hsome Hfail. split; [|split].
  - unfold StickerDeleteView.post. rewrite Hbody.
    unfold py_get, member, member_default. rewrite Hsome.
    rewrite (bind_inr _ _ s v s) by reflexivity.
    destruct (truthy v); cbn [negb]; cbv beta iota; [|reflexivity].
    unfold try_except, StickerDeleteView.delete, bind.
    destruct (Sticker_or_404 v s) as [[e'|st] s'] eqn:Hl; cbn [fst] in Hfail;
      [|discriminate].
    inversion Hfail; subst e'.
    rewrite (Sticker_or_404_store _ _ _ _ Hl). reflexivity.
  - destruct (truthy v); reflexivity.
  - intros k Hk. unfold Sticker_or_404 in Hfail. db_unfold. rewrite Hk in Hfail.
    destruct (find_pk sticker_id (stickers s) k); cbn [fst] in Hfail;
      [discriminate|]. inversion Hfail. reflexivity.
Qed.

Lemma delete_sticker_unresolved_answer_witness :
  StickerDeleteView.post (RT := Example.runtime)
    (Example.request "delete 7") Example.store1
  = (inr (JsonResponse (status_error Http404) 500), Example.store1) /\
  StickerDeleteView.post (RT := Example2.runtime)
    (Example.request "delete 0") Example.store1
  = (inr (HttpResponseBadRequest "Missing sticker_id in request body."),
     Example.store1).
Proof.
  split.
  - apply (proj1 (delete_sticker_unresolved_answer (RT := Example.runtime)
             (Example.request "delete 7") [("sticker_id", JInt 7)] Example.store1
             (JInt 7) Http404 eq_refl eq_refl eq_refl)).
  - apply (proj1 (delete_sticker_unresolved_answer (RT := Example2.runtime)
             (Example.request "delete 0") [("sticker_id", JInt 0)] Example.store1
             (JInt 0) Http404 eq_refl eq_refl eq_refl)).
Defined.

(** The reading of the specification fails: a [sticker_id] of 0 is there
    and names no sticker, and the answer is the 400 of a missing id. *)
Lemma delete_sticker_unresolved_is_not_always_500 : ~ unresolved_delete_is_500.
Proof.
  intros H.
  destruct (H Example2.runtime (Example.request "delete 0") [("sticker_id", JInt 0)]
              (JInt 0) Example.store1 eq_refl eq_refl) as (r & Hr & Hs).
  - intros st Hst. vm_compute in Hst. discriminate.
  - assert (Hpost : StickerDeleteView.post (RT := Example2.runtime)
                      (Example.request "delete 0") Example.store1
                    = (inr (HttpResponseBadRequest "Missing sticker_id in request body."),
                       Example.store1)) by reflexivity.
    rewrite Hpost in Hr. inversion Hr; subst r. discriminate.
Qed.

(** ** The wishlist *)

Lemma wish_exists_false_count profile cafe s :
  wish_exists profile cafe s = false -> wish_count profile cafe s = 0%nat.
Proof.
  unfold wish_exists, wish_count.
  induction (wishes s) as [|w l IH]; simpl; [reflexivity|].
  destruct ((wish_profile w =? profile) && (wish_cafe w =? cafe)); simpl.
  - discriminate.
  - exact IH.
Qed.

Lemma wish_exists_added profile cafe s :
  wish_exists profile cafe
    (set_wishes s (wishes s ++ [wish_row s profile cafe])) = true.
Proof.
  unfold wish_exists. simpl. rewrite existsb_app. simpl.
  rewrite !Z.eqb_refl. simpl. apply orb_true_r.
Qed.

Lemma wish_count_added profile cafe p c s :
  wish_count p c (set_wishes s (wishes s ++ [wish_row s profile cafe])) =
  (wish_count p c s +
   if ((profile =? p)%Z && (cafe =? c)%Z)%bool then 1 else 0)%nat.
Proof.
  unfold wish_count. simpl. rewrite filter_app, length_app. simpl.
  destruct ((profile =? p) && (cafe =? c)); reflexivity.
Qed.

Lemma CafeWish_create_unique profile cafe s :
  wishes_unique s -> wishes_unique (snd (CafeWish_create profile cafe s)).
Proof.
  intros Hu. unfold CafeWish_create.
  destruct (wish_exists profile cafe s) eqn:E; simpl; [exact Hu|].
  intros p c. fold (wish_row s profile cafe). rewrite wish_count_added.
  destruct ((profile =? p) && (cafe =? c)) eqn:Epc.
  - apply andb_true_iff in Epc. destruct Epc as [Ep Ec].
    apply Z.eqb_eq in Ep, Ec. subst p c.
    rewrite (wish_exists_false_count _ _ _ E). simpl. lia.
  - specialize (Hu p c). lia.
Qed.

(** What [AddToWishlistView.post] comes to. *)
Lemma AddToWishlistView_post_eq req cafe_pk s :
  AddToWishlistView.post req cafe_pk s =
  match find_pk cafe_id (cafes s) (Some cafe_pk) with
  | None => (inl Http404, s)
  | Some cafe =>
      match user_cafe_profile (user req) with
      | inl e => (inl e, s)
      | inr profile =>
          if wish_exists profile (cafe_id cafe) s
          then (inr (HttpResponseRedirect (route_show_cafe cafe_pk)
                       [info_wish_already (cafe_name cafe)]), s)
          else (inr (HttpResponseRedirect (route_show_cafe cafe_pk)
                       [success_wish_added (cafe_name cafe)]),
                set_wishes s (wishes s ++ [wish_row s profile (cafe_id cafe)]))
      end
  end.
Proof.
  unfold AddToWishlistView.post, Cafe_or_404, CafeWish_create. db_unfold.
  destruct (find_pk cafe_id (cafes s) (Some cafe_pk)) as [cafe|]; [|reflexivity].
  destruct (user_cafe_profile (user req)) as [e|profile]; [reflexivity|].
  cbv beta.
  destruct (wish_exists profile (cafe_id cafe) s) eqn:E;
    cbn [negb]; cbv beta iota; rewrite ?E; reflexivity.
Qed.

Section WishlistFacts.
Context {RT : PyRuntime}.

(** What [AddWishlistView.post_cafe_choice] comes to. *)
Lemma AddWishlistView_post_cafe_choice_eq req raw s :
  AddWishlistView.post_cafe_choice req raw s =
  match AddWishlistView.clean_cafe_choice raw s with
  | None => (inr (TemplateResponse "project/add_to_wishlist.html" wishlist_forms [error_select_cafe]), s)
  | Some cafe =>
      match user_cafe_profile (user req) with
      | inl e => (inr (TemplateResponse "project/add_to_wishlist.html" wishlist_forms
                         [error_wish_exception e]), s)
      | inr profile =>
          (inr (HttpResponseRedirect route_wishlist
                  [success_wish_selected (cafe_name cafe)]),
           if wish_exists profile (cafe_id cafe) s then s
           else set_wishes s (wishes s ++ [wish_row s profile (cafe_id cafe)]))
      end
  end.
Proof.
  unfold AddWishlistView.post_cafe_choice, CafeWish_create. db_unfold.
  destruct (AddWishlistView.clean_cafe_choice raw s) as [cafe|]; [|reflexivity].
  destruct (user_cafe_profile (user req)) as [e|profile]; [reflexivity|].
  cbv beta.
  destruct (wish_exists profile (cafe_id cafe) s) eqn:E;
    cbn [negb]; cbv beta iota; rewrite ?E; reflexivity.
Qed.

End WishlistFacts.

(** C8.  Adding to the wishlist is idempotent.  For both views that add
    a chosen cafe: when the pair already has a wish the store is left as
    it is and the answer is the ordinary redirect; a second add after a
    first one changes nothing more; and a store with at most one wish per
    (profile, cafe) pair stays so, under these views and under any insert
    into the table. *)
Theorem add_to_wishlist_idempotent
    {RT : PyRuntime} (req : Request) (cafe_pk : pk) (raw : string) (s : Store) :
  (* AddToWishlistView.post *)
  (forall cafe profile,
     find_pk cafe_id (cafes s) (Some cafe_pk) = Some cafe ->
     user_cafe_profile (user req) = inr profile ->
     wish_exists profile (cafe_id cafe) s = true ->
     AddToWishlistView.post req cafe_pk s =
       (inr (HttpResponseRedirect (route_show_cafe cafe_pk)
               [info_wish_already (cafe_name cafe)]), s)) /\
  (let s1 := snd (AddToWishlistView.post req cafe_pk s) in
   snd (AddToWishlistView.post req cafe_pk s1) = s1 /\
   (forall r, fst (AddToWishlistView.post req cafe_pk s) = inr r ->
      exists r', fst (AddToWishlistView.post req cafe_pk s1) = inr r') /\
   (wishes_unique s -> wishes_unique s1)) /\
  (* AddWishlistView.post, a cafe picked from the list *)
  (forall cafe profile,
     AddWishlistView.clean_cafe_choice raw s = Some cafe ->
     user_cafe_profile (user req) = inr profile ->
     wish_exists profile (cafe_id cafe) s = true ->
     AddWishlistView.post_cafe_choice req raw s =
       (inr (HttpResponseRedirect route_wishlist
               [success_wish_selected (cafe_name cafe)]), s)) /\
  (let s1 := snd (AddWishlistView.post_cafe_choice req raw s) in
   snd (AddWishlistView.post_cafe_choice req raw s1) = s1 /\
   (wishes_unique s -> wishes_unique s1)) /\
  (* the constraint of the table, for any other caller *)
  (forall profile cafe,
     wishes_unique s -> wishes_unique (snd (CafeWish_create profile cafe s))).
Proof.
  split; [|split; [|split; [|split]]];
    [| | | |intros profile cafe; apply CafeWish_create_unique].
  - intros cafe profile Hc Hp He.
    rewrite AddToWishlistView_post_eq, Hc, Hp, He. reflexivity.
  - cbv zeta. rewrite (AddToWishlistView_post_eq req cafe_pk s).
    destruct (find_pk cafe_id (cafes s) (Some cafe_pk)) as [cafe|] eqn:Hc.
    2:{ cbn [snd fst]. rewrite AddToWishlistView_post_eq, Hc. cbn [snd fst].
        repeat split; [discriminate | auto]. }
    destruct (user_cafe_profile (user req)) as [e|profile] eqn:Hp.
    { cbn [snd fst]. rewrite AddToWishlistView_post_eq, Hc, Hp. cbn [snd fst].
      repeat split; [discriminate | auto]. }
    destruct (wish_exists profile (cafe_id cafe) s) eqn:He; cbn [snd fst].
    + rewrite AddToWishlistView_post_eq, Hc, Hp, He. cbn [snd fst].
      repeat split; [eauto | auto].
    + rewrite AddToWishlistView_post_eq.
      assert (Hc' : find_pk cafe_id
                (cafes (set_wishes s (wishes s ++ [wish_row s profile (cafe_id cafe)])))
                (Some cafe_pk) = Some cafe) by exact Hc.
      rewrite Hc', Hp, wish_exists_added. cbn [snd fst].
      repeat split; [eauto|].
      intros Hu.
      pose proof (CafeWish_create_unique profile (cafe_id cafe) s Hu) as H.
      unfold CafeWish_create in H. rewrite He in H. exact H.
  - intros cafe profile Hc Hp He.
    rewrite AddWishlistView_post_cafe_choice_eq, Hc, Hp, He. reflexivity.
  - cbv zeta. rewrite (AddWishlistView_post_cafe_choice_eq req raw s).
    destruct (AddWishlistView.clean_cafe_choice raw s) as [cafe|] eqn:Hc.
    2:{ cbn [snd fst]. rewrite AddWishlistView_post_cafe_choice_eq, Hc.
        cbn [snd fst]. auto. }
    destruct (user_cafe_profile (user req)) as [e|profile] eqn:Hp.
    { cbn [snd fst]. rewrite AddWishlistView_post_cafe_choice_eq, Hc, Hp.
      cbn [snd fst]. auto. }
    destruct (wish_exists profile (cafe_id cafe) s) eqn:He; cbn [snd fst].
    + rewrite AddWishlistView_post_cafe_choice_eq, Hc, Hp, He. cbn [snd fst]. auto.
    + rewrite AddWishlistView_post_cafe_choice_eq.
      assert (Hc' : AddWishlistView.clean_cafe_choice raw
                (set_wishes s (wishes s ++ [wish_row s profile (cafe_id cafe)]))
              = Some cafe) by exact Hc.
      rewrite Hc', Hp, wish_exists_added. cbn [snd fst].
      split; [reflexivity|].
      intros Hu.
      pose proof (CafeWish_create_unique profile (cafe_id cafe) s Hu) as H.
      unfold CafeWish_create in H. rewrite He in H. exact H.
Qed.

Lemma add_to_wishlist_idempotent_witness :
  AddToWishlistView.post (Example.request "") 1
    (set_wishes Example.store1
       [{| wish_id := 1; wish_profile := 1; wish_cafe := 1; wish_visited := false |}])
  = (inr (HttpResponseRedirect (route_show_cafe 1) [info_wish_already "Pavement"]),
     set_wishes Example.store1
       [{| wish_id := 1; wish_profile := 1; wish_cafe := 1; wish_visited := false |}]).
Proof.
  apply (proj1 (add_to_wishlist_idempotent (RT := Example.runtime)
           (Example.request "") 1 "1"
           (set_wishes Example.store1
              [{| wish_id := 1; wish_profile := 1; wish_cafe := 1;
                  wish_visited := false |}]))
           {| cafe_id := 1; cafe_name := "Pavement" |} 1);
    reflexivity.
Defined.

(** ** Protocol A: the cardinality of the visit photos *)

(** C3.  [VisitPhotoFormSet] is declared with [max_num=5], and a
    submission of six visit photos, each with an image, is accepted: the
    visit and six [VisitPhoto] rows are written. *)
Theorem six_visit_photos_are_saved :
  max_num VisitPhotoFormSet = 5%nat /\
  fst (VisitCreateView.dispatch (RT := Example.runtime) Example.six_photos 1
         Example.store1)
  = inr (HttpResponseRedirect (route_visit_detail 2) [success_visit_logged "Pavement"]) /\
  List.length
    (filter (fun p => vphoto_visit p =? 2)
       (visit_photos
          (snd (VisitCreateView.dispatch (RT := Example.runtime) Example.six_photos 1
                  Example.store1)))) = 6%nat.
Proof. vm_compute. repeat split. Qed.

(** ** Protocol A: the check of the nested formsets *)

Lemma check_nested_no_invalid (l : list ItemForm) :
  forallb (fun g => negb (nested_invalid g)) l = true ->
  check_nested l = (true, map inspect l).
Proof.
  induction l as [|g l IH]; simpl; [reflexivity|].
  intros H. apply andb_true_iff in H. destruct H as [Hg Hl].
  rewrite (IH Hl). unfold nested_invalid in Hg. unfold inspect.
  destruct (nested_photo_formset g) as [nested|]; [|reflexivity].
  destruct (negb (cleaned_DELETE g)); [|reflexivity].
  simpl in Hg. rewrite negb_involutive in Hg. rewrite Hg. reflexivity.
Qed.

Lemma check_nested_first_invalid (before after : list ItemForm) (f : ItemForm) :
  forallb (fun g => negb (nested_invalid g)) before = true ->
  nested_invalid f = true ->
  check_nested (before ++ f :: after) = (false, map inspect before ++ inspect f :: after).
Proof.
  induction before as [|g l IH]; simpl; intros Hb Hf.
  - unfold nested_invalid in Hf. unfold inspect.
    destruct (nested_photo_formset f) as [nested|]; [|rewrite andb_false_r in Hf; discriminate].
    apply andb_true_iff in Hf. destruct Hf as [Hd Hv].
    rewrite Hd, Hv. reflexivity.
  - apply andb_true_iff in Hb. destruct Hb as [Hg Hl].
    rewrite (IH Hl Hf). unfold nested_invalid in Hg. unfold inspect.
    destruct (nested_photo_formset g) as [nested|]; [|reflexivity].
    destruct (negb (cleaned_DELETE g)); [|reflexivity].
    simpl in Hg. rewrite negb_involutive in Hg. rewrite Hg. reflexivity.
Qed.

(** A form of a photo formset that is in error names a field. *)
Lemma bind_photo_form_errors {RT : PyRuntime} {N : Type} d files fk parent table qs
    initial prefix errs :
  cleaned (bind_photo_form (N := N) d files fk parent table qs initial prefix) = inl errs ->
  errs <> [].
Proof.
  unfold bind_photo_form. cbn [cleaned].
  destruct (clean_image _ _); destruct (clean_char _ _ _);
    destruct (id_field_ok _ _ _); destruct (fk_field_ok _ _);
    cbn; intros H; inversion H; discriminate.
Qed.

Lemma bind_formset_forms {RT : PyRuntime} {D N : Type} fac
    (bind_form : bool -> string -> BoundForm D N) d prefix f :
  In f (forms (bind_formset fac bind_form d prefix)) ->
  exists initial p, f = bind_form initial p.
Proof.
  unfold bind_formset. cbn [forms]. intros H.
  apply in_map_iff in H. destruct H as [i [Hi _]]. eauto.
Qed.

Lemma form_errors_counted {D N : Type} (fac : FormSetFactory) (l : list (BoundForm D N)) :
  (forall f errs, In f l -> cleaned f = inl errs -> errs <> []) ->
  forallb (fun f => should_delete fac f || form_is_valid f) l = false ->
  (0 < fold_right (fun form_errors n => List.length form_errors + n) 0
         (map form_errors (filter (fun f => negb (should_delete fac f)) l)))%nat.
Proof.
  induction l as [|f l IH]; cbn [forallb filter]; intros Hl H; [discriminate|].
  assert (Hl' : forall f errs, In f l -> cleaned f = inl errs -> errs <> [])
    by (intros g errs Hg; apply Hl; right; exact Hg).
  destruct (should_delete fac f) eqn:Hd; cbn [orb andb negb] in *.
  - apply IH; assumption.
  - cbn [map fold_right].
    destruct (form_is_valid f) eqn:Hv; cbn [andb] in H.
    + specialize (IH Hl' H). lia.
    + unfold form_is_valid in Hv. unfold form_errors.
      destruct (skipped f); [discriminate|]. cbn [orb] in Hv.
      destruct (cleaned f) as [errs|] eqn:Hc; [|discriminate].
      pose proof (Hl f errs (or_introl eq_refl) Hc) as Hne.
      destruct errs; [congruence|]. cbn [List.length]. lia.
Qed.

(** A bound formset that is not valid has errors to show. *)
Lemma invalid_formset_has_errors {D N : Type} (fs : FormSet D N) :
  is_bound fs = true ->
  errors_cache fs = None ->
  (forall f errs, In f (forms fs) -> cleaned f = inl errs -> errs <> []) ->
  is_valid fs = false ->
  (0 < total_error_count fs)%nat.
Proof.
  intros Hb Hc Hf Hv. unfold total_error_count, errors. rewrite Hb, Hc.
  unfold is_valid in Hv. rewrite Hb in Hv. cbn [andb] in Hv.
  destruct (non_form_errors fs) as [|e l]; [|cbn [List.length]; lia].
  rewrite andb_true_r in Hv.
  pose proof (form_errors_counted (factory fs) (forms fs) Hf Hv). lia.
Qed.

Lemma nested_formset_has_errors {RT : PyRuntime} d files fk parent table qs prefix :
  is_valid (bind_formset (D := PhotoData) (N := Empty_set) ItemPhotoFormSetFactory
              (bind_photo_form d files fk parent table qs) d prefix) = false ->
  (0 < total_error_count
         (bind_formset (D := PhotoData) (N := Empty_set) ItemPhotoFormSetFactory
            (bind_photo_form d files fk parent table qs) d prefix))%nat.
Proof.
  apply invalid_formset_has_errors; try reflexivity.
  intros f errs Hin Hc. apply bind_formset_forms in Hin.
  destruct Hin as (initial & p & ->). eapply bind_photo_form_errors. exact Hc.
Qed.

(** In the context of either view of protocol A, an item form whose
    nested photo formset is invalid holds that formset bound, not yet
    cleaned, and with errors to show. *)
Lemma context_shows_nested_errors {RT : PyRuntime} (view : ProtocolA) (req : Request)
    (s : Store) (g : ItemForm) :
  In g (forms (favorite_item_formset (context_of view req s))) ->
  nested_invalid g = true ->
  exists nested, nested_photo_formset g = Some nested /\
                 errors_cache nested = None /\
                 (0 < total_error_count nested)%nat.
Proof.
  intros Hin Hbad. destruct view as [cafe|visit]; cbn [context_of] in Hin.
  - unfold VisitCreateView.get_context_data in Hin.
    cbn [favorite_item_formset with_forms forms] in Hin.
    apply in_map_iff in Hin. destruct Hin as (form & <- & Hform).
    destruct (nonempty (POST req)) eqn:Hpost; [|destruct Hform].
    cbn [orb] in *. unfold nested_invalid in Hbad.
    cbn [attach nested_photo_formset] in *.
    apply andb_true_iff in Hbad. destruct Hbad as [_ Hbad].
    apply negb_true_iff in Hbad.
    eexists. split; [reflexivity|]. split; [reflexivity|].
    apply nested_formset_has_errors. exact Hbad.
  - unfold VisitUpdateView.get_context_data in Hin.
    cbn [favorite_item_formset with_forms forms] in Hin.
    apply in_map_iff in Hin. destruct Hin as (form & <- & Hform).
    destruct (nonempty (POST req)) eqn:Hpost; [|destruct Hform].
    cbn [orb] in *. unfold nested_invalid in Hbad.
    destruct (form_instance form) as [k|] eqn:Hk.
    + cbn [attach nested_photo_formset] in *.
      apply andb_true_iff in Hbad. destruct Hbad as [_ Hbad].
      apply negb_true_iff in Hbad.
      eexists. split; [reflexivity|]. split; [reflexivity|].
      apply nested_formset_has_errors. exact Hbad.
    + apply bind_formset_forms in Hform. destruct Hform as (initial & p & ->).
      cbn [bind_item_form nested_photo_formset] in Hbad.
      rewrite andb_false_r in Hbad. discriminate.
Qed.

(** C2, as the code has it.  In both views of protocol A the check of the
    nested photo formsets stops at the first item form, not marked for
    deletion, whose nested formset is invalid: the forms before it and
    that form have been visited, the forms after it are as they were.
    The view then writes nothing and answers with the page, the message
    about the item photos, and a context built anew from the request: in
    it every item form whose nested photo formset is invalid, not only
    the first, holds that formset bound, not yet cleaned, and with a
    positive count of errors. *)
Theorem check_nested_stops_at_first_invalid
    {RT : PyRuntime} (view : ProtocolA) (req : Request) (data : VisitData) (s : Store)
    (before after : list ItemForm) (f : ItemForm) :
  is_valid (visit_photo_formset (context_of view req s)) = true ->
  is_valid (favorite_item_formset (context_of view req s)) = true ->
  forms (favorite_item_formset (context_of view req s)) = before ++ f :: after ->
  forallb (fun g => negb (nested_invalid g)) before = true ->
  nested_invalid f = true ->
  check_nested (before ++ f :: after)
    = (false, map inspect before ++ inspect f :: after) /\
  form_valid_of view req (inr data) s
    = (inr (TemplateResponse (template_of view)
              (visit_formsets (context_of view req s)) [error_item_photos]), s) /\
  forall g, In g (forms (favorite_item_formset (context_of view req s))) ->
            nested_invalid g = true ->
            exists nested, nested_photo_formset g = Some nested /\
                           errors_cache nested = None /\
                           (0 < total_error_count nested)%nat.
Proof.
  intros Hp Hi Hforms Hb Hf.
  pose proof (check_nested_first_invalid before after f Hb Hf) as Hc.
  split; [exact Hc|]. split.
  - destruct view as [cafe|visit]; cbn [context_of form_valid_of template_of] in *.
    + unfold VisitCreateView.form_valid.
      rewrite (bind_inr _ _ s (VisitCreateView.get_context_data req s) s) by reflexivity.
      rewrite Hp, Hi, Hforms, Hc. reflexivity.
    + unfold VisitUpdateView.form_valid.
      rewrite (bind_inr _ _ s (VisitUpdateView.get_context_data req visit s) s)
        by reflexivity.
      rewrite Hp, Hi, Hforms, Hc. reflexivity.
  - intros g. apply context_shows_nested_errors.
Qed.

Lemma check_nested_stops_at_first_invalid_witness :
  form_valid_of (RT := Example.runtime) (creating {| cafe_id := 1; cafe_name := "Pavement" |})
    Example.two_bad_items
    (inr {| vd_date_visited := 20251124; vd_user_rating := 4%float;
            vd_amount_spent := Some 12%float; vd_notes := "" |})
    Example.store1
  = (inr (TemplateResponse VisitCreateView.template
            (visit_formsets
               (VisitCreateView.get_context_data (RT := Example.runtime)
                  Example.two_bad_items Example.store1))
            [error_item_photos]),
     Example.store1) /\
  form_valid_of (RT := Example2.runtime) (updating Example.visit1)
    Example2.two_bad_stored_items
    (inr {| vd_date_visited := 20251124; vd_user_rating := 4%float;
            vd_amount_spent := Some 12%float; vd_notes := "" |})
    Example2.store_with_items
  = (inr (TemplateResponse VisitUpdateView.template
            (visit_formsets
               (VisitUpdateView.get_context_data (RT := Example2.runtime)
                  Example2.two_bad_stored_items Example.visit1
                  Example2.store_with_items))
            [error_item_photos]),
     Example2.store_with_items).
Proof.
  split.
  - eapply proj1. eapply proj2.
    eapply (check_nested_stops_at_first_invalid (RT := Example.runtime)
              (creating {| cafe_id := 1; cafe_name := "Pavement" |})
              Example.two_bad_items _ Example.store1 []).
    + vm_compute. reflexivity.
    + vm_compute. reflexivity.
    + vm_compute. reflexivity.
    + reflexivity.
    + vm_compute. reflexivity.
  - eapply proj1. eapply proj2.
    eapply (check_nested_stops_at_first_invalid (RT := Example2.runtime)
              (updating Example.visit1)
              Example2.two_bad_stored_items _ Example2.store_with_items []).
    + vm_compute. reflexivity.
    + vm_compute. reflexivity.
    + vm_compute. reflexivity.
    + reflexivity.
    + vm_compute. reflexivity.
Defined.

(** The reading of the specification fails: with two items whose nested
    photo forms both lack their image, the check has run on the first
    nested formset only. *)
Lemma nested_validation_is_not_exhaustive : ~ nested_validation_is_exhaustive.
Proof.
  intros H.
  specialize (H Example.runtime (creating {| cafe_id := 1; cafe_name := "Pavement" |})
                Example.two_bad_items Example.store1).
  cbv zeta in H. cbn [context_of] in H.
  assert (Hex : exists f,
             In f (snd (check_nested
                          (forms (favorite_item_formset
                                    (VisitCreateView.get_context_data
                                       (RT := Example.runtime) Example.two_bad_items
                                       Example.store1))))) /\
             nested_invalid f = true /\ inspected f = false).
  { eexists. split; [vm_compute; right; left; reflexivity|].
    split; vm_compute; reflexivity. }
  destruct Hex as [f [Hin [Hbad Hnot]]].
  assert (Hcount : (2 <= List.length
                      (filter nested_invalid
                         (forms (favorite_item_formset
                                   (VisitCreateView.get_context_data
                                      (RT := Example.runtime) Example.two_bad_items
                                      Example.store1)))))%nat).
  { vm_compute. apply le_n. }
  rewrite (H Hcount f Hin Hbad) in Hnot. discriminate.
Qed.

(** ** Protocol B: items without a name *)



Section ProtocolBFacts.
Context {RT : PyRuntime}.

Lemma save_favorite_items_list files visit kvs l s :
  member_default kvs "favoriteItems" (JArr []) = JArr l ->
  LogCafeVisitView.save_favorite_items files visit (JObj kvs) s
  = for_each l (LogCafeVisitView.save_favorite_item files visit) s.
Proof.
  intros H. unfold LogCafeVisitView.save_favorite_items, py_get_default.
  rewrite H. reflexivity.
Qed.


End ProtocolBFacts.



(** ** Atomicity of the nested write *)

Section AtomicityFacts.
Context {RT : PyRuntime}.

Lemma create_form_valid_atomic req cafe form s :
  (created (fst (VisitCreateView.form_valid req cafe form s)) = None /\
   snd (VisitCreateView.form_valid req cafe form s) = s) \/
  exists data object,
    form = inr data /\
    create_transaction req cafe data s s
      = (inr object, snd (VisitCreateView.form_valid req cafe form s)) /\
    fst (VisitCreateView.form_valid req cafe form s)
      = inr (HttpResponseRedirect (route_visit_detail object)
               [success_visit_logged (cafe_name cafe)]).
Proof.
  unfold VisitCreateView.form_valid, create_transaction.
  rewrite (bind_inr _ _ s (VisitCreateView.get_context_data req s) s) by reflexivity.
  destruct form as [errs|data]; [left; split; reflexivity|].
  destruct (negb (is_valid (visit_photo_formset (VisitCreateView.get_context_data req s)))
            || negb (is_valid (favorite_item_formset
                                 (VisitCreateView.get_context_data req s))));
    [left; split; reflexivity|].
  destruct (check_nested (forms (favorite_item_formset
                                   (VisitCreateView.get_context_data req s))))
    as [ok item_forms].
  destruct ok; cbn [negb snd]; [|left; split; reflexivity].
  unfold bind, atomic, ret.
  destruct (VisitCreateView.save_all req cafe data
              (visit_photo_formset (VisitCreateView.get_context_data req s))
              item_forms s)
    as [[e|object] s1] eqn:Hs; cbn [fst snd].
  - left. split; reflexivity.
  - right. exists data, object. split; [reflexivity|]. split; [exact Hs|reflexivity].
Qed.

Lemma update_form_valid_atomic req visit form s :
  snd (VisitUpdateView.form_valid req visit form s) = s \/
  exists data object,
    form = inr data /\
    update_transaction req visit data s s
      = (inr object, snd (VisitUpdateView.form_valid req visit form s)).
Proof.
  unfold VisitUpdateView.form_valid, update_transaction.
  rewrite (bind_inr _ _ s (VisitUpdateView.get_context_data req visit s) s) by reflexivity.
  destruct form as [errs|data]; [left; reflexivity|].
  destruct (negb (is_valid (visit_photo_formset (VisitUpdateView.get_context_data req visit s)))
            || negb (is_valid (favorite_item_formset
                                 (VisitUpdateView.get_context_data req visit s))));
    [left; reflexivity|].
  destruct (check_nested (forms (favorite_item_formset
                                   (VisitUpdateView.get_context_data req visit s))))
    as [ok item_forms].
  destruct ok; cbn [negb snd]; [|left; reflexivity].
  unfold VisitUpdateView.cafe_name_of, atomic. db_unfold. cbv beta.
  destruct (VisitUpdateView.save_all visit data
              (visit_photo_formset (VisitUpdateView.get_context_data req visit s))
              item_forms s)
    as [[e|object] s1] eqn:Hs; cbn [fst snd].
  - left. reflexivity.
  - right. exists data, object. split; [reflexivity|].
    destruct (find_pk cafe_id (cafes s1) (Some (visit_cafe visit))); exact Hs.
Qed.

Lemma log_post_atomic req cafe_pk s :
  (created (fst (LogCafeVisitView.post req cafe_pk s)) = None /\
   snd (LogCafeVisitView.post req cafe_pk s) = s) \/
  exists cafe text dynamic_data new_visit,
    find_pk cafe_id (cafes s) (Some cafe_pk) = Some cafe /\
    qd_get (POST req) "dynamic_data" = Some text /\
    json_loads text = Some dynamic_data /\
    LogCafeVisitView.save_all req cafe dynamic_data s
      = (inr new_visit, snd (LogCafeVisitView.post req cafe_pk s)) /\
    fst (LogCafeVisitView.post req cafe_pk s)
      = inr (JsonResponse (success_redirect (route_visit_detail new_visit)) 200).
Proof.
  unfold LogCafeVisitView.post, LogCafeVisitView.attempt, try_except, Cafe_or_404.
  rewrite bind_assoc.
  rewrite (bind_inr _ _ s (find_pk cafe_id (cafes s) (Some cafe_pk)) s) by reflexivity.
  destruct (find_pk cafe_id (cafes s) (Some cafe_pk)) as [cafe|] eqn:Hc;
    [|left; split; reflexivity].
  rewrite (bind_inr _ _ s cafe s) by reflexivity.
  destruct (qd_get (POST req) "dynamic_data") as [text|] eqn:Ht;
    [|left; split; reflexivity].
  destruct text as [|c text']; [left; split; reflexivity|].
  destruct (json_loads (String c text')) as [dynamic_data|] eqn:Hj;
    [|left; destruct (json_fault (String c text')); split; reflexivity].
  unfold bind, atomic, ret.
  destruct (LogCafeVisitView.save_all req cafe dynamic_data s) as [[e|new_visit] s1] eqn:Hs.
  - left. destruct e; split; reflexivity.
  - right. exists cafe, (String c text'), dynamic_data, new_visit. repeat split; assumption.
Qed.

End AtomicityFacts.

(** C1.  The nested write is all or nothing.  After a request to
    [VisitCreateView], [VisitUpdateView] or [LogCafeVisitView] the store
    is either the store before the request, or the store the whole
    transaction body of the request (the visit, its photos, its items and
    their photos) ends in without raising.  So a body that raises part
    way leaves the store before the request, and so does every answer of
    the two creating views that is not the success answer. *)
Theorem nested_write_is_atomic {RT : PyRuntime} (req : Request) (k : pk) (s : Store) :
  (* VisitCreateView *)
  (((created (fst (VisitCreateView.dispatch req k s)) = None /\
     snd (VisitCreateView.dispatch req k s) = s) \/
    exists cafe data object,
      find_pk cafe_id (cafes s) (Some k) = Some cafe /\
      VisitForm (POST req) = inr data /\
      create_transaction req cafe data s s
        = (inr object, snd (VisitCreateView.dispatch req k s)) /\
      fst (VisitCreateView.dispatch req k s)
        = inr (HttpResponseRedirect (route_visit_detail object)
                 [success_visit_logged (cafe_name cafe)])) /\
   (forall cafe data e s1,
      find_pk cafe_id (cafes s) (Some k) = Some cafe ->
      VisitForm (POST req) = inr data ->
      create_transaction req cafe data s s = (inl e, s1) ->
      snd (VisitCreateView.dispatch req k s) = s)) /\
  (* VisitUpdateView *)
  ((snd (VisitUpdateView.dispatch req k s) = s \/
    exists visit data object,
      find_pk visit_id (visits s) (Some k) = Some visit /\
      VisitForm (POST req) = inr data /\
      update_transaction req visit data s s
        = (inr object, snd (VisitUpdateView.dispatch req k s))) /\
   (forall visit data e s1,
      find_pk visit_id (visits s) (Some k) = Some visit ->
      VisitForm (POST req) = inr data ->
      update_transaction req visit data s s = (inl e, s1) ->
      snd (VisitUpdateView.dispatch req k s) = s)) /\
  (* LogCafeVisitView *)
  (((created (fst (LogCafeVisitView.dispatch req k s)) = None /\
     snd (LogCafeVisitView.dispatch req k s) = s) \/
    exists cafe text dynamic_data new_visit,
      find_pk cafe_id (cafes s) (Some k) = Some cafe /\
      qd_get (POST req) "dynamic_data" = Some text /\
      json_loads text = Some dynamic_data /\
      LogCafeVisitView.save_all req cafe dynamic_data s
        = (inr new_visit, snd (LogCafeVisitView.dispatch req k s)) /\
      fst (LogCafeVisitView.dispatch req k s)
        = inr (JsonResponse (success_redirect (route_visit_detail new_visit)) 200)) /\
   (forall cafe text dynamic_data e s1,
      find_pk cafe_id (cafes s) (Some k) = Some cafe ->
      qd_get (POST req) "dynamic_data" = Some text ->
      json_loads text = Some dynamic_data ->
      LogCafeVisitView.save_all req cafe dynamic_data s = (inl e, s1) ->
      snd (LogCafeVisitView.dispatch req k s) = s)).
Proof.
  assert (Hcreate :
    (created (fst (VisitCreateView.dispatch req k s)) = None /\
     snd (VisitCreateView.dispatch req k s) = s) \/
    exists cafe data object,
      find_pk cafe_id (cafes s) (Some k) = Some cafe /\
      VisitForm (POST req) = inr data /\
      create_transaction req cafe data s s
        = (inr object, snd (VisitCreateView.dispatch req k s)) /\
      fst (VisitCreateView.dispatch req k s)
        = inr (HttpResponseRedirect (route_visit_detail object)
                 [success_visit_logged (cafe_name cafe)])).
  { unfold VisitCreateView.dispatch, Cafe_or_404.
    rewrite bind_assoc.
    rewrite (bind_inr _ _ s (find_pk cafe_id (cafes s) (Some k)) s) by reflexivity.
    destruct (find_pk cafe_id (cafes s) (Some k)) as [cafe|];
      [|left; split; reflexivity].
    rewrite (bind_inr _ _ s cafe s) by reflexivity.
    unfold login_required. destruct (user req); [left; split; reflexivity|].
    unfold VisitCreateView.post.
    destruct (is_ok (VisitForm (POST req))); [|left; split; reflexivity].
    destruct (create_form_valid_atomic req cafe (VisitForm (POST req)) s)
      as [H|(data & object & Hd & Ht & Hr)].
    - left. exact H.
    - right. exists cafe, data, object. repeat split; assumption. }
  assert (Hupdate :
    snd (VisitUpdateView.dispatch req k s) = s \/
    exists visit data object,
      find_pk visit_id (visits s) (Some k) = Some visit /\
      VisitForm (POST req) = inr data /\
      update_transaction req visit data s s
        = (inr object, snd (VisitUpdateView.dispatch req k s))).
  { unfold VisitUpdateView.dispatch, login_required.
    destruct (user req); [left; reflexivity|].
    unfold VisitUpdateView.post.
    rewrite (bind_inr _ _ s (find_pk visit_id (visits s) (Some k)) s) by reflexivity.
    destruct (find_pk visit_id (visits s) (Some k)) as [visit|]; [|left; reflexivity].
    rewrite (bind_inr _ _ s visit s) by reflexivity.
    destruct (is_ok (VisitForm (POST req))); [|left; reflexivity].
    destruct (update_form_valid_atomic req visit (VisitForm (POST req)) s)
      as [H|(data & object & Hd & Ht)].
    - left. exact H.
    - right. exists visit, data, object. repeat split; assumption. }
  assert (Hlog :
    (created (fst (LogCafeVisitView.dispatch req k s)) = None /\
     snd (LogCafeVisitView.dispatch req k s) = s) \/
    exists cafe text dynamic_data new_visit,
      find_pk cafe_id (cafes s) (Some k) = Some cafe /\
      qd_get (POST req) "dynamic_data" = Some text /\
      json_loads text = Some dynamic_data /\
      LogCafeVisitView.save_all req cafe dynamic_data s
        = (inr new_visit, snd (LogCafeVisitView.dispatch req k s)) /\
      fst (LogCafeVisitView.dispatch req k s)
        = inr (JsonResponse (success_redirect (route_visit_detail new_visit)) 200)).
  { unfold LogCafeVisitView.dispatch, login_required.
    destruct (user req); [left; split; reflexivity|].
    exact (log_post_atomic req k s). }
  split; [|split]; (split; [assumption|]).
  - intros cafe data e s1 Hc Hd Ht.
    destruct Hcreate as [[_ H]|(cafe' & data' & object & Hc' & Hd' & Ht' & _)];
      [exact H|].
    congruence.
  - intros visit data e s1 Hv Hd Ht.
    destruct Hupdate as [H|(visit' & data' & object & Hv' & Hd' & Ht')]; [exact H|].
    congruence.
  - intros cafe text data e s1 Hc Hq Hj Ht.
    destruct Hlog as [[_ H]|(cafe' & text' & data' & v & Hc' & Hq' & Hj' & Ht' & _)];
      [exact H|].
    congruence.
Qed.

Lemma nested_write_is_atomic_witness :
  snd (VisitCreateView.dispatch (RT := Example.runtime)
         Example.item_then_deleted_item 1 Example.store1) = Example.store1 /\
  snd (LogCafeVisitView.dispatch (RT := Example.runtime)
         (Example.log_request "one item without price" []) 1 Example.store1)
  = Example.store1.
Proof.
  split.
  - eapply (proj2 (proj1 (nested_write_is_atomic (RT := Example.runtime)
              Example.item_then_deleted_item 1 Example.store1))).
    + reflexivity.
    + vm_compute. reflexivity.
    + vm_compute. reflexivity.
  - eapply (proj2 (proj2 (proj2 (nested_write_is_atomic (RT := Example.runtime)
              (Example.log_request "one item without price" []) 1 Example.store1)))).
    + reflexivity.
    + reflexivity.
    + reflexivity.
    + vm_compute. reflexivity.
Defined.

(** The bodies do write before they raise: an item form sent with DELETE
    checked in the creation view, an item without a price in protocol B.
    The rows written until then are gone after the request. *)
Example create_rolls_back_partial_writes :
  exists s1,
    create_transaction (RT := Example.runtime) Example.item_then_deleted_item
      {| cafe_id := 1; cafe_name := "Pavement" |}
      {| vd_date_visited := 20251124; vd_user_rating := 4%float;
         vd_amount_spent := Some 12%float; vd_notes := "" |}
      Example.store1 Example.store1
    = (inl ValueError, s1) /\
    List.length (visits s1) = 2%nat /\
    List.length (favorite_items s1) = 1%nat /\
    VisitCreateView.dispatch (RT := Example.runtime) Example.item_then_deleted_item 1
      Example.store1 = (inl ValueError, Example.store1).
Proof. eexists. split; [vm_compute; reflexivity|]. repeat split. Qed.

Example log_rolls_back_partial_writes :
  exists s1,
    LogCafeVisitView.save_all (RT := Example.runtime)
      (Example.log_request "one item without price" [])
      {| cafe_id := 1; cafe_name := "Pavement" |}
      (JObj [("visitPhotos", JArr []);
             ("favoriteItems", JArr [JObj [("name", JStr "latte")]])])
      Example.store1
    = (inl IntegrityError, s1) /\
    List.length (visits s1) = 2%nat /\
    LogCafeVisitView.dispatch (RT := Example.runtime)
      (Example.log_request "one item without price" []) 1 Example.store1
    = (inr (JsonResponse
              (detail "A database error occurred (missing required data or constraint violation).")
              500),
       Example.store1).
Proof. eexists. split; [vm_compute; reflexivity|]. repeat split. Qed.

(** ** Owner and cafe of a created visit *)

Lemma keeps_ret {A : Type} (a : A) : keeps_visits (ret a).
Proof. intros s. reflexivity. Qed.

Lemma keeps_raise {A : Type} (e : exn) : keeps_visits (@raise A e).
Proof. intros s. reflexivity. Qed.

Lemma keeps_lift {A : Type} (r : result A) : keeps_visits (lift r).
Proof. intros s. reflexivity. Qed.

Lemma keeps_bind {A B : Type} (m : DB A) (k : A -> DB B) :
  keeps_visits m -> (forall a, keeps_visits (k a)) -> keeps_visits (bind m k).
Proof.
  intros Hm Hk s. unfold bind. specialize (Hm s).
  destruct (m s) as [[e|a] s1]; simpl in *; [exact Hm|].
  rewrite Hk. exact Hm.
Qed.

Lemma keeps_for_each {A : Type} (l : list A) (f : A -> DB unit) :
  (forall x, keeps_visits (f x)) -> keeps_visits (for_each l f).
Proof.
  intros Hf. induction l as [|x l IH]; simpl.
  - apply keeps_ret.
  - apply keeps_bind; [apply Hf|intros _; exact IH].
Qed.

Lemma keeps_not_null {A : Type} (o : option A) : keeps_visits (not_null o).
Proof. destruct o; [apply keeps_ret|apply keeps_raise]. Qed.

Lemma keeps_cleaned_or_raise {D N : Type} (f : BoundForm D N) :
  keeps_visits (cleaned_or_raise f).
Proof. unfold cleaned_or_raise. destruct (cleaned f); [apply keeps_raise|apply keeps_ret]. Qed.

(** Closes a goal [keeps_visits m] for [m] built from the combinators and
    the writes to the other tables. *)
Ltac keeps :=
  repeat first
    [ apply keeps_ret | apply keeps_raise | apply keeps_lift | apply keeps_not_null
    | apply keeps_cleaned_or_raise
    | apply keeps_bind; [|intro]
    | apply keeps_for_each; intro
    | (intros ?s; reflexivity)
    | match goal with
      | |- keeps_visits (match ?x with _ => _ end) => destruct x
      | |- keeps_visits (if ?x then _ else _) => destruct x
      end ].

Lemma keeps_VisitPhoto_insert v i c : keeps_visits (VisitPhoto_insert v i c).
Proof. unfold VisitPhoto_insert. keeps. Qed.

Lemma keeps_ItemPhoto_insert v i c : keeps_visits (ItemPhoto_insert v i c).
Proof. unfold ItemPhoto_insert. keeps. Qed.

Lemma keeps_FavoriteItem_insert v n p r d : keeps_visits (FavoriteItem_insert v n p r d).
Proof. unfold FavoriteItem_insert. keeps. Qed.

Lemma keeps_formset_save_visit_photos {N : Type} parent (fs : FormSet PhotoData N) :
  keeps_visits (formset_save visit_photo_ops parent fs).
Proof.
  unfold formset_save, visit_photo_ops; simpl. keeps; apply keeps_VisitPhoto_insert.
Qed.

Lemma keeps_formset_save_item_photos {N : Type} parent (fs : FormSet PhotoData N) :
  keeps_visits (formset_save item_photo_ops parent fs).
Proof.
  unfold formset_save, item_photo_ops; simpl. keeps; apply keeps_ItemPhoto_insert.
Qed.

Lemma keeps_save_item_form visit item_form : keeps_visits (save_item_form visit item_form).
Proof.
  unfold save_item_form. keeps;
    first [apply keeps_FavoriteItem_insert | apply keeps_formset_save_item_photos].
Qed.

Lemma Visit_insert_inr p c d r a n s k s' :
  Visit_insert p c d r a n s = (inr k, s') ->
  exists row, s' = set_visits s (visits s ++ [row]) /\
              visit_id row = k /\ visit_profile row = p /\ visit_cafe row = c.
Proof.
  unfold Visit_insert. db_unfold.
  destruct d; [|discriminate]. destruct r; [|discriminate].
  destruct a; [|discriminate]. destruct n; [|discriminate].
  intros H. inversion H; subst. eexists. split; [reflexivity|]. repeat split.
Qed.

Lemma find_pk_key {R : Type} (key : R -> pk) rows k r :
  find_pk key rows (Some k) = Some r -> key r = k.
Proof.
  unfold find_pk. intros H. apply find_some in H. destruct H as [_ H].
  apply Z.eqb_eq. exact H.
Qed.

Section OwnerFacts.
Context {RT : PyRuntime}.

Lemma create_save_all_visits req cafe data photos item_forms s object s' :
  VisitCreateView.save_all req cafe data photos item_forms s = (inr object, s') ->
  exists row profile,
    user req = AuthUser (Some profile) /\
    visits s' = visits s ++ [row] /\
    visit_id row = object /\ visit_profile row = profile /\
    visit_cafe row = cafe_id cafe.
Proof.
  unfold VisitCreateView.save_all. unfold bind at 1. unfold lift.
  destruct (user req) as [|[profile|]]; simpl; try discriminate.
  unfold bind at 1.
  destruct (Visit_insert profile (cafe_id cafe) (Some (vd_date_visited data))
              (Some (vd_user_rating data)) (vd_amount_spent data)
              (Some (vd_notes data)) s) as [[e|k] s1] eqn:Hv; [discriminate|].
  apply Visit_insert_inr in Hv. destruct Hv as (row & -> & Hid & Hp & Hc).
  intros H.
  assert (Hk : keeps_visits
            (formset_save visit_photo_ops k photos ;;;
             for_each item_forms (VisitCreateView.save_or_delete k) ;;; ret k)).
  { apply keeps_bind; [apply keeps_formset_save_visit_photos|intros _].
    apply keeps_bind; [|intros _; apply keeps_ret].
    apply keeps_for_each. intros f. unfold VisitCreateView.save_or_delete.
    keeps; apply keeps_save_item_form. }
  specialize (Hk (set_visits s (visits s ++ [row]))). rewrite H in Hk. simpl in Hk.
  assert (object = k).
  { revert H. unfold bind.
    destruct (formset_save visit_photo_ops k photos _) as [[?|?] ?]; [discriminate|].
    destruct (for_each item_forms _ _) as [[?|?] ?]; [discriminate|].
    unfold ret. intros H. inversion H. reflexivity. }
  subst object. exists row, profile. repeat split; assumption.
Qed.

End OwnerFacts.

Section OwnerFactsB.
Context {RT : PyRuntime}.

Lemma keeps_save_visit_photo files visit photo_data :
  keeps_visits (LogCafeVisitView.save_visit_photo files visit photo_data).
Proof.
  unfold LogCafeVisitView.save_visit_photo. keeps; apply keeps_VisitPhoto_insert.
Qed.

Lemma keeps_save_item_photo files item photo_data :
  keeps_visits (LogCafeVisitView.save_item_photo files item photo_data).
Proof.
  unfold LogCafeVisitView.save_item_photo. keeps; apply keeps_ItemPhoto_insert.
Qed.

Lemma keeps_save_favorite_item files visit item_data :
  keeps_visits (LogCafeVisitView.save_favorite_item files visit item_data).
Proof.
  unfold LogCafeVisitView.save_favorite_item,
    LogCafeVisitView.FavoriteItem_objects_create.
  keeps; first [apply keeps_FavoriteItem_insert | apply keeps_save_item_photo].
Qed.

Lemma keeps_save_favorite_items files visit dynamic_data :
  keeps_visits (LogCafeVisitView.save_favorite_items files visit dynamic_data).
Proof.
  unfold LogCafeVisitView.save_favorite_items.
  keeps; apply keeps_save_favorite_item.
Qed.

Lemma log_save_all_visits req cafe dynamic_data s new_visit s' :
  LogCafeVisitView.save_all req cafe dynamic_data s = (inr new_visit, s') ->
  exists row profile,
    user req = AuthUser (Some profile) /\
    visits s' = visits s ++ [row] /\
    visit_id row = new_visit /\ visit_profile row = profile /\
    visit_cafe row = cafe_id cafe.
Proof.
  unfold LogCafeVisitView.save_all. unfold bind at 1. unfold lift at 1.
  destruct (user req) as [|[profile|]]; simpl; try discriminate.
  unfold bind at 1.
  destruct (LogCafeVisitView.Visit_objects_create profile (cafe_id cafe)
              (qd_get (POST req) "date_visited") (qd_get (POST req) "user_rating")
              (qd_get (POST req) "amount_spent") (qd_get (POST req) "notes") s)
    as [[e|k] s1] eqn:Hv; [discriminate|].
  assert (Hrow : exists row, s1 = set_visits s (visits s ++ [row]) /\
              visit_id row = k /\ visit_profile row = profile /\
              visit_cafe row = cafe_id cafe).
  { revert Hv. unfold LogCafeVisitView.Visit_objects_create.
    unfold bind at 1. unfold lift at 1.
    destruct (LogCafeVisitView.date_column _) as [?|d]; [discriminate|].
    unfold bind at 1. unfold lift at 1.
    destruct (LogCafeVisitView.float_column _) as [?|r]; [discriminate|].
    unfold bind at 1. unfold lift at 1.
    destruct (LogCafeVisitView.float_column _) as [?|a]; [discriminate|].
    apply Visit_insert_inr. }
  destruct Hrow as (row & -> & Hid & Hp & Hc).
  intros H.
  assert (Hk : keeps_visits
            (photos <- lift (py_get_default dynamic_data "visitPhotos" (JArr [])) ;;
             photo_list <- lift (py_iter photos) ;;
             for_each photo_list (LogCafeVisitView.save_visit_photo (FILES req) k) ;;;
             LogCafeVisitView.save_favorite_items (FILES req) k dynamic_data ;;;
             ret k)).
  { keeps; first [apply keeps_save_visit_photo | apply keeps_save_favorite_items]. }
  specialize (Hk (set_visits s (visits s ++ [row]))). rewrite H in Hk. simpl in Hk.
  assert (new_visit = k).
  { revert H. unfold bind, lift.
    destruct (py_get_default dynamic_data "visitPhotos" (JArr [])); [discriminate|].
    destruct (py_iter j); [discriminate|].
    destruct (for_each l _ _) as [[?|?] ?]; [discriminate|].
    destruct (LogCafeVisitView.save_favorite_items _ _ _ _) as [[?|?] ?]; [discriminate|].
    unfold ret. intros H. inversion H. reflexivity. }
  subst new_visit. exists row, profile. repeat split; assumption.
Qed.

End OwnerFactsB.

(** ** The body fields [profile] and [cafe] are never read *)

Section Agreement.
Context {RT : PyRuntime}.
Variables d1 d2 : QueryDict.
Hypothesis agree :
  forall k, client_owner_field k = false -> qd_get d1 k = qd_get d2 k.

Lemma checkbox_agree k :
  client_owner_field k = false -> checkbox d1 k = checkbox d2 k.
Proof. intros H. unfold checkbox. rewrite (agree k H). reflexivity. Qed.

Lemma VisitForm_agree : VisitForm d1 = VisitForm d2.
Proof.
  unfold VisitForm.
  rewrite (agree "date_visited" eq_refl), (agree "user_rating" eq_refl),
    (agree "amount_spent" eq_refl), (agree "notes" eq_refl).
  reflexivity.
Qed.

Lemma bind_photo_form_agree {N : Type} files fk parent table qs initial prefix :
  (forall name, client_owner_field (add_prefix prefix name) = false) ->
  bind_photo_form (N := N) d1 files fk parent table qs initial prefix
  = bind_photo_form d2 files fk parent table qs initial prefix.
Proof.
  intros Hp. unfold bind_photo_form.
  rewrite (agree _ (Hp "id")), (agree _ (Hp "caption")), (agree _ (Hp fk)),
    (checkbox_agree _ (Hp "DELETE")).
  reflexivity.
Qed.

Lemma bind_item_form_agree {N : Type} parent table qs initial prefix :
  (forall name, client_owner_field (add_prefix prefix name) = false) ->
  bind_item_form (N := N) d1 parent table qs initial prefix
  = bind_item_form d2 parent table qs initial prefix.
Proof.
  intros Hp. unfold bind_item_form.
  rewrite (agree _ (Hp "id")), (agree _ (Hp "name")), (agree _ (Hp "price")),
    (agree _ (Hp "rating")), (agree _ (Hp "description")), (agree _ (Hp "visit")),
    (checkbox_agree _ (Hp "DELETE")).
  reflexivity.
Qed.

Lemma bind_formset_agree {D N : Type} fac
    (bf1 bf2 : bool -> string -> BoundForm D N) prefix :
  (forall name, client_owner_field (add_prefix prefix name) = false) ->
  (forall initial i,
     bf1 initial (add_prefix prefix (string_of_nat i))
     = bf2 initial (add_prefix prefix (string_of_nat i))) ->
  bind_formset fac bf1 d1 prefix = bind_formset fac bf2 d2 prefix.
Proof.
  intros Hp Hf. unfold bind_formset.
  rewrite (agree _ (Hp "TOTAL_FORMS")), (agree _ (Hp "INITIAL_FORMS")).
  f_equal. apply map_ext. intros i. apply Hf.
Qed.

End Agreement.

Section Noninterference.
Context {RT : PyRuntime}.

Lemma VisitForm_ok_nonempty d : is_ok (VisitForm d) = true -> nonempty d = true.
Proof.
  destruct d as [|kv d]; [|reflexivity].
  unfold VisitForm. simpl. discriminate.
Qed.

Lemma create_context_agree r1 r2 s :
  same_but_profile_cafe r1 r2 ->
  nonempty (POST r1) = nonempty (POST r2) ->
  VisitCreateView.get_context_data r1 s = VisitCreateView.get_context_data r2 s.
Proof.
  intros (Hb & Hf & Hu & Hk) N.
  unfold VisitCreateView.get_context_data. rewrite <- N, <- Hf.
  destruct (nonempty (POST r1)); [|reflexivity]. cbn [orb].
  assert (Hitems :
    bind_formset FavoriteItemFormSet
      (bind_item_form (N := PhotoFormSet) (POST r1) None
         (map item_id (favorite_items s)) [])
      (POST r1) "items"
    = bind_formset FavoriteItemFormSet
        (bind_item_form (POST r2) None (map item_id (favorite_items s)) [])
        (POST r2) "items").
  { apply bind_formset_agree; [exact Hk | intros name; reflexivity |].
    intros initial i. apply bind_item_form_agree; [exact Hk|].
    intros name. reflexivity. }
  f_equal.
  - rewrite <- Hitems. f_equal.
    apply map_ext_in. intros form Hin.
    unfold bind_formset in Hin. cbn [forms] in Hin.
    apply in_map_iff in Hin. destruct Hin as (i & <- & _).
    f_equal. cbn [form_prefix bind_item_form].
    apply bind_formset_agree; [exact Hk | intros name; reflexivity |].
    intros initial j. apply bind_photo_form_agree; [exact Hk|].
    intros name. reflexivity.
  - apply bind_formset_agree; [exact Hk | intros name; reflexivity |].
    intros initial i. apply bind_photo_form_agree; [exact Hk|].
    intros name. reflexivity.
Qed.

Lemma create_dispatch_agree r1 r2 cafe_pk s :
  same_but_profile_cafe r1 r2 ->
  nonempty (POST r1) = nonempty (POST r2) ->
  VisitCreateView.dispatch r1 cafe_pk s = VisitCreateView.dispatch r2 cafe_pk s.
Proof.
  intros Hsame N. pose proof Hsame as (Hb & Hf & Hu & Hk).
  unfold VisitCreateView.dispatch. apply bind_ext. intros cafe s1.
  unfold login_required, VisitCreateView.post, VisitCreateView.form_valid,
    VisitCreateView.render_to_response, VisitCreateView.save_all.
  rewrite <- Hu, <- (VisitForm_agree (POST r1) (POST r2) Hk).
  destruct (user r1) eqn:Eu; [reflexivity|].
  assert (Hrender : forall flash,
            (context <- query (VisitCreateView.get_context_data r1) ;;
             ret (TemplateResponse VisitCreateView.template (visit_formsets context)
                    flash)) s1
            = (context <- query (VisitCreateView.get_context_data r2) ;;
               ret (TemplateResponse VisitCreateView.template (visit_formsets context)
                      flash)) s1).
  { intros flash. apply bind_cong. unfold query.
    rewrite (create_context_agree r1 r2 s1 Hsame N). reflexivity. }
  destruct (is_ok (VisitForm (POST r1))) eqn:Hok; [|apply Hrender].
  rewrite (bind_inr _ _ s1 (VisitCreateView.get_context_data r1 s1) s1) by reflexivity.
  rewrite (bind_inr _ _ s1 (VisitCreateView.get_context_data r2 s1) s1) by reflexivity.
  rewrite <- (create_context_agree r1 r2 s1 Hsame N).
  destruct (VisitForm (POST r1)) as [errs|data]; [apply Hrender|].
  destruct (negb _ || negb _); [apply Hrender|].
  destruct (check_nested _) as [all_nested_valid item_forms].
  destruct (negb all_nested_valid); [apply Hrender|].
  reflexivity.
Qed.

Lemma same_but_context_refl (r : result Response) : same_but_context r r.
Proof. destruct r as [e|[]]; cbn; auto. Qed.

Lemma create_dispatch_same_but_context r1 r2 cafe_pk s :
  same_but_profile_cafe r1 r2 ->
  same_but_context (fst (VisitCreateView.dispatch r1 cafe_pk s))
    (fst (VisitCreateView.dispatch r2 cafe_pk s)) /\
  snd (VisitCreateView.dispatch r1 cafe_pk s) = snd (VisitCreateView.dispatch r2 cafe_pk s).
Proof.
  intros Hsame. pose proof Hsame as (Hb & Hf & Hu & Hk).
  destruct (is_ok (VisitForm (POST r1))) eqn:Hok.
  - pose proof (VisitForm_ok_nonempty _ Hok) as N1.
    assert (N2 : nonempty (POST r2) = true).
    { apply VisitForm_ok_nonempty.
      rewrite <- (VisitForm_agree (POST r1) (POST r2) Hk). exact Hok. }
    rewrite (create_dispatch_agree r1 r2 cafe_pk s Hsame) by congruence.
    split; [apply same_but_context_refl|reflexivity].
  - unfold VisitCreateView.dispatch, bind.
    destruct (Cafe_or_404 cafe_pk s) as [[e|cafe] s1]; [split; reflexivity|].
    unfold login_required, VisitCreateView.post.
    rewrite <- Hu, <- (VisitForm_agree (POST r1) (POST r2) Hk), Hok.
    destruct (user r1); [split; reflexivity|].
    cbn. auto.
Qed.

Lemma log_dispatch_agree r1 r2 cafe_pk s :
  same_but_profile_cafe r1 r2 ->
  LogCafeVisitView.dispatch r1 cafe_pk s = LogCafeVisitView.dispatch r2 cafe_pk s.
Proof.
  intros (Hb & Hf & Hu & Hk).
  unfold LogCafeVisitView.dispatch, login_required, LogCafeVisitView.post,
    LogCafeVisitView.attempt, LogCafeVisitView.save_all.
  rewrite <- Hu, <- Hf.
  rewrite <- (Hk "dynamic_data" eq_refl), <- (Hk "date_visited" eq_refl),
    <- (Hk "user_rating" eq_refl), <- (Hk "amount_spent" eq_refl),
    <- (Hk "notes" eq_refl).
  reflexivity.
Qed.

Lemma log_save_all_members req cafe kvs kvs' s :
  member_default kvs "visitPhotos" (JArr []) = member_default kvs' "visitPhotos" (JArr []) ->
  member_default kvs "favoriteItems" (JArr [])
    = member_default kvs' "favoriteItems" (JArr []) ->
  LogCafeVisitView.save_all req cafe (JObj kvs) s
  = LogCafeVisitView.save_all req cafe (JObj kvs') s.
Proof.
  intros Hp Hi.
  unfold LogCafeVisitView.save_all, LogCafeVisitView.save_favorite_items,
    py_get_default.
  rewrite Hp, Hi. reflexivity.
Qed.

End Noninterference.

(** C4.  A visit created by either protocol belongs to the profile of the
    acting user and to the cafe of the route: the response that announces
    visit [object] comes with exactly one new [Visit] row, with that key,
    that profile and that cafe.  The fields [profile] and [cafe] of the
    request body are never read: two requests that differ only there get
    the same response and leave the same store (in protocol A the page
    of a refusal shows the formsets as bound to the request: the two
    pages are the same but for that context, and the same in all when
    the two POST bodies are both empty or both not); and of the document
    of protocol B only [visitPhotos] and [favoriteItems] are read. *)
Theorem visit_owner_and_cafe_from_request
    {RT : PyRuntime} (req req' : Request) (cafe_pk : pk) (s : Store) :
  (forall object,
     created (fst (VisitCreateView.dispatch req cafe_pk s)) = Some object ->
     exists row profile,
       user req = AuthUser (Some profile) /\
       visits (snd (VisitCreateView.dispatch req cafe_pk s)) = visits s ++ [row] /\
       visit_id row = object /\ visit_profile row = profile /\
       visit_cafe row = cafe_pk) /\
  (forall object,
     created (fst (LogCafeVisitView.dispatch req cafe_pk s)) = Some object ->
     exists row profile,
       user req = AuthUser (Some profile) /\
       visits (snd (LogCafeVisitView.dispatch req cafe_pk s)) = visits s ++ [row] /\
       visit_id row = object /\ visit_profile row = profile /\
       visit_cafe row = cafe_pk) /\
  (same_but_profile_cafe req req' ->
   same_but_context (fst (VisitCreateView.dispatch req cafe_pk s))
     (fst (VisitCreateView.dispatch req' cafe_pk s)) /\
   snd (VisitCreateView.dispatch req cafe_pk s)
   = snd (VisitCreateView.dispatch req' cafe_pk s) /\
   (nonempty (POST req) = nonempty (POST req') ->
    VisitCreateView.dispatch req cafe_pk s = VisitCreateView.dispatch req' cafe_pk s) /\
   LogCafeVisitView.dispatch req cafe_pk s = LogCafeVisitView.dispatch req' cafe_pk s) /\
  (forall cafe kvs kvs',
     member_default kvs "visitPhotos" (JArr [])
       = member_default kvs' "visitPhotos" (JArr []) ->
     member_default kvs "favoriteItems" (JArr [])
       = member_default kvs' "favoriteItems" (JArr []) ->
     LogCafeVisitView.save_all req cafe (JObj kvs) s
     = LogCafeVisitView.save_all req cafe (JObj kvs') s).
Proof.
  split; [|split; [|split]].
  - intros object Hc.
    unfold VisitCreateView.dispatch, Cafe_or_404 in *.
    rewrite bind_assoc in *.
    rewrite (bind_inr _ _ s (find_pk cafe_id (cafes s) (Some cafe_pk)) s) in * by reflexivity.
    destruct (find_pk cafe_id (cafes s) (Some cafe_pk)) as [cafe|] eqn:Hcafe;
      [|discriminate].
    rewrite (bind_inr _ _ s cafe s) in * by reflexivity.
    unfold login_required in *. destruct (user req) as [|p] eqn:Hu; [discriminate|].
    unfold VisitCreateView.post in *.
    destruct (is_ok (VisitForm (POST req))); [|discriminate].
    destruct (create_form_valid_atomic req cafe (VisitForm (POST req)) s)
      as [[Hn _]|(data & k & _ & Ht & Hr)]; [congruence|].
    rewrite Hr in Hc. simpl in Hc. inversion Hc; subst k.
    apply create_save_all_visits in Ht.
    destruct Ht as (row & profile & Hu' & Hv & Hid & Hp & Hcf).
    exists row, profile. rewrite Hu in Hu'.
    repeat split; try assumption.
    rewrite Hcf. apply (find_pk_key _ _ _ _ Hcafe).
  - intros object Hc.
    unfold LogCafeVisitView.dispatch, login_required in *.
    destruct (user req) as [|p] eqn:Hu; [discriminate|].
    destruct (log_post_atomic req cafe_pk s)
      as [[Hn _]|(cafe & text & data & k & Hcafe & _ & _ & Ht & Hr)]; [congruence|].
    rewrite Hr in Hc. simpl in Hc. inversion Hc; subst k.
    apply log_save_all_visits in Ht.
    destruct Ht as (row & profile & Hu' & Hv & Hid & Hp & Hcf).
    exists row, profile. rewrite Hu in Hu'.
    repeat split; try assumption.
    rewrite Hcf. apply (find_pk_key _ _ _ _ Hcafe).
  - intros Hsame.
    destruct (create_dispatch_same_but_context req req' cafe_pk s Hsame) as [Hr Hs].
    split; [exact Hr|]. split; [exact Hs|]. split.
    + apply create_dispatch_agree. exact Hsame.
    + apply log_dispatch_agree. exact Hsame.
  - intros cafe kvs kvs'. apply log_save_all_members.
Qed.

Lemma qd_get_forged (d : QueryDict) (a b k : string) :
  client_owner_field k = false ->
  qd_get d k = qd_get (d ++ [("profile", a); ("cafe", b)]) k.
Proof.
  unfold client_owner_field, qd_get. intros H.
  apply orb_false_iff in H. destruct H as [Hp Hc].
  induction d as [|[k' v] d IH]; simpl.
  - rewrite Hp, Hc. reflexivity.
  - rewrite <- IH. reflexivity.
Qed.

Lemma visit_owner_and_cafe_from_request_witness :
  (exists row profile,
     user Example.six_photos = AuthUser (Some profile) /\
     visits (snd (VisitCreateView.dispatch (RT := Example.runtime)
                    Example.six_photos 1 Example.store1))
     = visits Example.store1 ++ [row] /\
     visit_id row = 2 /\ visit_profile row = profile /\ visit_cafe row = 1) /\
  VisitCreateView.dispatch (RT := Example.runtime) Example.six_photos 1 Example.store1
  = VisitCreateView.dispatch (RT := Example.runtime) Example.six_photos_forged 1
      Example.store1.
Proof.
  split.
  - apply (proj1 (visit_owner_and_cafe_from_request (RT := Example.runtime)
             Example.six_photos Example.six_photos 1 Example.store1) 2).
    vm_compute. reflexivity.
  - refine (proj1 (proj2 (proj2 (proj1 (proj2 (proj2 (visit_owner_and_cafe_from_request
             (RT := Example.runtime) Example.six_photos Example.six_photos_forged 1
             Example.store1))) _))) eq_refl).
    repeat split. intros k Hk. apply qd_get_forged. exact Hk.
Defined.

(* ================================================================== *)
(** * Properties of the tables, the sticker controller and the visits *)
(* ================================================================== *)

(** ** Keys and tables *)

Lemma fold_max_ge (ids : list pk) (x : pk) :
  In x ids -> x <= fold_right Z.max 0 ids.
Proof.
  induction ids as [|y ids IH]; simpl; [tauto|].
  intros [->|H]; [lia|]. specialize (IH H). lia.
Qed.

Lemma next_pk_fresh (ids : list pk) : ~ In (next_pk ids) ids.
Proof.
  intros H. apply fold_max_ge in H. unfold next_pk in H. lia.
Qed.

Lemma next_pk_positive (ids : list pk) : 0 < next_pk ids.
Proof.
  unfold next_pk. assert (0 <= fold_right Z.max 0 ids); [|lia].
  induction ids; simpl; lia.
Qed.

Lemma set_stickers_same (s : Store) : set_stickers s (stickers s) = s.
Proof. destruct s; reflexivity. Qed.

Lemma set_stickers_twice (s : Store) (a b : list Sticker) :
  set_stickers (set_stickers s a) b = set_stickers s b.
Proof. reflexivity. Qed.

Lemma find_pk_In {R : Type} (key : R -> pk) rows k r :
  find_pk key rows (Some k) = Some r -> In r rows.
Proof. unfold find_pk. intros H. apply find_some in H. tauto. Qed.

Lemma find_pk_none {R : Type} (key : R -> pk) rows k :
  find_pk key rows (Some k) = None <-> ~ In k (map key rows).
Proof.
  unfold find_pk. induction rows as [|r rows IH]; simpl; [tauto|].
  destruct (key r =? k) eqn:E.
  - apply Z.eqb_eq in E. split; [discriminate|]. intros H. exfalso. apply H. auto.
  - apply Z.eqb_neq in E. rewrite IH. tauto.
Qed.

Lemma remove_pk_absent {R : Type} (key : R -> pk) rows k :
  ~ In k (map key rows) -> remove_pk key k rows = rows.
Proof.
  unfold remove_pk. induction rows as [|r rows IH]; simpl; [reflexivity|].
  intros H. destruct (key r =? k) eqn:E.
  - apply Z.eqb_eq in E. exfalso. apply H. auto.
  - simpl. f_equal. apply IH. tauto.
Qed.

Lemma remove_pk_app {R : Type} (key : R -> pk) k (a b : list R) :
  remove_pk key k (a ++ b) = remove_pk key k a ++ remove_pk key k b.
Proof. unfold remove_pk. apply filter_app. Qed.

Lemma map_replace_pk {R : Type} (key : R -> pk) (r' : R) rows :
  map key (replace_pk key r' rows) = map key rows.
Proof.
  unfold replace_pk. rewrite map_map. apply map_ext_in. intros r _.
  destruct (key r =? key r') eqn:E; [|reflexivity].
  apply Z.eqb_eq in E. symmetry. exact E.
Qed.

Lemma replace_pk_twice {R : Type} (key : R -> pk) (a b : R) rows :
  key a = key b ->
  replace_pk key b (replace_pk key a rows) = replace_pk key b rows.
Proof.
  intros Hk. unfold replace_pk. rewrite map_map. apply map_ext. intros r.
  destruct (key r =? key a) eqn:E.
  - rewrite Hk in E. rewrite E. rewrite <- Hk, Z.eqb_refl. reflexivity.
  - reflexivity.
Qed.

Lemma find_replace_pk {R : Type} (key : R -> pk) (r' : R) rows r :
  find_pk key rows (Some (key r')) = Some r ->
  find_pk key (replace_pk key r' rows) (Some (key r')) = Some r'.
Proof.
  unfold find_pk, replace_pk. induction rows as [|x rows IH]; simpl; [discriminate|].
  destruct (key x =? key r') eqn:E.
  - intros _. simpl. rewrite Z.eqb_refl. reflexivity.
  - intros H. simpl. rewrite E. apply IH. exact H.
Qed.

Lemma NoDup_map_eq {R : Type} (key : R -> pk) rows a b :
  NoDup (map key rows) -> In a rows -> In b rows -> key a = key b -> a = b.
Proof.
  induction rows as [|x rows IH]; simpl; [tauto|].
  intros Hn Ha Hb Hk. inversion Hn as [|? ? Hx Hn']; subst.
  destruct Ha as [->|Ha], Hb as [->|Hb].
  - reflexivity.
  - exfalso. apply Hx. rewrite Hk. apply in_map. exact Hb.
  - exfalso. apply Hx. rewrite <- Hk. apply in_map. exact Ha.
  - apply IH; assumption.
Qed.

Lemma NoDup_remove_pk {R : Type} (key : R -> pk) k rows :
  NoDup (map key rows) -> NoDup (map key (remove_pk key k rows)).
Proof.
  unfold remove_pk. induction rows as [|x rows IH]; simpl; [auto|].
  intros Hn. inversion Hn as [|? ? Hx Hn']; subst.
  destruct (key x =? k); simpl; [auto|].
  constructor; [|auto].
  intros H. apply Hx. apply in_map_iff in H. destruct H as (y & Hy & Hin).
  apply filter_In in Hin. rewrite <- Hy. apply in_map. tauto.
Qed.

Lemma NoDup_app_fresh (ids : list pk) (k : pk) :
  NoDup ids -> ~ In k ids -> NoDup (ids ++ [k]).
Proof.
  induction ids as [|x ids IH]; simpl; intros Hn Hk.
  - constructor; [tauto|constructor].
  - inversion Hn; subst. constructor.
    + rewrite in_app_iff. simpl. intros [H|[H|[]]]; [tauto|]. apply Hk. auto.
    + apply IH; [assumption|tauto].
Qed.

(** ** Taking a run apart *)

Lemma bind_inv {A B : Type} (m : DB A) (k : A -> DB B) s b s' :
  bind m k s = (inr b, s') ->
  exists a s0, m s = (inr a, s0) /\ k a s0 = (inr b, s').
Proof.
  unfold bind. destruct (m s) as [[e|a] s0]; [discriminate|].
  intros H. exists a, s0. split; [reflexivity|exact H].
Qed.

Lemma lift_inv {A : Type} (r : result A) s a s' :
  lift r s = (inr a, s') -> r = inr a /\ s' = s.
Proof. unfold lift. intros H. inversion H. split; reflexivity. Qed.

Lemma query_inv {A : Type} (q : Store -> A) s a s' :
  query q s = (inr a, s') -> a = q s /\ s' = s.
Proof. unfold query. intros H. inversion H. split; reflexivity. Qed.

Lemma ret_inv {A : Type} (x : A) s a s' :
  ret x s = (inr a, s') -> a = x /\ s' = s.
Proof. unfold ret. intros H. inversion H. split; reflexivity. Qed.

Lemma get_object_or_404_inv {R : Type} (o : option R) s r s' :
  get_object_or_404 o s = (inr r, s') -> o = Some r /\ s' = s.
Proof.
  destruct o; simpl; unfold ret, raise; intros H; inversion H. split; reflexivity.
Qed.

Lemma try_except_inr {A : Type} (m : DB A) (h : exn -> DB A) s a s' :
  m s = (inr a, s') -> try_except m h s = (inr a, s').
Proof. unfold try_except. intros ->. reflexivity. Qed.

Lemma py_get_inv data k v :
  py_get data k = inr v -> exists kvs, data = JObj kvs /\ v = member kvs k.
Proof.
  destruct data; simpl; try discriminate. intros H. inversion H. eauto.
Qed.

Lemma py_get_default_inv data k d v :
  py_get_default data k d = inr v ->
  exists kvs, data = JObj kvs /\ v = member_default kvs k d.
Proof.
  destruct data; simpl; try discriminate. intros H. inversion H. eauto.
Qed.

Section StickerRuns.
Context {RT : PyRuntime}.

Lemma Sticker_or_404_inv v s st s' :
  Sticker_or_404 v s = (inr st, s') ->
  s' = s /\ exists k, int_prep v = inr (Some k) /\
                      find_pk sticker_id (stickers s) (Some k) = Some st.
Proof.
  unfold Sticker_or_404. intros H.
  apply bind_inv in H. destruct H as (k & s0 & Hk & H).
  apply lift_inv in Hk. destruct Hk as [Hk ->].
  apply bind_inv in H. destruct H as (row & s1 & Hrow & H).
  apply query_inv in Hrow. destruct Hrow as [-> ->].
  apply get_object_or_404_inv in H. destruct H as [Hf ->].
  split; [reflexivity|].
  destruct k as [k|]; [|discriminate]. eauto.
Qed.

Lemma Visit_or_404_inv v s row s' :
  Visit_or_404 v s = (inr row, s') ->
  s' = s /\ exists k, int_prep v = inr (Some k) /\
                      find_pk visit_id (visits s) (Some k) = Some row.
Proof.
  unfold Visit_or_404. intros H.
  apply bind_inv in H. destruct H as (k & s0 & Hk & H).
  apply lift_inv in Hk. destruct Hk as [Hk ->].
  apply bind_inv in H. destruct H as (r & s1 & Hrow & H).
  apply query_inv in Hrow. destruct Hrow as [-> ->].
  apply get_object_or_404_inv in H. destruct H as [Hf ->].
  split; [reflexivity|].
  destruct k as [k|]; [|discriminate]. eauto.
Qed.

Lemma StickerType_or_404_inv v s ty s' :
  StickerType_or_404 v s = (inr ty, s') ->
  s' = s /\ exists n, char_prep v = Some n /\
                      find (fun t => String.eqb (stype_name t) n) (sticker_types s) = Some ty.
Proof.
  unfold StickerType_or_404. intros H.
  apply bind_inv in H. destruct H as (row & s1 & Hrow & H).
  apply query_inv in Hrow. destruct Hrow as [-> ->].
  apply get_object_or_404_inv in H. destruct H as [Hf ->].
  split; [reflexivity|].
  destruct (char_prep v) as [n|]; [|discriminate]. eauto.
Qed.

Lemma float_field_default_inv data k d s f s' :
  float_field_default data k d s = (inr f, s') ->
  s' = s /\ exists kvs, data = JObj kvs /\ py_float (member_default kvs k (JFloat d)) = inr f.
Proof.
  unfold float_field_default. intros H.
  apply bind_inv in H. destruct H as (v & s0 & Hv & H).
  apply lift_inv in Hv. destruct Hv as [Hv ->].
  apply lift_inv in H. destruct H as [Hf ->].
  apply py_get_default_inv in Hv. destruct Hv as (kvs & -> & ->).
  split; [reflexivity|]. eauto.
Qed.

Lemma float_field_inv data k s f s' :
  float_field data k s = (inr f, s') ->
  s' = s /\ exists kvs, data = JObj kvs /\ py_float (member kvs k) = inr f.
Proof.
  unfold float_field. intros H.
  apply bind_inv in H. destruct H as (v & s0 & Hv & H).
  apply lift_inv in Hv. destruct Hv as [Hv ->].
  apply lift_inv in H. destruct H as [Hf ->].
  apply py_get_inv in Hv. destruct Hv as (kvs & -> & ->).
  split; [reflexivity|]. eauto.
Qed.

(** A placement that answers with a key went through every step. *)
Lemma place_inv data s k s1 :
  PlaceStickerView.place data s = (inr (JsonResponse (status_success_id k) 200), s1) ->
  exists kvs visit ty x y rot sc,
    data = JObj kvs /\
    find_pk visit_id (visits s) (Some (visit_id visit)) = Some visit /\
    In ty (sticker_types s) /\
    py_float (member_default kvs "x" (JFloat 0)) = inr x /\
    py_float (member_default kvs "y" (JFloat 0)) = inr y /\
    py_float (member_default kvs "rotation" (JFloat 0)) = inr rot /\
    py_float (member_default kvs "scale" (JFloat 1)) = inr sc /\
    k = next_pk (map sticker_id (stickers s)) /\
    s1 = set_stickers s
           (stickers s ++
            [{| sticker_id := k; sticker_visit := visit_id visit;
                sticker_type := stype_id ty; x_position := x; y_position := y;
                rotation := rot; scale := sc;
                sticker_image := Some (stype_image ty) |}]).
Proof.
  unfold PlaceStickerView.place. intros H.
  apply bind_inv in H. destruct H as (v_id & s0 & Hvid & H).
  apply lift_inv in Hvid. destruct Hvid as [Hvid ->].
  apply py_get_inv in Hvid. destruct Hvid as (kvs & -> & ->).
  apply bind_inv in H. destruct H as (tn & s0 & Htn & H).
  apply lift_inv in Htn. destruct Htn as [Htn ->]. simpl in Htn. inversion Htn; subst tn.
  apply bind_inv in H. destruct H as (x & s0 & Hx & H).
  apply float_field_default_inv in Hx. destruct Hx as (-> & kx & Ekx & Hx).
  inversion Ekx; subst kx.
  apply bind_inv in H. destruct H as (y & s0 & Hy & H).
  apply float_field_default_inv in Hy. destruct Hy as (-> & ky & Eky & Hy).
  inversion Eky; subst ky.
  apply bind_inv in H. destruct H as (rot & s0 & Hr & H).
  apply float_field_default_inv in Hr. destruct Hr as (-> & kr & Ekr & Hr).
  inversion Ekr; subst kr.
  apply bind_inv in H. destruct H as (sc & s0 & Hc & H).
  apply float_field_default_inv in Hc. destruct Hc as (-> & kc & Ekc & Hc).
  inversion Ekc; subst kc.
  apply bind_inv in H. destruct H as (visit & s0 & Hv & H).
  apply Visit_or_404_inv in Hv. destruct Hv as (-> & kv & _ & Hv).
  apply bind_inv in H. destruct H as (ty & s0 & Ht & H).
  apply StickerType_or_404_inv in Ht. destruct Ht as (-> & n & _ & Ht).
  apply bind_inv in H. destruct H as (new & s0 & Hn & H).
  unfold Sticker_insert in Hn. inversion Hn; subst new s0. clear Hn.
  apply ret_inv in H. destruct H as [Hk ->]. inversion Hk; subst k.
  exists kvs, visit, ty, x, y, rot, sc.
  pose proof (find_pk_key _ _ _ _ Hv) as Hkey. subst kv.
  apply find_some in Ht.
  repeat split; try assumption; tauto.
Qed.

Lemma place_post_inv req s k s1 :
  PlaceStickerView.post req s = (inr (JsonResponse (status_success_id k) 200), s1) ->
  exists data, json_loads (body req) = Some data /\
    PlaceStickerView.place data s = (inr (JsonResponse (status_success_id k) 200), s1).
Proof.
  unfold PlaceStickerView.post. destruct (json_loads (body req)) as [data|]; [|discriminate].
  unfold try_except.
  destruct (PlaceStickerView.place data s) as [[e|r] s0] eqn:Hp.
  - unfold ret. intros H. inversion H.
  - intros H. inversion H; subst. exists data. split; [reflexivity|exact Hp].
Qed.

End StickerRuns.

(** ** Steps that only read *)

Lemma reads_ret {A : Type} (a : A) : reads_only (ret a).
Proof. intros s. reflexivity. Qed.

Lemma reads_raise {A : Type} (e : exn) : reads_only (@raise A e).
Proof. intros s. reflexivity. Qed.

Lemma reads_lift {A : Type} (r : result A) : reads_only (lift r).
Proof. intros s. reflexivity. Qed.

Lemma reads_query {A : Type} (q : Store -> A) : reads_only (query q).
Proof. intros s. reflexivity. Qed.

Lemma reads_get_object_or_404 {R : Type} (o : option R) :
  reads_only (get_object_or_404 o).
Proof. intros s. destruct o; reflexivity. Qed.

Lemma reads_bind {A B : Type} (m : DB A) (k : A -> DB B) :
  reads_only m -> (forall a, reads_only (k a)) -> reads_only (bind m k).
Proof.
  intros Hm Hk s. unfold bind. specialize (Hm s).
  destruct (m s) as [[e|a] s0]; simpl in *; [exact Hm|].
  subst s0. apply Hk.
Qed.

Create HintDb reads.

#[local] Hint Resolve reads_ret reads_raise reads_lift reads_query
  reads_get_object_or_404 : reads.

(** A step that only reads either raises with the store as it was, or
    hands its result on with the store as it was. *)
Lemma reads_step {A B : Type} (m : DB A) (k : A -> DB B) s :
  reads_only m ->
  (exists e, m s = (inl e, s) /\ bind m k s = (inl e, s)) \/
  (exists a, m s = (inr a, s) /\ bind m k s = k a s).
Proof.
  intros Hm. specialize (Hm s). unfold bind.
  destruct (m s) as [[e|a] s0]; simpl in Hm; subst s0.
  - left. exists e. split; reflexivity.
  - right. exists a. split; reflexivity.
Qed.

Section StickerReads.
Context {RT : PyRuntime}.

Lemma reads_Visit_or_404 v : reads_only (Visit_or_404 v).
Proof.
  unfold Visit_or_404. apply reads_bind; [auto with reads|]. intros k.
  apply reads_bind; auto with reads.
Qed.

Lemma reads_Sticker_or_404 v : reads_only (Sticker_or_404 v).
Proof.
  unfold Sticker_or_404. apply reads_bind; [auto with reads|]. intros k.
  apply reads_bind; auto with reads.
Qed.

Lemma reads_StickerType_or_404 v : reads_only (StickerType_or_404 v).
Proof. unfold StickerType_or_404. apply reads_bind; auto with reads. Qed.

Lemma reads_Cafe_or_404 k : reads_only (Cafe_or_404 k).
Proof. unfold Cafe_or_404. apply reads_bind; auto with reads. Qed.

Lemma reads_float_field data k : reads_only (float_field data k).
Proof. unfold float_field. apply reads_bind; auto with reads. Qed.

Lemma reads_float_field_default data k d : reads_only (float_field_default data k d).
Proof. unfold float_field_default. apply reads_bind; auto with reads. Qed.

End StickerReads.

#[local] Hint Resolve reads_Visit_or_404 reads_Sticker_or_404
  reads_StickerType_or_404 reads_Cafe_or_404 reads_float_field
  reads_float_field_default : reads.

(** Runs the first step of the run in the goal when it only reads: the
    case where it raises is closed by [tac]. *)
Ltac read_step s tac :=
  match goal with
  | |- context [bind ?m ?k s] =>
      let e := fresh "e" in
      let a := fresh "a" in
      let Hm := fresh "Hm" in
      let Hb := fresh "Hb" in
      destruct (reads_step m k s ltac:(auto with reads))
        as [(e & Hm & Hb)|(a & Hm & Hb)];
      rewrite Hb; clear Hb; [solve [tac]|cbv beta]
  end.

Section StickerCases.
Context {RT : PyRuntime}.

(** A placement either raises with the store as it was, or appends one
    row and answers with its key. *)
Lemma place_cases data s :
  (exists e, PlaceStickerView.place data s = (inl e, s)) \/
  (exists k s1, PlaceStickerView.place data s =
                (inr (JsonResponse (status_success_id k) 200), s1)).
Proof.
  unfold PlaceStickerView.place.
  do 8 (read_step s ltac:(left; eexists; reflexivity)).
  right. eexists _, _. reflexivity.
Qed.

(** A deletion either raises with the store as it was, or removes the
    rows of one key. *)
Lemma delete_cases v s :
  (exists e, StickerDeleteView.delete v s = (inl e, s)) \/
  (exists s1, StickerDeleteView.delete v s =
              (inr (JsonResponse (status_success_deleted v) 200), s1)).
Proof.
  unfold StickerDeleteView.delete.
  read_step s ltac:(left; eexists; reflexivity).
  right. eexists. reflexivity.
Qed.

End StickerCases.

(** ** The sticker controller, run by run *)

Section StickerRuns2.
Context {RT : PyRuntime}.

Lemma update_post_inv req s s1 :
  UpdateStickerView.post req s = (inr (JsonResponse status_success 200), s1) ->
  exists kvs k st x y rot sc,
    json_loads (body req) = Some (JObj kvs) /\
    int_prep (member kvs "sticker_id") = inr (Some k) /\
    find_pk sticker_id (stickers s) (Some k) = Some st /\
    py_float (member kvs "x") = inr x /\
    py_float (member kvs "y") = inr y /\
    py_float (member kvs "rotation") = inr rot /\
    py_float (member kvs "scale") = inr sc /\
    s1 = set_stickers s
           (replace_pk sticker_id
              {| sticker_id := sticker_id st; sticker_visit := sticker_visit st;
                 sticker_type := sticker_type st; x_position := x; y_position := y;
                 rotation := rot; scale := sc; sticker_image := sticker_image st |}
              (stickers s)).
Proof.
  unfold UpdateStickerView.post.
  destruct (json_loads (body req)) as [data|] eqn:Hb; [|discriminate].
  unfold try_except.
  destruct (UpdateStickerView.update data s) as [[e|r] s0] eqn:Hu.
  { unfold ret. intros H. inversion H. }
  intros H. inversion H; subst r s0. clear H.
  unfold UpdateStickerView.update in Hu.
  apply bind_inv in Hu. destruct Hu as (v & s0 & Hv & H).
  apply lift_inv in Hv. destruct Hv as [Hv ->].
  apply py_get_inv in Hv. destruct Hv as (kvs & -> & ->).
  apply bind_inv in H. destruct H as (st & s0 & Hst & H).
  apply Sticker_or_404_inv in Hst. destruct Hst as (-> & k & Hk & Hst).
  apply bind_inv in H. destruct H as (x & s0 & Hx & H).
  apply float_field_inv in Hx. destruct Hx as (-> & kx & Ekx & Hx).
  inversion Ekx; subst kx.
  apply bind_inv in H. destruct H as (y & s0 & Hy & H).
  apply float_field_inv in Hy. destruct Hy as (-> & ky & Eky & Hy).
  inversion Eky; subst ky.
  apply bind_inv in H. destruct H as (rot & s0 & Hr & H).
  apply float_field_inv in Hr. destruct Hr as (-> & kr & Ekr & Hr).
  inversion Ekr; subst kr.
  apply bind_inv in H. destruct H as (sc & s0 & Hc & H).
  apply float_field_inv in Hc. destruct Hc as (-> & kc & Ekc & Hc).
  inversion Ekc; subst kc.
  apply bind_inv in H. destruct H as (u & s0 & Hs & H).
  unfold Sticker_save in Hs. inversion Hs; subst s0. clear Hs.
  apply ret_inv in H. destruct H as [_ ->].
  exists kvs, k, st, x, y, rot, sc.
  repeat (split; [first [assumption|reflexivity]|]). reflexivity.
Qed.

Lemma update_post_run req s kvs k st x y rot sc :
  json_loads (body req) = Some (JObj kvs) ->
  int_prep (member kvs "sticker_id") = inr (Some k) ->
  find_pk sticker_id (stickers s) (Some k) = Some st ->
  py_float (member kvs "x") = inr x ->
  py_float (member kvs "y") = inr y ->
  py_float (member kvs "rotation") = inr rot ->
  py_float (member kvs "scale") = inr sc ->
  UpdateStickerView.post req s =
    (inr (JsonResponse status_success 200),
     set_stickers s
       (replace_pk sticker_id
          {| sticker_id := sticker_id st; sticker_visit := sticker_visit st;
             sticker_type := sticker_type st; x_position := x; y_position := y;
             rotation := rot; scale := sc; sticker_image := sticker_image st |}
          (stickers s))).
Proof.
  intros Hb Hk Hst Hx Hy Hr Hc.
  unfold UpdateStickerView.post. rewrite Hb.
  unfold try_except, UpdateStickerView.update, Sticker_or_404, float_field, py_get.
  db_unfold. rewrite Hk, Hst, Hx, Hy, Hr, Hc. reflexivity.
Qed.

Lemma delete_post_inv req s v s1 :
  StickerDeleteView.post req s = (inr (JsonResponse (status_success_deleted v) 200), s1) ->
  exists kvs k st,
    json_loads (body req) = Some (JObj kvs) /\
    v = member kvs "sticker_id" /\
    truthy v = true /\
    int_prep v = inr (Some k) /\
    find_pk sticker_id (stickers s) (Some k) = Some st /\
    s1 = set_stickers s (remove_pk sticker_id k (stickers s)).
Proof.
  unfold StickerDeleteView.post.
  destruct (json_loads (body req)) as [data|] eqn:Hb;
    [|destruct (json_fault (body req)); discriminate].
  intros H. apply bind_inv in H. destruct H as (w & s0 & Hw & H).
  apply lift_inv in Hw. destruct Hw as [Hw ->].
  apply py_get_inv in Hw. destruct Hw as (kvs & -> & ->).
  destruct (truthy (member kvs "sticker_id")) eqn:Ht; [|discriminate].
  cbn [negb] in H. cbv beta iota in H.
  unfold try_except in H.
  destruct (StickerDeleteView.delete (member kvs "sticker_id") s) as [[e|r] s0] eqn:Hd.
  { inversion H. }
  inversion H; subst r s0. clear H.
  unfold StickerDeleteView.delete in Hd.
  apply bind_inv in Hd. destruct Hd as (st & s0 & Hst & H).
  apply Sticker_or_404_inv in Hst. destruct Hst as (-> & k & Hk & Hst).
  apply bind_inv in H. destruct H as (u & s0 & Hs & H).
  unfold Sticker_delete in Hs. inversion Hs; subst s0. clear Hs.
  apply ret_inv in H. destruct H as [Hv ->]. inversion Hv; subst v.
  exists kvs, k, st. rewrite (find_pk_key _ _ _ _ Hst).
  repeat (split; [first [assumption|reflexivity]|]). reflexivity.
Qed.

End StickerRuns2.

(** ** The sticker controller: what a run changes *)

(** X1.  A placement that answers with a key has added exactly one
    sticker under that key; the key is positive and was not in use, the
    row refers to a visit and a sticker type of the store and carries the
    image of that type; nothing else of the store has changed. *)
Theorem place_sticker_adds_one_linked_row
    {RT : PyRuntime} (req : Request) (s s1 : Store) (k : pk) :
  PlaceStickerView.post req s = (inr (JsonResponse (status_success_id k) 200), s1) ->
  exists row visit ty,
    s1 = set_stickers s (stickers s ++ [row]) /\
    sticker_id row = k /\ 0 < k /\ ~ In k (map sticker_id (stickers s)) /\
    In visit (visits s) /\ sticker_visit row = visit_id visit /\
    In ty (sticker_types s) /\ sticker_type row = stype_id ty /\
    sticker_image row = Some (stype_image ty).
Proof.
  intros H. apply place_post_inv in H. destruct H as (data & _ & H).
  apply place_inv in H.
  destruct H as (kvs & visit & ty & x & y & rot & sc & _ & Hv & Hty & _ & _ & _ & _ & Hk & Hs).
  eexists _, visit, ty. split; [exact Hs|]. cbn [sticker_id sticker_visit sticker_type sticker_image].
  split; [reflexivity|]. subst k.
  split; [apply next_pk_positive|].
  split; [apply next_pk_fresh|].
  split; [exact (find_pk_In _ _ _ _ Hv)|].
  split; [reflexivity|]. split; [exact Hty|]. split; reflexivity.
Qed.

Lemma place_sticker_adds_one_linked_row_witness :
  exists row visit ty,
    set_stickers Example.store1 (stickers Example.store1 ++
      [{| sticker_id := 2; sticker_visit := 1; sticker_type := 1;
          x_position := 10%float; y_position := 20%float; rotation := 0%float;
          scale := 1%float; sticker_image := Some "sticker_options/heart.png" |}]) =
    set_stickers Example.store1 (stickers Example.store1 ++ [row]) /\
    sticker_id row = 2 /\ 0 < 2 /\ ~ In 2 (map sticker_id (stickers Example.store1)) /\
    In visit (visits Example.store1) /\ sticker_visit row = visit_id visit /\
    In ty (sticker_types Example.store1) /\ sticker_type row = stype_id ty /\
    sticker_image row = Some (stype_image ty).
Proof.
  apply (place_sticker_adds_one_linked_row (RT := Example.runtime)
           (Example.request "place x=10 y=20") Example.store1).
  vm_compute. reflexivity.
Defined.

Lemma update_sticker_frame_of_run {RT : PyRuntime} req s s1 :
  NoDup (map sticker_id (stickers s)) ->
  UpdateStickerView.post req s = (inr (JsonResponse status_success 200), s1) ->
  s1 = set_stickers s (stickers s1) /\
  map sticker_frame (stickers s1) = map sticker_frame (stickers s).
Proof.
  intros Hn H. apply update_post_inv in H.
  destruct H as (kvs & k & st & x & y & rot & sc & _ & _ & Hst & _ & _ & _ & _ & ->).
  split; [reflexivity|]. cbn [stickers set_stickers].
  pose proof (find_pk_In _ _ _ _ Hst) as Hin.
  unfold replace_pk. rewrite map_map. apply map_ext_in. intros r Hr.
  cbn [sticker_id]. destruct (sticker_id r =? sticker_id st) eqn:E; [|reflexivity].
  apply Z.eqb_eq in E.
  rewrite (NoDup_map_eq sticker_id _ r st Hn Hr Hin E). reflexivity.
Qed.

(** X2.  A successful update leaves every table but the stickers as it
    was and, keys being unique, changes neither the number or order of
    the stickers nor the key, visit, type and image of any of them; the
    rows of the other keys are the same rows. *)
Theorem update_sticker_keeps_frame
    {RT : PyRuntime} (req : Request) (s s1 : Store) :
  NoDup (map sticker_id (stickers s)) ->
  UpdateStickerView.post req s = (inr (JsonResponse status_success 200), s1) ->
  s1 = set_stickers s (stickers s1) /\
  map sticker_frame (stickers s1) = map sticker_frame (stickers s) /\
  exists st, In st (stickers s) /\
    forall r, sticker_id r <> sticker_id st ->
              (In r (stickers s1) <-> In r (stickers s)).
Proof.
  intros Hn H. apply update_post_inv in H.
  destruct H as (kvs & k & st & x & y & rot & sc & _ & _ & Hst & _ & _ & _ & _ & ->).
  split; [reflexivity|]. cbn [stickers set_stickers].
  pose proof (find_pk_In _ _ _ _ Hst) as Hin.
  split.
  - unfold replace_pk. rewrite map_map. apply map_ext_in. intros r Hr.
    cbn [sticker_id]. destruct (sticker_id r =? sticker_id st) eqn:E; [|reflexivity].
    apply Z.eqb_eq in E.
    rewrite (NoDup_map_eq sticker_id _ r st Hn Hr Hin E). reflexivity.
  - exists st. split; [exact Hin|]. intros r Hne.
    unfold replace_pk. rewrite in_map_iff. cbn [sticker_id]. split.
    + intros (r0 & Hr0 & Hin0).
      destruct (sticker_id r0 =? sticker_id st) eqn:E.
      * subst r. exfalso. apply Hne. reflexivity.
      * subst r0. exact Hin0.
    + intros Hr. exists r. split; [|exact Hr].
      destruct (sticker_id r =? sticker_id st) eqn:E; [|reflexivity].
      apply Z.eqb_eq in E. contradiction.
Qed.

Lemma update_sticker_keeps_frame_witness :
  let s1 := snd (UpdateStickerView.post (RT := Example2.runtime)
                   (Example.request "move 1 to 3,4") Example.store1) in
  s1 = set_stickers Example.store1 (stickers s1) /\
  map sticker_frame (stickers s1) = map sticker_frame (stickers Example.store1) /\
  exists st, In st (stickers Example.store1) /\
    forall r, sticker_id r <> sticker_id st ->
              (In r (stickers s1) <-> In r (stickers Example.store1)).
Proof.
  apply (update_sticker_keeps_frame (RT := Example2.runtime)
           (Example.request "move 1 to 3,4") Example.store1).
  - repeat constructor. simpl. tauto.
  - vm_compute. reflexivity.
Defined.

(** X3.  After a successful update the row read back under the key the
    document names holds the four numbers of the document, as [float()]
    gives them. *)
Theorem update_sticker_stores_document
    {RT : PyRuntime} (req : Request) (s s1 : Store) :
  UpdateStickerView.post req s = (inr (JsonResponse status_success 200), s1) ->
  exists kvs k row,
    json_loads (body req) = Some (JObj kvs) /\
    int_prep (member kvs "sticker_id") = inr (Some k) /\
    find_pk sticker_id (stickers s1) (Some k) = Some row /\
    py_float (member kvs "x") = inr (x_position row) /\
    py_float (member kvs "y") = inr (y_position row) /\
    py_float (member kvs "rotation") = inr (rotation row) /\
    py_float (member kvs "scale") = inr (scale row).
Proof.
  intros H. apply update_post_inv in H.
  destruct H as (kvs & k & st & x & y & rot & sc & Hb & Hk & Hst & Hx & Hy & Hr & Hc & ->).
  exists kvs, k. eexists. split; [exact Hb|]. split; [exact Hk|].
  cbn [stickers set_stickers]. split.
  - pose proof (find_pk_key _ _ _ _ Hst) as Hkey. rewrite <- Hkey in Hst |- *.
    exact (find_replace_pk sticker_id
             {| sticker_id := sticker_id st; sticker_visit := sticker_visit st;
                sticker_type := sticker_type st; x_position := x; y_position := y;
                rotation := rot; scale := sc; sticker_image := sticker_image st |}
             (stickers s) st Hst).
  - cbn. repeat split; assumption.
Qed.

Lemma update_sticker_stores_document_witness :
  exists kvs k row,
    @json_loads Example2.runtime (body (Example.request "move 1 to 7,8"))
      = Some (JObj kvs) /\
    int_prep (RT := Example2.runtime) (member kvs "sticker_id") = inr (Some k) /\
    find_pk sticker_id
      [{| sticker_id := 1; sticker_visit := 1; sticker_type := 1;
          x_position := 7%float; y_position := 8%float; rotation := 45%float;
          scale := 1%float; sticker_image := Some "sticker_options/heart.png" |}]
      (Some k) = Some row /\
    py_float (RT := Example2.runtime) (member kvs "x") = inr (x_position row) /\
    py_float (RT := Example2.runtime) (member kvs "y") = inr (y_position row) /\
    py_float (RT := Example2.runtime) (member kvs "rotation") = inr (rotation row) /\
    py_float (RT := Example2.runtime) (member kvs "scale") = inr (scale row).
Proof.
  apply (update_sticker_stores_document (RT := Example2.runtime)
           (Example.request "move 1 to 7,8") Example.store1
           (set_stickers Example.store1
              [{| sticker_id := 1; sticker_visit := 1; sticker_type := 1;
                  x_position := 7%float; y_position := 8%float; rotation := 45%float;
                  scale := 1%float;
                  sticker_image := Some "sticker_options/heart.png" |}])).
  vm_compute. reflexivity.
Defined.

(** X4.  The last update wins: when two documents name the same sticker
    key, updating with the second after the first leaves the store that
    the second alone would have left. *)
Theorem update_sticker_last_write_wins
    {RT : PyRuntime} (req1 req2 : Request) (kvs1 kvs2 : list (string * json))
    (s s1 s2 : Store) :
  json_loads (body req1) = Some (JObj kvs1) ->
  json_loads (body req2) = Some (JObj kvs2) ->
  int_prep (member kvs1 "sticker_id") = int_prep (member kvs2 "sticker_id") ->
  UpdateStickerView.post req1 s = (inr (JsonResponse status_success 200), s1) ->
  UpdateStickerView.post req2 s = (inr (JsonResponse status_success 200), s2) ->
  UpdateStickerView.post req2 s1 = (inr (JsonResponse status_success 200), s2).
Proof.
  intros Hb1 Hb2 Hsame H1 H2.
  apply update_post_inv in H1.
  destruct H1 as (k1' & k1 & st1 & x1 & y1 & r1 & c1 & Hb1' & Hk1 & Hst1 & _ & _ & _ & _ & ->).
  rewrite Hb1 in Hb1'. inversion Hb1'; subst k1'. clear Hb1'.
  apply update_post_inv in H2.
  destruct H2 as (k2' & k2 & st2 & x2 & y2 & r2 & c2 & Hb2' & Hk2 & Hst2 & Hx & Hy & Hr & Hc & ->).
  rewrite Hb2 in Hb2'. inversion Hb2'; subst k2'. clear Hb2'.
  rewrite Hsame, Hk2 in Hk1. inversion Hk1; subst k1. clear Hk1.
  rewrite Hst2 in Hst1. inversion Hst1; subst st1. clear Hst1.
  pose proof (find_pk_key _ _ _ _ Hst2) as Hkey.
  set (row1 := {| sticker_id := sticker_id st2; sticker_visit := sticker_visit st2;
                  sticker_type := sticker_type st2; x_position := x1; y_position := y1;
                  rotation := r1; scale := c1; sticker_image := sticker_image st2 |}).
  assert (Hfind : find_pk sticker_id (replace_pk sticker_id row1 (stickers s)) (Some k2)
                  = Some row1).
  { rewrite <- Hkey. rewrite <- Hkey in Hst2.
    exact (find_replace_pk sticker_id row1 (stickers s) st2 Hst2). }
  rewrite (update_post_run req2
             (set_stickers s (replace_pk sticker_id row1 (stickers s)))
             kvs2 k2 row1 x2 y2 r2 c2 Hb2 Hk2 Hfind Hx Hy Hr Hc).
  cbn [stickers set_stickers sticker_id sticker_visit sticker_type sticker_image row1].
  rewrite set_stickers_twice.
  rewrite (replace_pk_twice sticker_id row1); [reflexivity|reflexivity].
Qed.

Lemma update_sticker_last_write_wins_witness :
  UpdateStickerView.post (RT := Example2.runtime) (Example.request "move 1 to 7,8")
    (snd (UpdateStickerView.post (RT := Example2.runtime)
            (Example.request "move 1 to 3,4") Example.store1)) =
  (inr (JsonResponse status_success 200),
   snd (UpdateStickerView.post (RT := Example2.runtime)
          (Example.request "move 1 to 7,8") Example.store1)).
Proof.
  eapply (update_sticker_last_write_wins (RT := Example2.runtime)
            (Example.request "move 1 to 3,4") (Example.request "move 1 to 7,8")
            _ _ Example.store1);
    vm_compute; reflexivity.
Defined.

Lemma find_pk_app_fresh {R : Type} (key : R -> pk) rows r :
  ~ In (key r) (map key rows) ->
  find_pk key (rows ++ [r]) (Some (key r)) = Some r.
Proof.
  unfold find_pk. induction rows as [|x rows IH]; simpl.
  - intros _. rewrite Z.eqb_refl. reflexivity.
  - intros H. destruct (key x =? key r) eqn:E.
    + apply Z.eqb_eq in E. exfalso. apply H. auto.
    + apply IH. tauto.
Qed.

Lemma delete_post_run {RT : PyRuntime} req s kvs k st :
  json_loads (body req) = Some (JObj kvs) ->
  truthy (member kvs "sticker_id") = true ->
  int_prep (member kvs "sticker_id") = inr (Some k) ->
  find_pk sticker_id (stickers s) (Some k) = Some st ->
  StickerDeleteView.post req s =
    (inr (JsonResponse (status_success_deleted (member kvs "sticker_id")) 200),
     set_stickers s (remove_pk sticker_id k (stickers s))).
Proof.
  intros Hb Ht Hk Hst.
  unfold StickerDeleteView.post. rewrite Hb.
  unfold py_get. rewrite (bind_inr _ _ _ (member kvs "sticker_id") _) by reflexivity.
  rewrite Ht. cbn [negb]. cbv beta iota.
  unfold try_except, StickerDeleteView.delete, Sticker_or_404, Sticker_delete.
  db_unfold. rewrite Hk, Hst. rewrite (find_pk_key _ _ _ _ Hst). reflexivity.
Qed.

(** X5.  Placing a sticker and then deleting it under the key the
    placement answered with gives back the store as it was before the
    placement. *)
Theorem place_then_delete_restores
    {RT : PyRuntime} (req del : Request) (kvs : list (string * json))
    (s s1 : Store) (k : pk) :
  PlaceStickerView.post req s = (inr (JsonResponse (status_success_id k) 200), s1) ->
  json_loads (body del) = Some (JObj kvs) ->
  member kvs "sticker_id" = JInt k ->
  StickerDeleteView.post del s1 =
    (inr (JsonResponse (status_success_deleted (JInt k)) 200), s).
Proof.
  intros H Hb Hm. apply place_post_inv in H. destruct H as (data & _ & H).
  apply place_inv in H.
  destruct H as (kvs0 & visit & ty & x & y & rot & sc & _ & _ & _ & _ & _ & _ & _ & Hk & ->).
  assert (Hpos : 0 < k) by (subst k; apply next_pk_positive).
  assert (Hfresh : ~ In k (map sticker_id (stickers s)))
    by (subst k; apply next_pk_fresh).
  set (row := {| sticker_id := k; sticker_visit := visit_id visit;
                 sticker_type := stype_id ty; x_position := x; y_position := y;
                 rotation := rot; scale := sc;
                 sticker_image := Some (stype_image ty) |}).
  assert (Hfind : find_pk sticker_id (stickers (set_stickers s (stickers s ++ [row])))
                    (Some k) = Some row)
    by exact (find_pk_app_fresh sticker_id (stickers s) row Hfresh).
  assert (Ht : truthy (JInt k) = true).
  { cbn [truthy]. destruct (k =? 0) eqn:E; [|reflexivity].
    apply Z.eqb_eq in E. lia. }
  rewrite <- Hm in Ht.
  assert (Hp : int_prep (member kvs "sticker_id") = inr (Some k))
    by (rewrite Hm; reflexivity).
  rewrite (delete_post_run del _ kvs k row Hb Ht Hp Hfind).
  rewrite Hm. f_equal.
  cbn [stickers set_stickers]. rewrite set_stickers_twice.
  rewrite remove_pk_app, (remove_pk_absent _ _ _ Hfresh).
  unfold remove_pk, row. cbn [filter sticker_id]. rewrite Z.eqb_refl. cbn [negb].
  rewrite app_nil_r. apply set_stickers_same.
Qed.

Lemma place_then_delete_restores_witness :
  StickerDeleteView.post (RT := Example2.runtime) (Example.request "delete 2")
    (snd (PlaceStickerView.post (RT := Example2.runtime)
            (Example.request "place x=10 y=20") Example.store1)) =
  (inr (JsonResponse (status_success_deleted (JInt 2)) 200), Example.store1).
Proof.
  eapply (place_then_delete_restores (RT := Example2.runtime)
            (Example.request "place x=10 y=20") (Example.request "delete 2")
            _ Example.store1);
    vm_compute; reflexivity.
Defined.

(** X6.  A deleted sticker is gone for good: once a deletion has
    answered for the key [v], an update that names [v] is answered 400
    and a second deletion 500, both with the [Http404] of the lookup,
    and neither writes. *)
Theorem deleted_sticker_is_gone
    {RT : PyRuntime} (del req : Request) (kvs : list (string * json))
    (v : json) (s s1 : Store) :
  StickerDeleteView.post del s = (inr (JsonResponse (status_success_deleted v) 200), s1) ->
  json_loads (body req) = Some (JObj kvs) ->
  member kvs "sticker_id" = v ->
  UpdateStickerView.post req s1 = (inr (JsonResponse (status_error Http404) 400), s1) /\
  StickerDeleteView.post req s1 = (inr (JsonResponse (status_error Http404) 500), s1).
Proof.
  intros H Hb Hm. apply delete_post_inv in H.
  destruct H as (kvs0 & k & st & _ & _ & Ht & Hk & _ & ->).
  assert (Hnone : find_pk sticker_id
                    (stickers (set_stickers s (remove_pk sticker_id k (stickers s))))
                    (Some k) = None) by apply find_remove_pk.
  split.
  - unfold UpdateStickerView.post. rewrite Hb.
    unfold try_except, UpdateStickerView.update, Sticker_or_404, py_get.
    db_unfold. rewrite Hm, Hk, Hnone. reflexivity.
  - unfold StickerDeleteView.post. rewrite Hb.
    unfold py_get. rewrite (bind_inr _ _ _ (member kvs "sticker_id") _) by reflexivity.
    rewrite Hm, Ht. cbn [negb]. cbv beta iota.
    unfold try_except, StickerDeleteView.delete, Sticker_or_404.
    db_unfold. rewrite Hk, Hnone. reflexivity.
Qed.

Lemma deleted_sticker_is_gone_witness :
  UpdateStickerView.post (RT := Example2.runtime) (Example.request "move 1 to 3,4")
    (set_stickers Example.store1 []) =
    (inr (JsonResponse (status_error Http404) 400), set_stickers Example.store1 []) /\
  StickerDeleteView.post (RT := Example2.runtime) (Example.request "move 1 to 3,4")
    (set_stickers Example.store1 []) =
    (inr (JsonResponse (status_error Http404) 500), set_stickers Example.store1 []).
Proof.
  eapply (deleted_sticker_is_gone (RT := Example2.runtime)
            (Example.request "delete 1") (Example.request "move 1 to 3,4")
            _ (JInt 1) Example.store1);
    vm_compute; reflexivity.
Defined.

(** ** The sticker controller: what every run keeps *)

Section StickerOutcomes.
Context {RT : PyRuntime}.

(** Whatever it answers, a placement leaves the store as it was or
    answers with a key. *)
Lemma place_post_cases req s :
  snd (PlaceStickerView.post req s) = s \/
  exists k, PlaceStickerView.post req s =
            (inr (JsonResponse (status_success_id k) 200),
             snd (PlaceStickerView.post req s)).
Proof.
  unfold PlaceStickerView.post.
  destruct (json_loads (body req)) as [data|]; [|left; reflexivity].
  unfold try_except.
  destruct (place_cases data s) as [[e He]|(k & s1 & Hk)].
  - rewrite He. left. reflexivity.
  - rewrite Hk. right. exists k. reflexivity.
Qed.

Lemma update_post_cases req s :
  snd (UpdateStickerView.post req s) = s \/
  UpdateStickerView.post req s =
    (inr (JsonResponse status_success 200), snd (UpdateStickerView.post req s)).
Proof.
  unfold UpdateStickerView.post.
  destruct (json_loads (body req)) as [data|]; [|left; reflexivity].
  unfold try_except.
  destruct (update_cases data s) as [[e He]|(_ & _ & _ & _ & r & Hr)].
  - rewrite He. left. reflexivity.
  - rewrite Hr. right. reflexivity.
Qed.

Lemma delete_post_cases req s :
  snd (StickerDeleteView.post req s) = s \/
  exists v, StickerDeleteView.post req s =
            (inr (JsonResponse (status_success_deleted v) 200),
             snd (StickerDeleteView.post req s)).
Proof.
  unfold StickerDeleteView.post.
  destruct (json_loads (body req)) as [data|];
    [|left; destruct (json_fault (body req)); reflexivity].
  destruct (py_get data "sticker_id") as [e|v] eqn:Hv.
  { left. reflexivity. }
  rewrite (bind_inr _ _ s v s) by reflexivity.
  destruct (truthy v); cbn [negb]; cbv beta iota; [|left; reflexivity].
  unfold try_except.
  destruct (delete_cases v s) as [[e He]|(s1 & Hd)].
  - rewrite He. left. reflexivity.
  - rewrite Hd. right. exists v. reflexivity.
Qed.

End StickerOutcomes.

(** X7.  The three sticker views keep the sticker table consistent,
    whatever the request and whatever they answer: if no two stickers
    share a key and every sticker refers to a visit and to a sticker type
    of the store, the same holds of the store they leave. *)
Theorem sticker_views_keep_consistency
    {RT : PyRuntime} (req : Request) (s : Store) :
  stickers_consistent s ->
  stickers_consistent (snd (PlaceStickerView.post req s)) /\
  stickers_consistent (snd (UpdateStickerView.post req s)) /\
  stickers_consistent (snd (StickerDeleteView.post req s)).
Proof.
  intros [Hn Hrefs]. split; [|split].
  - destruct (place_post_cases req s) as [->|[k Hk]]; [split; assumption|].
    destruct (snd (PlaceStickerView.post req s)) as [] eqn:Es.
    rewrite <- Es in *. clear Es.
    apply place_post_inv in Hk. destruct Hk as (data & _ & Hk).
    apply place_inv in Hk.
    destruct Hk as (kvs & visit & ty & x & y & rot & sc & _ & Hv & Hty & _ & _ & _ & _ & Hkey & ->).
    split; cbn [stickers set_stickers visits sticker_types].
    + rewrite map_app. cbn [map sticker_id]. apply NoDup_app_fresh; [exact Hn|].
      subst k. apply next_pk_fresh.
    + intros st Hin. apply in_app_or in Hin. destruct Hin as [Hin|[<-|[]]].
      * exact (Hrefs st Hin).
      * cbn [sticker_visit sticker_type]. split.
        -- apply in_map. exact (find_pk_In _ _ _ _ Hv).
        -- apply in_map. exact Hty.
  - destruct (update_post_cases req s) as [->|Hk]; [split; assumption|].
    destruct (update_sticker_frame_of_run req s _ Hn Hk) as (Hs & Hf).
    rewrite Hs. split; cbn [stickers set_stickers visits sticker_types].
    + replace (map sticker_id (stickers (snd (UpdateStickerView.post req s))))
        with (map (fun f => fst (fst (fst f)))
                (map sticker_frame (stickers (snd (UpdateStickerView.post req s)))))
        by (rewrite map_map; reflexivity).
      rewrite Hf, map_map. exact Hn.
    + intros st Hin.
      apply (in_map sticker_frame) in Hin. rewrite Hf in Hin.
      apply in_map_iff in Hin. destruct Hin as (st0 & Hfr & Hin0).
      unfold sticker_frame in Hfr. injection Hfr as H1 H2 H3 H4.
      rewrite <- H2, <- H3. exact (Hrefs st0 Hin0).
  - destruct (delete_post_cases req s) as [->|[v Hk]]; [split; assumption|].
    apply delete_post_inv in Hk.
    destruct Hk as (kvs & k & st & _ & _ & _ & _ & _ & ->).
    split; cbn [stickers set_stickers visits sticker_types].
    + apply NoDup_remove_pk. exact Hn.
    + intros st0 Hin. unfold remove_pk in Hin. apply filter_In in Hin.
      exact (Hrefs st0 (proj1 Hin)).
Qed.

Lemma sticker_views_keep_consistency_witness :
  stickers_consistent
    (snd (PlaceStickerView.post (RT := Example2.runtime)
            (Example.request "place x=10 y=20") Example.store1)) /\
  stickers_consistent
    (snd (UpdateStickerView.post (RT := Example2.runtime)
            (Example.request "place x=10 y=20") Example.store1)) /\
  stickers_consistent
    (snd (StickerDeleteView.post (RT := Example2.runtime)
            (Example.request "place x=10 y=20") Example.store1)).
Proof.
  apply (sticker_views_keep_consistency (RT := Example2.runtime)).
  split.
  - repeat constructor. simpl. tauto.
  - simpl. intros st [<-|[]]. simpl. split; left; reflexivity.
Defined.



(** ** Relations every step keeps *)

Section Respects.
Variable R : Store -> Store -> Prop.
Hypothesis HR : preorder R.

Lemma respects_ret {A : Type} (a : A) : respects R (ret a).
Proof. intros s. apply HR. Qed.

Lemma respects_raise {A : Type} (e : exn) : respects R (@raise A e).
Proof. intros s. apply HR. Qed.

Lemma respects_lift {A : Type} (r : result A) : respects R (lift r).
Proof. intros s. apply HR. Qed.

Lemma respects_query {A : Type} (q : Store -> A) : respects R (query q).
Proof. intros s. apply HR. Qed.

Lemma respects_reads {A : Type} (m : DB A) : reads_only m -> respects R m.
Proof. intros H s. rewrite H. apply HR. Qed.

Lemma respects_bind {A B : Type} (m : DB A) (k : A -> DB B) :
  respects R m -> (forall a, respects R (k a)) -> respects R (bind m k).
Proof.
  intros Hm Hk s. unfold bind. specialize (Hm s).
  destruct (m s) as [[e|a] s0]; simpl in *; [exact Hm|].
  eapply (proj2 HR); [exact Hm|apply Hk].
Qed.

Lemma respects_for_each {A : Type} (l : list A) (f : A -> DB unit) :
  (forall x, In x l -> respects R (f x)) -> respects R (for_each l f).
Proof.
  induction l as [|x l IH]; simpl; intros H; [apply respects_ret|].
  apply respects_bind; [apply H; auto|]. intros _. apply IH. auto.
Qed.

Lemma respects_atomic {A : Type} (m : DB A) : respects R m -> respects R (atomic m).
Proof.
  intros Hm s. unfold atomic. specialize (Hm s).
  destruct (m s) as [[e|a] s0]; simpl in *; [apply HR|exact Hm].
Qed.

Lemma respects_try_except {A : Type} (m : DB A) (h : exn -> DB A) :
  respects R m -> (forall e, respects R (h e)) -> respects R (try_except m h).
Proof.
  intros Hm Hh s. unfold try_except. specialize (Hm s).
  destruct (m s) as [[e|a] s0]; simpl in *; [|exact Hm].
  eapply (proj2 HR); [exact Hm|apply Hh].
Qed.

Lemma respects_not_null {A : Type} (o : option A) : respects R (not_null o).
Proof. destruct o; [apply respects_ret|apply respects_raise]. Qed.

Lemma respects_cleaned_or_raise {D N : Type} (f : BoundForm D N) :
  respects R (cleaned_or_raise f).
Proof.
  unfold cleaned_or_raise. destruct (cleaned f); [apply respects_raise|apply respects_ret].
Qed.

End Respects.

(** Takes a computation apart along its binds, loops and branches; what
    is left are the writes. *)
Ltac respects_with HR :=
  repeat first
    [ apply (respects_ret _ HR)
    | apply (respects_raise _ HR)
    | apply (respects_lift _ HR)
    | apply (respects_query _ HR)
    | apply (respects_not_null _ HR)
    | apply (respects_cleaned_or_raise _ HR)
    | apply (respects_bind _ HR); [|intros ?]
    | apply (respects_for_each _ HR); intros ? ?
    | apply (respects_atomic _ HR)
    | apply (respects_try_except _ HR); [|intros ?]
    | match goal with
      | |- respects _ (if ?b then _ else _) => destruct b
      | |- respects _ (match ?x with _ => _ end) => destruct x
      end ].

(** ** Adding rows *)

Lemma extends_refl s : extends s s.
Proof.
  unfold extends. repeat (split; [reflexivity|]).
  repeat split; exists []; rewrite app_nil_r; reflexivity.
Qed.

Lemma extends_trans a b c : extends a b -> extends b c -> extends a c.
Proof.
  unfold extends.
  intros (H1 & H2 & H3 & H4 & [l5 H5] & [l6 H6] & [l7 H7] & [l8 H8])
         (G1 & G2 & G3 & G4 & [m5 G5] & [m6 G6] & [m7 G7] & [m8 G8]).
  split; [congruence|]. split; [congruence|]. split; [congruence|]. split; [congruence|].
  split; [exists (l5 ++ m5); rewrite G5, H5, app_assoc; reflexivity|].
  split; [exists (l6 ++ m6); rewrite G6, H6, app_assoc; reflexivity|].
  split; [exists (l7 ++ m7); rewrite G7, H7, app_assoc; reflexivity|].
  exists (l8 ++ m8); rewrite G8, H8, app_assoc; reflexivity.
Qed.

Lemma extends_preorder : preorder extends.
Proof. split; [exact extends_refl|exact extends_trans]. Qed.

(** Closes [extends s s1] for an [s1] that is [s] with one table
    written as that table followed by a list. *)
Ltac extends_by_one :=
  unfold extends; cbn;
  repeat (split; [first [reflexivity | eexists; reflexivity
                        | exists []; rewrite app_nil_r; reflexivity]|]);
  first [reflexivity | eexists; reflexivity | exists []; rewrite app_nil_r; reflexivity].

Lemma extends_Visit_insert p c d r a n : respects extends (Visit_insert p c d r a n).
Proof.
  unfold Visit_insert. respects_with extends_preorder.
  intros s. extends_by_one.
Qed.

Lemma extends_VisitPhoto_insert v i c : respects extends (VisitPhoto_insert v i c).
Proof.
  unfold VisitPhoto_insert. respects_with extends_preorder.
  intros s. extends_by_one.
Qed.

Lemma extends_ItemPhoto_insert v i c : respects extends (ItemPhoto_insert v i c).
Proof.
  unfold ItemPhoto_insert. respects_with extends_preorder.
  intros s. extends_by_one.
Qed.

Lemma extends_FavoriteItem_insert v n p r d :
  respects extends (FavoriteItem_insert v n p r d).
Proof.
  unfold FavoriteItem_insert. respects_with extends_preorder.
  intros s. extends_by_one.
Qed.

Lemma In_firstn {A : Type} (n : nat) (l : list A) x : In x (firstn n l) -> In x l.
Proof.
  intros H. rewrite <- (firstn_skipn n l). apply in_or_app. left. exact H.
Qed.

Lemma In_skipn {A : Type} (n : nat) (l : list A) x : In x (skipn n l) -> In x l.
Proof.
  intros H. rewrite <- (firstn_skipn n l). apply in_or_app. right. exact H.
Qed.

(** A formset none of whose forms stands for a stored row only inserts
    when it is saved. *)
Lemma extends_formset_save {D N : Type} (ops : TableOps D) parent (fs : FormSet D N) :
  Forall unsaved (forms fs) ->
  (forall p d, respects extends (op_insert ops p d)) ->
  respects extends (formset_save ops parent fs).
Proof.
  intros Hu Hins. rewrite Forall_forall in Hu. unfold formset_save.
  apply (respects_bind _ extends_preorder).
  - apply (respects_for_each _ extends_preorder). intros f Hf.
    apply In_firstn in Hf. rewrite (Hu f Hf).
    apply (respects_ret _ extends_preorder).
  - intros _. apply (respects_for_each _ extends_preorder). intros f Hf.
    respects_with extends_preorder. apply Hins.
Qed.

Section Appends.
Context {RT : PyRuntime}.

Lemma existing_object_nil {R : Type} initial raw_id :
  @existing_object RT R [] initial raw_id = None.
Proof.
  unfold existing_object. destruct initial; [|reflexivity].
  destruct raw_id as [t|]; [|reflexivity].
  destruct (int_of_str t); reflexivity.
Qed.

Lemma bind_photo_form_unsaved {N : Type} d files fk parent table initial prefix :
  unsaved (@bind_photo_form RT N d files fk parent table [] initial prefix).
Proof.
  unfold unsaved, bind_photo_form. cbn [form_instance].
  rewrite existing_object_nil. reflexivity.
Qed.

Lemma bind_item_form_unsaved {N : Type} d parent table initial prefix :
  unsaved (@bind_item_form RT N d parent table [] initial prefix).
Proof.
  unfold unsaved, bind_item_form. cbn [form_instance].
  rewrite existing_object_nil. reflexivity.
Qed.

Lemma bind_formset_unsaved {D N : Type} fac
    (bind_form : bool -> string -> BoundForm D N) d prefix :
  (forall i p, unsaved (bind_form i p)) ->
  Forall unsaved (forms (bind_formset fac bind_form d prefix)).
Proof.
  intros H. unfold bind_formset. cbn [forms]. rewrite Forall_forall.
  intros f Hf. apply in_map_iff in Hf. destruct Hf as (i & <- & _). apply H.
Qed.

(** The forms of the creation view stand for no stored row. *)
Lemma create_context_unsaved req s :
  Forall unsaved (forms (visit_photo_formset (VisitCreateView.get_context_data req s))) /\
  Forall unsaved_item
    (forms (favorite_item_formset (VisitCreateView.get_context_data req s))).
Proof.
  unfold VisitCreateView.get_context_data. cbn [visit_photo_formset favorite_item_formset].
  split.
  - destruct (nonempty (POST req)); [|constructor].
    apply bind_formset_unsaved. intros i p. apply bind_photo_form_unsaved.
  - unfold with_forms. cbn [forms]. rewrite Forall_forall. intros f Hf.
    apply in_map_iff in Hf. destruct Hf as (g & <- & Hg).
    assert (Hgu : unsaved g).
    { destruct (nonempty (POST req)); [|destruct Hg].
      pose proof (bind_formset_unsaved FavoriteItemFormSet
                    (bind_item_form (N := PhotoFormSet) (POST req) None
                       (map item_id (favorite_items s)) [])
                    (POST req) "items"
                    (fun i p => bind_item_form_unsaved _ _ _ i p)) as Hall.
      rewrite Forall_forall in Hall. exact (Hall g Hg). }
    split; [exact Hgu|]. cbn [attach nested_photo_formset].
    destruct (nonempty (POST req) || nonempty (FILES req)); [|constructor].
    apply bind_formset_unsaved. intros i p. apply bind_photo_form_unsaved.
Qed.

Lemma check_nested_unsaved l :
  Forall unsaved_item l -> Forall unsaved_item (snd (check_nested l)).
Proof.
  induction l as [|f l IH]; simpl; intros H; [constructor|].
  inversion H as [|? ? Hf Hl]; subst. specialize (IH Hl).
  assert (Hatt : forall nested, nested_photo_formset f = Some nested ->
                   unsaved_item (attach f (full_clean nested))).
  { intros nested Hn. destruct Hf as [Hu Hn']. rewrite Hn in Hn'.
    split; [exact Hu|exact Hn']. }
  destruct (nested_photo_formset f) as [nested|] eqn:Hn.
  - destruct (negb (cleaned_DELETE f)).
    + destruct (negb (is_valid nested)); cbn [snd].
      * constructor; [apply Hatt; reflexivity|exact Hl].
      * destruct (check_nested l) as [ok rest]. cbn [snd] in *.
        constructor; [apply Hatt; reflexivity|exact IH].
    + destruct (check_nested l) as [ok rest]. cbn [snd] in *.
      constructor; [exact Hf|exact IH].
  - destruct (check_nested l) as [ok rest]. cbn [snd] in *.
    constructor; [exact Hf|exact IH].
Qed.

Lemma extends_item_photo_insert p d : respects extends (op_insert item_photo_ops p d).
Proof. apply extends_ItemPhoto_insert. Qed.

Lemma extends_visit_photo_insert p d : respects extends (op_insert visit_photo_ops p d).
Proof. apply extends_VisitPhoto_insert. Qed.

Lemma extends_save_item_form visit f :
  unsaved_item f -> respects extends (save_item_form visit f).
Proof.
  intros [Hu Hn]. unfold save_item_form. rewrite Hu.
  apply (respects_bind _ extends_preorder);
    [apply (respects_cleaned_or_raise _ extends_preorder)|intros d].
  apply (respects_bind _ extends_preorder);
    [apply extends_FavoriteItem_insert|intros k].
  destruct (nested_photo_formset f) as [nested|].
  - apply extends_formset_save; [exact Hn|apply extends_item_photo_insert].
  - apply (respects_ret _ extends_preorder).
Qed.

Lemma extends_create_save_or_delete visit f :
  unsaved_item f -> respects extends (VisitCreateView.save_or_delete visit f).
Proof.
  intros Hf. unfold VisitCreateView.save_or_delete.
  destruct (cleaned_data_truthy f && negb (cleaned_DELETE f));
    [apply extends_save_item_form; exact Hf|].
  destruct (cleaned_data_truthy f && cleaned_DELETE f);
    [|apply (respects_ret _ extends_preorder)].
  destruct Hf as [Hu _]. rewrite Hu. apply (respects_raise _ extends_preorder).
Qed.

Lemma extends_create_transaction req cafe data s0 :
  respects extends (create_transaction req cafe data s0).
Proof.
  unfold create_transaction, VisitCreateView.save_all.
  destruct (create_context_unsaved req s0) as [Hp Hi].
  apply check_nested_unsaved in Hi. rewrite Forall_forall in Hi.
  apply (respects_bind _ extends_preorder);
    [apply (respects_lift _ extends_preorder)|intros profile].
  apply (respects_bind _ extends_preorder);
    [apply extends_Visit_insert|intros object].
  apply (respects_bind _ extends_preorder);
    [apply extends_formset_save; [exact Hp|apply extends_visit_photo_insert]|intros _].
  apply (respects_bind _ extends_preorder);
    [|intros _; apply (respects_ret _ extends_preorder)].
  apply (respects_for_each _ extends_preorder). intros f Hf.
  apply extends_create_save_or_delete. exact (Hi f Hf).
Qed.

Lemma extends_create_post req cafe : respects extends (VisitCreateView.post req cafe).
Proof.
  intros s. unfold VisitCreateView.post.
  destruct (is_ok (VisitForm (POST req))); [|apply extends_refl].
  destruct (create_form_valid_atomic req cafe (VisitForm (POST req)) s)
    as [[_ ->]|(data & object & _ & Ht & _)]; [apply extends_refl|].
  pose proof (extends_create_transaction req cafe data s s) as H.
  rewrite Ht in H. exact H.
Qed.

Lemma extends_log_post req cafe_pk : respects extends (LogCafeVisitView.post req cafe_pk).
Proof.
  unfold LogCafeVisitView.post, LogCafeVisitView.attempt, LogCafeVisitView.handler,
    LogCafeVisitView.save_all, LogCafeVisitView.Visit_objects_create,
    LogCafeVisitView.save_favorite_items, LogCafeVisitView.save_favorite_item,
    LogCafeVisitView.FavoriteItem_objects_create,
    LogCafeVisitView.save_visit_photo, LogCafeVisitView.save_item_photo,
    Cafe_or_404, get_object_or_404.
  respects_with extends_preorder; intros s'; extends_by_one.
Qed.

End Appends.

Lemma extends_create_dispatch {RT : PyRuntime} req cafe_pk :
  respects extends (VisitCreateView.dispatch req cafe_pk).
Proof.
  unfold VisitCreateView.dispatch, login_required.
  apply (respects_bind _ extends_preorder).
  - apply (respects_reads _ extends_preorder). apply reads_Cafe_or_404.
  - intros cafe. destruct (user req);
      [apply (respects_ret _ extends_preorder)|apply extends_create_post].
Qed.

Lemma extends_log_dispatch {RT : PyRuntime} req cafe_pk :
  respects extends (LogCafeVisitView.dispatch req cafe_pk).
Proof.
  unfold LogCafeVisitView.dispatch, login_required.
  destruct (user req);
    [apply (respects_ret _ extends_preorder)|apply extends_log_post].
Qed.

(** X9.  Creating a visit only adds rows.  Whatever the request and
    whatever the answer, after [VisitCreateView] or [LogCafeVisitView]
    the cafes, wishes, sticker types and stickers are as before, and the
    visits, visit photos, items and item photos of before are all there,
    unchanged and in place, followed by the rows the request added. *)
Theorem visit_creation_only_appends
    {RT : PyRuntime} (req : Request) (cafe_pk : pk) (s : Store) :
  extends s (snd (VisitCreateView.dispatch req cafe_pk s)) /\
  extends s (snd (LogCafeVisitView.dispatch req cafe_pk s)).
Proof.
  split; [apply extends_create_dispatch|apply extends_log_dispatch].
Qed.

(** ** Protocol B: what is answered *)

Section LogAnswers.
Context {RT : PyRuntime}.

Lemma Cafe_or_404_run cafe_pk s :
  Cafe_or_404 cafe_pk s =
  match find_pk cafe_id (cafes s) (Some cafe_pk) with
  | Some cafe => (inr cafe, s)
  | None => (inl Http404, s)
  end.
Proof.
  unfold Cafe_or_404. db_unfold.
  destruct (find_pk cafe_id (cafes s) (Some cafe_pk)); reflexivity.
Qed.

Lemma log_attempt_answers req cafe_pk s r s1 :
  LogCafeVisitView.attempt req cafe_pk s = (inr r, s1) ->
  In (status_code r) [200; 400].
Proof.
  unfold LogCafeVisitView.attempt. intros H.
  apply bind_inv in H. destruct H as (cafe & s0 & _ & H).
  destruct (qd_get (POST req) "dynamic_data") as [[|c text]|].
  - apply ret_inv in H. destruct H as [-> _]. simpl. auto.
  - destruct (json_loads (String c text)); [|discriminate].
    apply bind_inv in H. destruct H as (k & s2 & _ & H).
    apply ret_inv in H. destruct H as [-> _]. simpl. auto.
  - apply ret_inv in H. destruct H as [-> _]. simpl. auto.
Qed.

Lemma log_handler_answers e s :
  exists r, LogCafeVisitView.handler e s = (inr r, s) /\ In (status_code r) [400; 500].
Proof. destruct e; eexists; (split; [reflexivity|simpl; auto]). Qed.

End LogAnswers.

(** X10.  [LogCafeVisitView.post] lets no exception out: every request
    is answered with status 200, 400 or 500.  In particular a cafe key
    that names no cafe is answered 500 with the [Http404] of the lookup
    as its detail, not 404, and nothing is written. *)
Theorem log_visit_always_answers
    {RT : PyRuntime} (req : Request) (cafe_pk : pk) (s : Store) :
  answered (fst (LogCafeVisitView.post req cafe_pk s)) [200; 400; 500] /\
  match find_pk cafe_id (cafes s) (Some cafe_pk) with
  | None => LogCafeVisitView.post req cafe_pk s =
            (inr (JsonResponse (detail_exception Http404) 500), s)
  | Some _ => True
  end.
Proof.
  split.
  - unfold LogCafeVisitView.post, try_except.
    destruct (LogCafeVisitView.attempt req cafe_pk s) as [[e|r] s1] eqn:Ha.
    + destruct (log_handler_answers e s1) as (r & -> & Hr). simpl in *. tauto.
    + apply log_attempt_answers in Ha. simpl in *. tauto.
  - destruct (find_pk cafe_id (cafes s) (Some cafe_pk)) eqn:Hc; [exact I|].
    unfold LogCafeVisitView.post, try_except, LogCafeVisitView.attempt.
    rewrite (bind_inl _ _ s Http404 s); [reflexivity|].
    rewrite Cafe_or_404_run, Hc. reflexivity.
Qed.

(** X11.  The order of the checks.  [VisitCreateView] looks the cafe up
    before it asks for a login: a key that names no cafe raises
    [Http404] for anyone, a visitor who is not logged in included.
    [LogCafeVisitView] asks for the login first: such a visitor is sent
    to the login page whatever the key.  Neither writes. *)
Theorem cafe_lookup_and_login_order
    {RT : PyRuntime} (req : Request) (cafe_pk : pk) (s : Store) :
  match user req, find_pk cafe_id (cafes s) (Some cafe_pk) with
  | AnonymousUser, None =>
      VisitCreateView.dispatch req cafe_pk s = (inl Http404, s) /\
      LogCafeVisitView.dispatch req cafe_pk s =
        (inr (HttpResponseRedirect route_login []), s)
  | AnonymousUser, Some _ =>
      VisitCreateView.dispatch req cafe_pk s =
        (inr (HttpResponseRedirect route_login []), s) /\
      LogCafeVisitView.dispatch req cafe_pk s =
        (inr (HttpResponseRedirect route_login []), s)
  | AuthUser _, None =>
      VisitCreateView.dispatch req cafe_pk s = (inl Http404, s) /\
      LogCafeVisitView.dispatch req cafe_pk s =
        (inr (JsonResponse (detail_exception Http404) 500), s)
  | AuthUser _, Some cafe =>
      VisitCreateView.dispatch req cafe_pk s = VisitCreateView.post req cafe s /\
      LogCafeVisitView.dispatch req cafe_pk s = LogCafeVisitView.post req cafe_pk s
  end.
Proof.
  unfold VisitCreateView.dispatch, LogCafeVisitView.dispatch, login_required.
  destruct (user req) as [|p];
    destruct (find_pk cafe_id (cafes s) (Some cafe_pk)) as [cafe|] eqn:Hc; split;
    try reflexivity;
    try (rewrite (bind_inl _ _ s Http404 s);
         [reflexivity|rewrite Cafe_or_404_run, Hc; reflexivity]);
    try (rewrite (bind_inr _ _ s cafe s);
         [reflexivity|rewrite Cafe_or_404_run, Hc; reflexivity]).
  unfold LogCafeVisitView.post, try_except, LogCafeVisitView.attempt.
  rewrite (bind_inl _ _ s Http404 s); [reflexivity|].
  rewrite Cafe_or_404_run, Hc. reflexivity.
Qed.

(** ** Protocol A: a form marked for deletion in the creation view *)

Lemma for_each_raises {A : Type} (l : list A) (f : A -> DB unit) x :
  In x l ->
  (forall s, exists e s', f x s = (inl e, s')) ->
  forall s, exists e s', for_each l f s = (inl e, s').
Proof.
  induction l as [|y l IH]; simpl; [tauto|].
  intros Hin Hx s. unfold bind.
  destruct (f y s) as [[e|u] s0] eqn:Hy; [eauto|].
  destruct Hin as [->|Hin].
  - destruct (Hx s) as (e & s' & He). rewrite He in Hy. discriminate.
  - apply IH; assumption.
Qed.

Lemma bind_raises {A B : Type} (m : DB A) (k : A -> DB B) s :
  (forall a s0, exists e s', k a s0 = (inl e, s')) ->
  exists e s', bind m k s = (inl e, s').
Proof.
  intros Hk. unfold bind. destruct (m s) as [[e|a] s0]; [eauto|apply Hk].
Qed.

(** The check of the nested formsets hands every form on, with at most
    its nested formset cleaned. *)
Lemma check_nested_forms l f :
  In f l ->
  exists f', In f' (snd (check_nested l)) /\
             (f' = f \/ exists nested, f' = attach f nested).
Proof.
  induction l as [|g l IH]; simpl; [tauto|].
  intros Hin.
  assert (Hrest : In f l -> forall h ok rest, check_nested l = (ok, rest) ->
            exists f', In f' (h :: rest) /\ (f' = f \/ exists nested, f' = attach f nested)).
  { intros Hl h ok rest E. destruct (IH Hl) as (f' & Hf' & Hor).
    rewrite E in Hf'. exists f'. split; [right; exact Hf'|exact Hor]. }
  destruct (nested_photo_formset g) as [nested|].
  - destruct (negb (cleaned_DELETE g)).
    + destruct (negb (is_valid nested)); cbn [snd].
      * destruct Hin as [->|Hin].
        -- eexists. split; [left; reflexivity|]. right. eexists. reflexivity.
        -- exists f. split; [right; exact Hin|left; reflexivity].
      * destruct (check_nested l) as [ok rest] eqn:E. cbn [snd].
        destruct Hin as [->|Hin]; [|exact (Hrest Hin _ ok rest eq_refl)].
        eexists. split; [left; reflexivity|]. right. eexists. reflexivity.
    + destruct (check_nested l) as [ok rest] eqn:E. cbn [snd].
      destruct Hin as [->|Hin]; [|exact (Hrest Hin _ ok rest eq_refl)].
      exists f. split; [left; reflexivity|left; reflexivity].
  - destruct (check_nested l) as [ok rest] eqn:E. cbn [snd].
    destruct Hin as [->|Hin]; [|exact (Hrest Hin _ ok rest eq_refl)].
    exists f. split; [left; reflexivity|left; reflexivity].
Qed.

Section DeleteInCreate.
Context {RT : PyRuntime}.

(** A ticked DELETE box counts as a change of the form. *)
Lemma create_item_form_ticked req s f :
  In f (forms (favorite_item_formset (VisitCreateView.get_context_data req s))) ->
  delete_checked f = true ->
  has_changed f = true /\ form_instance f = None.
Proof.
  intros Hin Hd.
  destruct (create_context_unsaved req s) as [_ Hu].
  rewrite Forall_forall in Hu. split; [|exact (proj1 (Hu f Hin))].
  revert Hin Hd. unfold VisitCreateView.get_context_data.
  cbn [favorite_item_formset with_forms forms].
  intros Hin. apply in_map_iff in Hin. destruct Hin as (g & <- & Hg).
  cbn [attach delete_checked has_changed].
  destruct (nonempty (POST req)); [|destruct Hg].
  unfold bind_formset in Hg. cbn [forms] in Hg.
  apply in_map_iff in Hg. destruct Hg as (i & <- & _).
  unfold bind_item_form. cbn [delete_checked has_changed].
  intros ->. rewrite !orb_true_r. reflexivity.
Qed.

Lemma create_save_or_delete_ticked visit f :
  delete_checked f = true -> has_changed f = true -> form_instance f = None ->
  forall s, exists e s', VisitCreateView.save_or_delete visit f s = (inl e, s').
Proof.
  intros Hd Hc Hi s. unfold VisitCreateView.save_or_delete.
  unfold cleaned_DELETE, cleaned_data_truthy, skipped.
  rewrite Hd, Hc, Hi. cbn [negb]. rewrite andb_false_r. cbn.
  exists ValueError, s. reflexivity.
Qed.

Lemma create_transaction_ticked req cafe data s0 f :
  In f (forms (favorite_item_formset (VisitCreateView.get_context_data req s0))) ->
  delete_checked f = true ->
  forall s, exists e s', create_transaction req cafe data s0 s = (inl e, s').
Proof.
  intros Hin Hd s.
  destruct (create_item_form_ticked req s0 f Hin Hd) as [Hc Hi].
  destruct (check_nested_forms _ f Hin) as (f' & Hin' & Hor).
  assert (Hf' : delete_checked f' = true /\ has_changed f' = true /\
                form_instance f' = None).
  { destruct Hor as [->|[nested ->]]; cbn; auto. }
  destruct Hf' as (Hd' & Hc' & Hi').
  unfold create_transaction, VisitCreateView.save_all.
  apply bind_raises. intros profile s1.
  apply bind_raises. intros object s2.
  apply bind_raises. intros _ s3.
  unfold bind.
  destruct (for_each_raises _ (VisitCreateView.save_or_delete object) f' Hin'
              (create_save_or_delete_ticked object f' Hd' Hc' Hi') s3)
    as (e & s' & ->).
  eauto.
Qed.

End DeleteInCreate.

(** X12.  In [VisitCreateView] an item form whose DELETE box is ticked
    makes the request fail: no form of that view stands for a stored
    item, so the deletion it asks for refuses.  The request never ends
    in the redirect to a new visit, and the store is left as it was. *)
Theorem create_visit_with_ticked_delete_fails
    {RT : PyRuntime} (req : Request) (cafe_pk : pk) (s : Store) (f : ItemForm) :
  In f (forms (favorite_item_formset (VisitCreateView.get_context_data req s))) ->
  delete_checked f = true ->
  created (fst (VisitCreateView.dispatch req cafe_pk s)) = None /\
  snd (VisitCreateView.dispatch req cafe_pk s) = s.
Proof.
  intros Hin Hd. unfold VisitCreateView.dispatch.
  unfold bind. rewrite Cafe_or_404_run.
  destruct (find_pk cafe_id (cafes s) (Some cafe_pk)) as [cafe|]; [|split; reflexivity].
  unfold login_required. destruct (user req); [split; reflexivity|].
  unfold VisitCreateView.post.
  destruct (is_ok (VisitForm (POST req))); [|split; reflexivity].
  destruct (create_form_valid_atomic req cafe (VisitForm (POST req)) s)
    as [H|(data & object & _ & Ht & _)]; [exact H|].
  destruct (create_transaction_ticked req cafe data s f Hin Hd s) as (e & s' & He).
  rewrite He in Ht. discriminate.
Qed.

Lemma create_visit_with_ticked_delete_fails_witness :
  created (fst (VisitCreateView.dispatch (RT := Example.runtime)
                  Example.item_then_deleted_item 1 Example.store1)) = None /\
  snd (VisitCreateView.dispatch (RT := Example.runtime)
         Example.item_then_deleted_item 1 Example.store1) = Example.store1.
Proof.
  eapply (create_visit_with_ticked_delete_fails (RT := Example.runtime)
            Example.item_then_deleted_item 1 Example.store1).
  - right. left. reflexivity.
  - vm_compute. reflexivity.
Defined.

(** ** Protocol B: the rows a successful request adds *)

Lemma same_visit_photos_preorder : preorder same_visit_photos.
Proof. split; unfold same_visit_photos; congruence. Qed.

Lemma same_favorite_items_preorder : preorder same_favorite_items.
Proof. split; unfold same_favorite_items; congruence. Qed.

Section LogRows.
Context {RT : PyRuntime}.

Lemma save_visit_photo_inv files visit e s u s0 :
  LogCafeVisitView.save_visit_photo files visit e s = (inr u, s0) ->
  exists kvs, e = JObj kvs /\
    ((LogCafeVisitView.resolves files (member kvs "file_key") = inr None /\ s0 = s) \/
     (exists image c,
        LogCafeVisitView.resolves files (member kvs "file_key") = inr (Some image) /\
        s0 = set_visit_photos s
               (visit_photos s ++
                [{| vphoto_id := next_pk (map vphoto_id (visit_photos s));
                    vphoto_visit := visit; vphoto_image := image;
                    vphoto_caption := c |}]))).
Proof.
  unfold LogCafeVisitView.save_visit_photo. intros H.
  apply bind_inv in H. destruct H as (fk & s1 & Hfk & H).
  apply lift_inv in Hfk. destruct Hfk as [Hfk ->].
  apply py_get_inv in Hfk. destruct Hfk as (kvs & -> & ->).
  exists kvs. split; [reflexivity|].
  apply bind_inv in H. destruct H as (cap & s1 & Hc & H).
  apply lift_inv in Hc. destruct Hc as [Hc ->].
  apply bind_inv in H. destruct H as (up & s1 & Hu & H).
  apply lift_inv in Hu. destruct Hu as [Hu ->].
  destruct up as [image|].
  - right. apply bind_inv in H. destruct H as (k & s1 & Hi & H).
    apply ret_inv in H. destruct H as [_ ->].
    unfold VisitPhoto_insert in Hi.
    apply bind_inv in Hi. destruct Hi as (c & s2 & Hn & Hi).
    destruct (char_prep cap) as [c'|]; [|discriminate].
    apply ret_inv in Hn. destruct Hn as [-> ->].
    inversion Hi; subst. exists image, c'. split; [exact Hu|reflexivity].
  - left. apply ret_inv in H. destruct H as [_ ->]. split; [exact Hu|reflexivity].
Qed.

Lemma save_visit_photos_rows files visit entries s s1 :
  for_each entries (LogCafeVisitView.save_visit_photo files visit) s = (inr tt, s1) ->
  exists rows,
    visit_photos s1 = visit_photos s ++ rows /\
    map vphoto_image rows = uploaded files entries /\
    Forall (fun r => vphoto_visit r = visit) rows.
Proof.
  revert s. induction entries as [|e entries IH]; intros s H.
  - apply ret_inv in H. destruct H as [_ ->]. exists [].
    rewrite app_nil_r. repeat split. constructor.
  - simpl in H. apply bind_inv in H. destruct H as (u & s0 & He & H).
    apply save_visit_photo_inv in He. destruct He as (kvs & -> & Hcase).
    apply IH in H. destruct H as (rows & Hrows & Himg & Hall).
    cbn [uploaded].
    destruct Hcase as [[Hr ->]|(image & c & Hr & ->)]; rewrite Hr.
    + exists rows. repeat split; assumption.
    + cbn [visit_photos set_visit_photos] in Hrows. rewrite <- app_assoc in Hrows.
      eexists. split; [exact Hrows|]. cbn [map vphoto_image app].
      split; [f_equal; exact Himg|]. constructor; [reflexivity|exact Hall].
Qed.

Lemma same_visit_photos_Visit_objects_create p c d r a n :
  respects same_visit_photos (LogCafeVisitView.Visit_objects_create p c d r a n).
Proof.
  unfold LogCafeVisitView.Visit_objects_create, Visit_insert.
  respects_with same_visit_photos_preorder; intros ?; reflexivity.
Qed.

Lemma same_visit_photos_save_favorite_items files visit dd :
  respects same_visit_photos (LogCafeVisitView.save_favorite_items files visit dd).
Proof.
  unfold LogCafeVisitView.save_favorite_items, LogCafeVisitView.save_favorite_item,
    LogCafeVisitView.FavoriteItem_objects_create, LogCafeVisitView.save_item_photo.
  respects_with same_visit_photos_preorder; intros ?; reflexivity.
Qed.

(** A successful request of protocol B went through its transaction. *)
Lemma log_post_success_inv req cafe_pk s k s1 :
  LogCafeVisitView.post req cafe_pk s =
    (inr (JsonResponse (success_redirect (route_visit_detail k)) 200), s1) ->
  exists cafe text dynamic_data,
    find_pk cafe_id (cafes s) (Some cafe_pk) = Some cafe /\
    qd_get (POST req) "dynamic_data" = Some text /\
    json_loads text = Some dynamic_data /\
    LogCafeVisitView.save_all req cafe dynamic_data s = (inr k, s1).
Proof.
  intros H.
  destruct (log_post_atomic req cafe_pk s)
    as [[Hc _]|(cafe & text & dd & nv & Hcafe & Ht & Hj & Hs & Hf)].
  - rewrite H in Hc. discriminate.
  - rewrite H in Hs, Hf. cbn [fst snd] in Hs, Hf. inversion Hf; subst nv.
    exists cafe, text, dd. repeat split; assumption.
Qed.

End LogRows.

(** X13.  What a successful request of protocol B stores of
    [visitPhotos]: one photo of the new visit for each entry whose
    [file_key] names an uploaded file, in the order of the entries, with
    that file as its image.  The entries that name no file leave no
    trace, and the photos stored before are untouched. *)
Theorem log_visit_stores_named_photos
    {RT : PyRuntime} (req : Request) (cafe_pk : pk) (s s1 : Store) (k : pk)
    (text : string) (kvs : list (string * json)) (entries : list json) :
  qd_get (POST req) "dynamic_data" = Some text ->
  json_loads text = Some (JObj kvs) ->
  member_default kvs "visitPhotos" (JArr []) = JArr entries ->
  LogCafeVisitView.post req cafe_pk s =
    (inr (JsonResponse (success_redirect (route_visit_detail k)) 200), s1) ->
  exists rows,
    visit_photos s1 = visit_photos s ++ rows /\
    map vphoto_image rows = uploaded (FILES req) entries /\
    Forall (fun r => vphoto_visit r = k) rows.
Proof.
  intros Ht Hj Hm H.
  apply log_post_success_inv in H.
  destruct H as (cafe & text' & dd & _ & Ht' & Hj' & H).
  rewrite Ht in Ht'. inversion Ht'; subst text'. clear Ht'.
  rewrite Hj in Hj'. inversion Hj'; subst dd. clear Hj'.
  unfold LogCafeVisitView.save_all in H.
  apply bind_inv in H. destruct H as (profile & s0 & Hp & H).
  apply lift_inv in Hp. destruct Hp as [_ ->].
  apply bind_inv in H. destruct H as (nv & sa & Hv & H).
  pose proof (same_visit_photos_Visit_objects_create profile (cafe_id cafe)
                (qd_get (POST req) "date_visited") (qd_get (POST req) "user_rating")
                (qd_get (POST req) "amount_spent") (qd_get (POST req) "notes") s) as Hsa.
  rewrite Hv in Hsa. cbn [snd] in Hsa. unfold same_visit_photos in Hsa.
  apply bind_inv in H. destruct H as (photos & s0 & Hph & H).
  apply lift_inv in Hph. destruct Hph as [Hph ->].
  unfold py_get_default in Hph. rewrite Hm in Hph. inversion Hph; subst photos. clear Hph.
  apply bind_inv in H. destruct H as (photo_list & s0 & Hl & H).
  apply lift_inv in Hl. destruct Hl as [Hl ->].
  cbn [py_iter] in Hl. inversion Hl; subst photo_list. clear Hl.
  apply bind_inv in H. destruct H as ([] & sb & Hloop & H).
  apply save_visit_photos_rows in Hloop. destruct Hloop as (rows & Hrows & Himg & Hall).
  apply bind_inv in H. destruct H as (u & sc & Hitems & H).
  pose proof (same_visit_photos_save_favorite_items (FILES req) nv (JObj kvs) sb) as Hsc.
  rewrite Hitems in Hsc. cbn [snd] in Hsc. unfold same_visit_photos in Hsc.
  apply ret_inv in H. destruct H as [Hk ->]. subst nv.
  exists rows. split; [rewrite Hsc, Hrows, Hsa; reflexivity|]. split; assumption.
Qed.

Lemma log_visit_stores_named_photos_witness :
  exists rows,
    visit_photos
      (snd (LogCafeVisitView.post (RT := Example2.runtime)
              (Example.log_request "two photos, one file" [("f1", "door.png")])
              1 Example.store1)) =
    visit_photos Example.store1 ++ rows /\
    map vphoto_image rows =
      uploaded [("f1", "door.png")]
        [JObj [("file_key", JStr "f1"); ("caption", JStr "door")];
         JObj [("file_key", JStr "lost"); ("caption", JStr "window")]] /\
    Forall (fun r => vphoto_visit r = 2) rows.
Proof.
  eapply (log_visit_stores_named_photos (RT := Example2.runtime)
            (Example.log_request "two photos, one file" [("f1", "door.png")])
            1 Example.store1);
    vm_compute; reflexivity.
Defined.

Section LogItems.
Context {RT : PyRuntime}.

Lemma same_favorite_items_save_item_photo files item e :
  respects same_favorite_items (LogCafeVisitView.save_item_photo files item e).
Proof.
  unfold LogCafeVisitView.save_item_photo.
  respects_with same_favorite_items_preorder; intros ?; reflexivity.
Qed.

Lemma same_favorite_items_save_visit_photo files visit e :
  respects same_favorite_items (LogCafeVisitView.save_visit_photo files visit e).
Proof.
  unfold LogCafeVisitView.save_visit_photo.
  respects_with same_favorite_items_preorder; intros ?; reflexivity.
Qed.

Lemma same_favorite_items_Visit_objects_create p c d r a n :
  respects same_favorite_items (LogCafeVisitView.Visit_objects_create p c d r a n).
Proof.
  unfold LogCafeVisitView.Visit_objects_create, Visit_insert.
  respects_with same_favorite_items_preorder; intros ?; reflexivity.
Qed.

Lemma save_favorite_item_inv files visit e s u s0 :
  LogCafeVisitView.save_favorite_item files visit e s = (inr u, s0) ->
  exists kvs, e = JObj kvs /\
    ((truthy (member kvs "name") = false /\ s0 = s) \/
     (truthy (member kvs "name") = true /\
      exists row,
        favorite_items s0 = favorite_items s ++ [row] /\
        char_prep (member kvs "name") = Some (item_name row) /\
        item_visit row = visit)).
Proof.
  unfold LogCafeVisitView.save_favorite_item. intros H.
  apply bind_inv in H. destruct H as (name & s1 & Hn & H).
  apply lift_inv in Hn. destruct Hn as [Hn ->].
  apply py_get_inv in Hn. destruct Hn as (kvs & -> & ->).
  exists kvs. split; [reflexivity|].
  destruct (truthy (member kvs "name")); cbn [negb] in H; cbv beta iota in H.
  - right. split; [reflexivity|].
    apply bind_inv in H. destruct H as (price & s1 & Hp & H).
    apply lift_inv in Hp. destruct Hp as [_ ->].
    apply bind_inv in H. destruct H as (rating & s1 & Hr & H).
    apply lift_inv in Hr. destruct Hr as [_ ->].
    apply bind_inv in H. destruct H as (description & s1 & Hd & H).
    apply lift_inv in Hd. destruct Hd as [_ ->].
    apply bind_inv in H. destruct H as (item & s1 & Hi & H).
    apply bind_inv in H. destruct H as (photos & s2 & Hph & H).
    apply lift_inv in Hph. destruct Hph as [_ ->].
    apply bind_inv in H. destruct H as (photo_list & s2 & Hl & H).
    apply lift_inv in Hl. destruct Hl as [_ ->].
    assert (Hloop : respects same_favorite_items
                      (for_each photo_list
                         (LogCafeVisitView.save_item_photo files item))).
    { apply (respects_for_each _ same_favorite_items_preorder). intros x _.
      apply same_favorite_items_save_item_photo. }
    specialize (Hloop s1). rewrite H in Hloop. cbn [snd] in Hloop.
    unfold same_favorite_items in Hloop. rewrite Hloop. clear Hloop H.
    unfold LogCafeVisitView.FavoriteItem_objects_create in Hi.
    apply bind_inv in Hi. destruct Hi as (p & s2 & Hp & Hi).
    apply lift_inv in Hp. destruct Hp as [_ ->].
    apply bind_inv in Hi. destruct Hi as (r & s2 & Hr & Hi).
    apply lift_inv in Hr. destruct Hr as [_ ->].
    unfold FavoriteItem_insert in Hi.
    apply bind_inv in Hi. destruct Hi as (n & s2 & Hn & Hi).
    destruct (char_prep (member kvs "name")) as [n'|]; [|discriminate].
    apply ret_inv in Hn. destruct Hn as [-> ->].
    apply bind_inv in Hi. destruct Hi as (p' & s2 & Hp & Hi).
    destruct p as [p0|]; [|discriminate]. apply ret_inv in Hp. destruct Hp as [-> ->].
    apply bind_inv in Hi. destruct Hi as (r' & s2 & Hr & Hi).
    destruct r as [r0|]; [|discriminate]. apply ret_inv in Hr. destruct Hr as [-> ->].
    apply bind_inv in Hi. destruct Hi as (d' & s2 & Hd & Hi).
    destruct (char_prep description) as [d0|]; [|discriminate].
    apply ret_inv in Hd. destruct Hd as [-> ->].
    inversion Hi; subst. eexists. split; [reflexivity|]. split; reflexivity.
  - left. apply ret_inv in H. destruct H as [_ ->]. split; reflexivity.
Qed.

Lemma save_favorite_items_rows files visit entries s s1 :
  for_each entries (LogCafeVisitView.save_favorite_item files visit) s = (inr tt, s1) ->
  exists rows,
    favorite_items s1 = favorite_items s ++ rows /\
    map (fun r => Some (item_name r)) rows = named entries /\
    Forall (fun r => item_visit r = visit) rows.
Proof.
  revert s. induction entries as [|e entries IH]; intros s H.
  - apply ret_inv in H. destruct H as [_ ->]. exists [].
    rewrite app_nil_r. repeat split. constructor.
  - simpl in H. apply bind_inv in H. destruct H as (u & s0 & He & H).
    apply save_favorite_item_inv in He. destruct He as (kvs & -> & Hcase).
    apply IH in H. destruct H as (rows & Hrows & Hnames & Hall).
    cbn [named].
    destruct Hcase as [[Ht ->]|(Ht & row & Hrow & Hname & Hvisit)]; rewrite Ht.
    + exists rows. repeat split; assumption.
    + rewrite Hrow, <- app_assoc in Hrows.
      exists (row :: rows). split; [exact Hrows|]. cbn [map].
      split; [rewrite Hname; f_equal; exact Hnames|].
      constructor; [exact Hvisit|exact Hall].
Qed.

End LogItems.

(** X14.  What a successful request of protocol B stores of
    [favoriteItems]: one item of the new visit for each entry that has a
    name, in the order of the entries and under that name.  The items
    stored before are untouched. *)
Theorem log_visit_stores_named_items
    {RT : PyRuntime} (req : Request) (cafe_pk : pk) (s s1 : Store) (k : pk)
    (text : string) (kvs : list (string * json)) (entries : list json) :
  qd_get (POST req) "dynamic_data" = Some text ->
  json_loads text = Some (JObj kvs) ->
  member_default kvs "favoriteItems" (JArr []) = JArr entries ->
  LogCafeVisitView.post req cafe_pk s =
    (inr (JsonResponse (success_redirect (route_visit_detail k)) 200), s1) ->
  exists rows,
    favorite_items s1 = favorite_items s ++ rows /\
    map (fun r => Some (item_name r)) rows = named entries /\
    Forall (fun r => item_visit r = k) rows.
Proof.
  intros Ht Hj Hm H.
  apply log_post_success_inv in H.
  destruct H as (cafe & text' & dd & _ & Ht' & Hj' & H).
  rewrite Ht in Ht'. inversion Ht'; subst text'. clear Ht'.
  rewrite Hj in Hj'. inversion Hj'; subst dd. clear Hj'.
  unfold LogCafeVisitView.save_all in H.
  apply bind_inv in H. destruct H as (profile & s0 & Hp & H).
  apply lift_inv in Hp. destruct Hp as [_ ->].
  apply bind_inv in H. destruct H as (nv & sa & Hv & H).
  pose proof (same_favorite_items_Visit_objects_create profile (cafe_id cafe)
                (qd_get (POST req) "date_visited") (qd_get (POST req) "user_rating")
                (qd_get (POST req) "amount_spent") (qd_get (POST req) "notes") s) as Hsa.
  rewrite Hv in Hsa. cbn [snd] in Hsa. unfold same_favorite_items in Hsa.
  apply bind_inv in H. destruct H as (photos & s0 & Hph & H).
  apply lift_inv in Hph. destruct Hph as [_ ->].
  apply bind_inv in H. destruct H as (photo_list & s0 & Hl & H).
  apply lift_inv in Hl. destruct Hl as [_ ->].
  apply bind_inv in H. destruct H as (u & sb & Hloop & H).
  assert (Hsb : respects same_favorite_items
                  (for_each photo_list
                     (LogCafeVisitView.save_visit_photo (FILES req) nv))).
  { apply (respects_for_each _ same_favorite_items_preorder). intros x _.
    apply same_favorite_items_save_visit_photo. }
  specialize (Hsb sa). rewrite Hloop in Hsb. cbn [snd] in Hsb.
  unfold same_favorite_items in Hsb.
  apply bind_inv in H. destruct H as ([] & sc & Hitems & H).
  rewrite (save_favorite_items_list _ _ _ _ _ Hm) in Hitems.
  apply save_favorite_items_rows in Hitems.
  destruct Hitems as (rows & Hrows & Hnames & Hall).
  apply ret_inv in H. destruct H as [Hk ->]. subst nv.
  exists rows. split; [rewrite Hrows, Hsb, Hsa; reflexivity|]. split; assumption.
Qed.

Lemma log_visit_stores_named_items_witness :
  exists rows,
    favorite_items
      (snd (LogCafeVisitView.post (RT := Example2.runtime)
              (Example.log_request "two photos, one file" [("f1", "door.png")])
              1 Example.store1)) =
    favorite_items Example.store1 ++ rows /\
    map (fun r => Some (item_name r)) rows =
      named (RT := Example2.runtime)
        [JObj [("name", JStr "latte"); ("price", JInt 5);
               ("rating", JInt 4); ("description", JStr "")];
         JObj [("price", JInt 1)]] /\
    Forall (fun r => item_visit r = 2) rows.
Proof.
  eapply (log_visit_stores_named_items (RT := Example2.runtime)
            (Example.log_request "two photos, one file" [("f1", "door.png")])
            1 Example.store1);
    vm_compute; reflexivity.
Defined.

(** ** Editing a visit *)

(** X15.  [VisitUpdateView] does not look at who is logged in: two
    requests that differ only in their logged-in user get the same
    answer and leave the same store, whoever owns the visit.  (The
    [test_func] of the view is not called: the class is not a
    [UserPassesTestMixin].) *)
Theorem visit_update_ignores_who_asks
    {RT : PyRuntime} (r1 r2 : Request) (visit_pk : pk) (s : Store) :
  same_but_user r1 r2 ->
  VisitUpdateView.dispatch r1 visit_pk s = VisitUpdateView.dispatch r2 visit_pk s.
Proof.
  intros (Hb & Hp & Hf & H1 & H2).
  destruct r1 as [b1 p1 f1 u1], r2 as [b2 p2 f2 u2]. cbn in *. subst b2 p2 f2.
  unfold VisitUpdateView.dispatch, login_required. cbn [user].
  destruct u1; [congruence|]. destruct u2; [congruence|].
  reflexivity.
Qed.

Lemma visit_update_ignores_who_asks_witness :
  VisitUpdateView.dispatch (RT := Example.runtime) Example.six_photos 1 Example.store1 =
  VisitUpdateView.dispatch (RT := Example.runtime)
    (sent_by (AuthUser (Some 99)) Example.six_photos) 1 Example.store1.
Proof.
  apply (visit_update_ignores_who_asks (RT := Example.runtime)).
  repeat split; discriminate.
Defined.

Section UpdateFrame.
Context {RT : PyRuntime}.

Lemma keeps_update_save_or_delete visit f :
  keeps_visits (VisitUpdateView.save_or_delete visit f).
Proof. unfold VisitUpdateView.save_or_delete. keeps; apply keeps_save_item_form. Qed.

Lemma Visit_update_inr v d r a n s k s' :
  Visit_update v d r a n s = (inr k, s') ->
  exists row, s' = set_visits s (replace_pk visit_id row (visits s)) /\
              visit_frame row = visit_frame v.
Proof.
  unfold Visit_update. db_unfold.
  destruct d; [|discriminate]. destruct r; [|discriminate].
  destruct a; [|discriminate]. destruct n; [|discriminate].
  intros H. inversion H; subst. eexists. split; reflexivity.
Qed.

Lemma update_save_all_frames visit data photos item_forms s object s1 :
  NoDup (map visit_id (visits s)) ->
  In visit (visits s) ->
  VisitUpdateView.save_all visit data photos item_forms s = (inr object, s1) ->
  map visit_frame (visits s1) = map visit_frame (visits s).
Proof.
  intros Hn Hin H. unfold VisitUpdateView.save_all in H.
  apply bind_inv in H. destruct H as (k & sa & Hu & H).
  apply Visit_update_inr in Hu. destruct Hu as (row & -> & Hrow).
  assert (Hk : keeps_visits
            (formset_save visit_photo_ops k photos ;;;
             for_each item_forms (VisitUpdateView.save_or_delete k) ;;; ret k)).
  { apply keeps_bind; [apply keeps_formset_save_visit_photos|intros _].
    apply keeps_bind; [|intros _; apply keeps_ret].
    apply keeps_for_each. intros f. apply keeps_update_save_or_delete. }
  specialize (Hk (set_visits s (replace_pk visit_id row (visits s)))).
  rewrite H in Hk. cbn [snd visits set_visits] in Hk. rewrite Hk.
  unfold replace_pk. rewrite map_map. apply map_ext_in. intros r Hr.
  destruct (visit_id r =? visit_id row) eqn:E; [|reflexivity].
  apply Z.eqb_eq in E. rewrite Hrow.
  assert (Hid : visit_id row = visit_id visit).
  { unfold visit_frame in Hrow. congruence. }
  rewrite Hid in E.
  rewrite (NoDup_map_eq visit_id _ r visit Hn Hr Hin E). reflexivity.
Qed.

End UpdateFrame.

(** X16.  Editing a visit never changes whose it is or where it was:
    keys being unique, after any request to [VisitUpdateView] the visits
    are the same in number and order, each with the key, the owner and
    the cafe it had. *)
Theorem visit_update_keeps_owner_and_cafe
    {RT : PyRuntime} (req : Request) (visit_pk : pk) (s : Store) :
  NoDup (map visit_id (visits s)) ->
  map visit_frame (visits (snd (VisitUpdateView.dispatch req visit_pk s))) =
  map visit_frame (visits s).
Proof.
  intros Hn. unfold VisitUpdateView.dispatch, login_required.
  destruct (user req); [reflexivity|].
  unfold VisitUpdateView.post.
  rewrite (bind_inr _ _ s (find_pk visit_id (visits s) (Some visit_pk)) s) by reflexivity.
  destruct (find_pk visit_id (visits s) (Some visit_pk)) as [visit|] eqn:Hf;
    [|reflexivity].
  rewrite (bind_inr _ _ s visit s) by reflexivity.
  destruct (is_ok (VisitForm (POST req))); [|reflexivity].
  destruct (update_form_valid_atomic req visit (VisitForm (POST req)) s)
    as [->|(data & object & _ & Ht)]; [reflexivity|].
  unfold update_transaction in Ht.
  exact (update_save_all_frames _ _ _ _ _ _ _ Hn (find_pk_In _ _ _ _ Hf) Ht).
Qed.

Lemma visit_update_keeps_owner_and_cafe_witness :
  map visit_frame
    (visits (snd (VisitUpdateView.dispatch (RT := Example.runtime)
                    Example.six_photos 1 Example.store1))) =
  map visit_frame (visits Example.store1).
Proof.
  apply (visit_update_keeps_owner_and_cafe (RT := Example.runtime)).
  repeat constructor. simpl. tauto.
Defined.

(** ** A visit without an amount *)

Section NoAmount.
Context {RT : PyRuntime}.

Lemma VisitForm_no_amount d data :
  or_empty (qd_get d "amount_spent") = "" ->
  VisitForm d = inr data -> vd_amount_spent data = None.
Proof.
  intros He. unfold VisitForm, clean_float. rewrite He. cbn [String.eqb].
  destruct (clean_date (qd_get d "date_visited")); [|discriminate].
  destruct (if String.eqb (or_empty (qd_get d "user_rating")) "" then _ else _)
    as [[r|]|]; try discriminate.
  destruct (clean_char false None (qd_get d "notes")); [|discriminate].
  intros H. inversion H. reflexivity.
Qed.

Lemma create_transaction_no_amount req cafe data s0 s :
  vd_amount_spent data = None ->
  exists e s', create_transaction req cafe data s0 s = (inl e, s').
Proof.
  intros Ha. unfold create_transaction, VisitCreateView.save_all.
  apply bind_raises. intros profile s1.
  unfold Visit_insert. rewrite Ha. db_unfold. eauto.
Qed.

Lemma update_transaction_no_amount req visit data s0 s :
  vd_amount_spent data = None ->
  exists e s', update_transaction req visit data s0 s = (inl e, s').
Proof.
  intros Ha. unfold update_transaction, VisitUpdateView.save_all.
  unfold Visit_update. rewrite Ha. db_unfold. eauto.
Qed.

End NoAmount.

(** X17.  The amount spent may be left empty in [VisitForm], but a visit
    cannot be stored without it: when the field is empty or absent, a
    request to [VisitCreateView] or [VisitUpdateView] never ends in the
    redirect to the visit and leaves the store as it was.  (Where
    everything else is valid the column refuses the missing value and the
    [IntegrityError] leaves the view.) *)
Theorem visit_without_amount_is_not_stored
    {RT : PyRuntime} (req : Request) (k : pk) (s : Store) :
  or_empty (qd_get (POST req) "amount_spent") = "" ->
  (created (fst (VisitCreateView.dispatch req k s)) = None /\
   snd (VisitCreateView.dispatch req k s) = s) /\
  (created (fst (VisitUpdateView.dispatch req k s)) = None /\
   snd (VisitUpdateView.dispatch req k s) = s).
Proof.
  intros He. split.
  - unfold VisitCreateView.dispatch. unfold bind. rewrite Cafe_or_404_run.
    destruct (find_pk cafe_id (cafes s) (Some k)) as [cafe|]; [|split; reflexivity].
    unfold login_required. destruct (user req); [split; reflexivity|].
    unfold VisitCreateView.post.
    destruct (is_ok (VisitForm (POST req))); [|split; reflexivity].
    destruct (create_form_valid_atomic req cafe (VisitForm (POST req)) s)
      as [H|(data & object & Hd & Ht & _)]; [exact H|].
    destruct (create_transaction_no_amount req cafe data s s
                (VisitForm_no_amount _ _ He Hd)) as (e & s' & Hr).
    rewrite Hr in Ht. discriminate.
  - unfold VisitUpdateView.dispatch, login_required.
    destruct (user req); [split; reflexivity|].
    unfold VisitUpdateView.post.
    rewrite (bind_inr _ _ s (find_pk visit_id (visits s) (Some k)) s) by reflexivity.
    destruct (find_pk visit_id (visits s) (Some k)) as [visit|]; [|split; reflexivity].
    rewrite (bind_inr _ _ s visit s) by reflexivity.
    destruct (is_ok (VisitForm (POST req))); [|split; reflexivity].
    destruct (VisitForm (POST req)) as [errs|data] eqn:Hd.
    { unfold VisitUpdateView.form_valid.
      rewrite (bind_inr _ _ s (VisitUpdateView.get_context_data req visit s) s)
        by reflexivity.
      split; reflexivity. }
    pose proof (VisitForm_no_amount _ _ He Hd) as Ha.
    unfold VisitUpdateView.form_valid.
    rewrite (bind_inr _ _ s (VisitUpdateView.get_context_data req visit s) s)
      by reflexivity.
    destruct (negb (is_valid (visit_photo_formset
                                (VisitUpdateView.get_context_data req visit s)))
              || negb (is_valid (favorite_item_formset
                                   (VisitUpdateView.get_context_data req visit s))));
      [split; reflexivity|].
    destruct (check_nested (forms (favorite_item_formset
                                     (VisitUpdateView.get_context_data req visit s))))
      as [ok item_forms] eqn:Hcn.
    destruct ok; cbn [negb]; [|split; reflexivity].
    destruct (update_transaction_no_amount req visit data s s Ha) as (e & s' & Hr).
    unfold update_transaction in Hr. rewrite Hcn in Hr. cbn [snd] in Hr.
    unfold bind, atomic. rewrite Hr. split; reflexivity.
Qed.

Lemma visit_without_amount_is_not_stored_witness :
  (created (fst (VisitCreateView.dispatch (RT := Example.runtime)
                   Example2.no_amount 1 Example.store1)) = None /\
   snd (VisitCreateView.dispatch (RT := Example.runtime)
          Example2.no_amount 1 Example.store1) = Example.store1) /\
  (created (fst (VisitUpdateView.dispatch (RT := Example.runtime)
                   Example2.no_amount 1 Example.store1)) = None /\
   snd (VisitUpdateView.dispatch (RT := Example.runtime)
          Example2.no_amount 1 Example.store1) = Example.store1).
Proof.
  apply (visit_without_amount_is_not_stored (RT := Example.runtime)).
  reflexivity.
Defined.

(* ================================================================== *)
(** * The wishlist *)
(* ================================================================== *)

Lemma wish_exists_filter profile cafe s :
  wish_exists profile cafe s = false <->
  filter (fun w => (wish_profile w =? profile) && (wish_cafe w =? cafe)) (wishes s) = [].
Proof.
  unfold wish_exists. induction (wishes s) as [|w l IH]; simpl; [tauto|].
  destruct ((wish_profile w =? profile) && (wish_cafe w =? cafe)); simpl.
  - split; discriminate.
  - exact IH.
Qed.

Lemma filter_singleton_In {A : Type} (f : A -> bool) (l : list A) (x y : A) :
  filter f l = [x] -> In y l -> f y = true -> y = x.
Proof.
  intros Hf Hin Hy.
  assert (H : In y (filter f l)) by (apply filter_In; auto).
  rewrite Hf in H. destruct H as [H|[]]. symmetry. exact H.
Qed.

Lemma set_wishes_same (s : Store) : set_wishes s (wishes s) = s.
Proof. destruct s; reflexivity. Qed.

(** What [RemoveFromWishlistView.post] comes to when it removes. *)
Lemma remove_post_inv req cafe_pk s s1 name :
  RemoveFromWishlistView.post req cafe_pk s =
    (inr {| redirect_to := to_show_cafe cafe_pk;
            notices := [success_wish_removed name] |}, s1) ->
  exists cafe profile wish_item,
    find_pk cafe_id (cafes s) (Some cafe_pk) = Some cafe /\
    name = cafe_name cafe /\
    user req = AuthUser (Some profile) /\
    filter (fun w => (wish_profile w =? profile) && (wish_cafe w =? cafe_pk))
           (wishes s) = [wish_item] /\
    s1 = set_wishes s (remove_pk wish_id (wish_id wish_item) (wishes s)).
Proof.
  unfold RemoveFromWishlistView.post.
  destruct (find_pk cafe_id (cafes s) (Some cafe_pk)) as [cafe|] eqn:Hc; [|discriminate].
  pose proof (find_pk_key _ _ _ _ Hc) as Hkey.
  destruct (user req) as [|[profile|]]; cbn [user_cafe_profile]; try discriminate.
  unfold CafeWish_get. rewrite Hkey.
  destruct (filter _ (wishes s)) as [|w [|w' l]] eqn:Hf.
  - intros H. inversion H.
  - intros H. inversion H. exists cafe, profile, w.
    split; [reflexivity|]. split; [reflexivity|]. split; [reflexivity|].
    split; [exact Hf|reflexivity].
  - discriminate.
Qed.

(** X18.  Adding a cafe to the wishlist and then removing it gives back
    the store as it was: when [AddToWishlistView] has reported the cafe
    as added, [RemoveFromWishlistView] for the same user and cafe finds
    the wish, removes it and reports so, and no other row has moved. *)
Theorem add_then_remove_restores_wishlist
    (req : Request) (cafe_pk : pk) (s s1 : Store) (name : string) :
  AddToWishlistView.post req cafe_pk s =
    (inr (HttpResponseRedirect (route_show_cafe cafe_pk) [success_wish_added name]), s1) ->
  RemoveFromWishlistView.post req cafe_pk s1 =
    (inr {| redirect_to := to_show_cafe cafe_pk;
            notices := [success_wish_removed name] |}, s).
Proof.
  rewrite AddToWishlistView_post_eq. unfold RemoveFromWishlistView.post.
  destruct (find_pk cafe_id (cafes s) (Some cafe_pk)) as [cafe|] eqn:Hc; [|discriminate].
  destruct (user_cafe_profile (user req)) as [e|profile] eqn:Hu; [discriminate|].
  destruct (wish_exists profile (cafe_id cafe) s) eqn:He; [discriminate|].
  intros H. inversion H; subst. clear H.
  cbn [cafes set_wishes]. rewrite ?Hc, ?Hu.
  unfold CafeWish_get. cbn [wishes set_wishes].
  rewrite filter_app. apply wish_exists_filter in He. rewrite He.
  unfold wish_row at 1. cbn [filter wish_profile wish_cafe app].
  rewrite !Z.eqb_refl. cbn [andb].
  unfold CafeWish_delete. cbn [wishes set_wishes]. f_equal.
  rewrite remove_pk_app.
  rewrite (remove_pk_absent wish_id (wishes s))
    by (unfold wish_row; cbn [wish_id]; apply next_pk_fresh).
  unfold remove_pk. cbn [filter]. rewrite Z.eqb_refl. cbn [negb].
  rewrite app_nil_r. destruct s; reflexivity.
Qed.

Lemma add_then_remove_restores_wishlist_witness :
  RemoveFromWishlistView.post (Example.request "") 1
    (snd (AddToWishlistView.post (Example.request "") 1 Example.store1)) =
  (inr {| redirect_to := to_show_cafe 1;
          notices := [success_wish_removed "Pavement"] |}, Example.store1).
Proof.
  apply (add_then_remove_restores_wishlist (Example.request "") 1 Example.store1).
  vm_compute. reflexivity.
Defined.

(** X19.  What a removal removes.  When [RemoveFromWishlistView]
    reports the cafe as removed, the user has no wish for the cafe any
    more, the other wishes are all there (keys being unique), no other
    table has changed, and a second removal reports that the cafe was not
    on the wishlist and changes nothing. *)
Theorem remove_from_wishlist_removes_the_pair
    (req : Request) (cafe_pk profile : pk) (s s1 : Store) (name : string) :
  NoDup (map wish_id (wishes s)) ->
  user req = AuthUser (Some profile) ->
  RemoveFromWishlistView.post req cafe_pk s =
    (inr {| redirect_to := to_show_cafe cafe_pk;
            notices := [success_wish_removed name] |}, s1) ->
  wish_exists profile cafe_pk s1 = false /\
  (forall w, In w (wishes s1) <->
             In w (wishes s) /\
             (wish_profile w =? profile) && (wish_cafe w =? cafe_pk) = false) /\
  s1 = set_wishes s (wishes s1) /\
  RemoveFromWishlistView.post req cafe_pk s1 =
    (inr {| redirect_to := to_show_cafe cafe_pk;
            notices := [error_wish_not_found name] |}, s1).
Proof.
  intros Hn Hu H. apply remove_post_inv in H.
  destruct H as (cafe & profile' & w0 & Hc & -> & Hu' & Hf & ->).
  rewrite Hu in Hu'. inversion Hu'; subst profile'. clear Hu'.
  assert (Hw0 : In w0 (wishes s) /\
                (wish_profile w0 =? profile) && (wish_cafe w0 =? cafe_pk) = true).
  { apply (filter_In (fun w => (wish_profile w =? profile) && (wish_cafe w =? cafe_pk))).
    rewrite Hf. left. reflexivity. }
  assert (Hiff : forall w, In w (remove_pk wish_id (wish_id w0) (wishes s)) <->
             In w (wishes s) /\
             (wish_profile w =? profile) && (wish_cafe w =? cafe_pk) = false).
  { intros w. unfold remove_pk. rewrite filter_In. split.
    - intros [Hin Hid]. split; [exact Hin|].
      destruct ((wish_profile w =? profile) && (wish_cafe w =? cafe_pk)) eqn:E;
        [|reflexivity].
      rewrite (filter_singleton_In _ _ _ _ Hf Hin E), Z.eqb_refl in Hid. discriminate.
    - intros [Hin Hp]. split; [exact Hin|].
      destruct (wish_id w =? wish_id w0) eqn:E; [|reflexivity].
      apply Z.eqb_eq in E.
      rewrite (NoDup_map_eq wish_id _ w w0 Hn Hin (proj1 Hw0) E) in Hp.
      rewrite (proj2 Hw0) in Hp. discriminate. }
  assert (Hgone : wish_exists profile cafe_pk
                    (set_wishes s (remove_pk wish_id (wish_id w0) (wishes s))) = false).
  { unfold wish_exists. cbn [wishes set_wishes].
    destruct (existsb _ _) eqn:E; [|reflexivity].
    apply existsb_exists in E. destruct E as (w & Hin & Hp).
    apply Hiff in Hin. rewrite (proj2 Hin) in Hp. discriminate. }
  split; [exact Hgone|]. split; [exact Hiff|]. split; [reflexivity|].
  unfold RemoveFromWishlistView.post. cbn [cafes set_wishes]. rewrite Hc, Hu.
  cbn [user_cafe_profile]. unfold CafeWish_get.
  rewrite (find_pk_key _ _ _ _ Hc).
  apply wish_exists_filter in Hgone. rewrite Hgone. reflexivity.
Qed.

Lemma remove_from_wishlist_removes_the_pair_witness :
  let s := snd (AddToWishlistView.post (Example.request "") 1 Example.store1) in
  wish_exists 1 1 Example.store1 = false /\
  (forall w, In w (wishes Example.store1) <->
             In w (wishes s) /\ (wish_profile w =? 1) && (wish_cafe w =? 1) = false) /\
  Example.store1 = set_wishes s (wishes Example.store1) /\
  RemoveFromWishlistView.post (Example.request "") 1 Example.store1 =
    (inr {| redirect_to := to_show_cafe 1;
            notices := [error_wish_not_found "Pavement"] |}, Example.store1).
Proof.
  apply (remove_from_wishlist_removes_the_pair (Example.request "") 1 1).
  - repeat constructor. simpl. tauto.
  - reflexivity.
  - vm_compute. reflexivity.
Defined.

(** ** The visited status of a wish *)

Lemma In_select_related_cafe s l w c :
  In (w, c) (select_related_cafe s l) ->
  In w l /\ cafe_id c = wish_cafe w.
Proof.
  unfold select_related_cafe. rewrite in_flat_map. intros (w' & Hin & H).
  destruct (find_pk cafe_id (cafes s) (Some (wish_cafe w'))) as [c'|] eqn:Hc;
    [|destruct H].
  destruct H as [H|[]]. inversion H; subst.
  split; [exact Hin|exact (find_pk_key _ _ _ _ Hc)].
Qed.

Lemma existsb_visited (profile k : pk) (l : list Visit) :
  existsb (Z.eqb k) (map visit_cafe (filter (fun v => visit_profile v =? profile) l)) =
  existsb (fun v => (visit_profile v =? profile) && (visit_cafe v =? k)) l.
Proof.
  induction l as [|v l IH]; simpl; [reflexivity|].
  destruct (visit_profile v =? profile); simpl.
  - rewrite IH, (Z.eqb_sym k). reflexivity.
  - exact IH.
Qed.

Lemma existsb_pointwise {A : Type} (f g : A -> bool) (l : list A) :
  (forall x, f x = g x) -> existsb f l = existsb g l.
Proof.
  intros H. induction l as [|x l IH]; simpl; [reflexivity|].
  rewrite H, IH. reflexivity.
Qed.

(** X20.  The pages agree on whether a wish has been visited.  For a
    user with a profile, the flag [has_visited] that [WishlistView] puts
    on each wish is the property [has_been_visited] of the wish, and the
    wishlist of the profile page ([ShowCafeProfileView]) lists the same
    wishes with the same cafes and the same flags as [is_visited]. *)
Theorem wishlist_pages_agree_on_visited
    (req : Request) (profile : pk) (s : Store) :
  user req = AuthUser (Some profile) ->
  Forall (fun d => WishlistView.has_visited d =
                   CafeWish_has_been_visited (WishlistView.wish d) s)
         (WishlistView.get_context_data req s) /\
  ShowCafeProfileView.wishlist profile s =
    map (fun d => (WishlistView.wish d, WishlistView.cafe d, WishlistView.has_visited d))
        (WishlistView.get_context_data req s).
Proof.
  intros Hu. unfold WishlistView.get_context_data, WishlistView.get_queryset,
    ShowCafeProfileView.wishlist. rewrite Hu. split.
  - rewrite Forall_forall. intros d Hd. apply in_map_iff in Hd.
    destruct Hd as ([w c] & <- & Hin). cbn.
    apply In_select_related_cafe in Hin. destruct Hin as [Hin Hc].
    apply filter_In in Hin. destruct Hin as [_ Hp]. apply Z.eqb_eq in Hp.
    unfold CafeWish_has_been_visited. rewrite existsb_visited, Hc, Hp. reflexivity.
  - rewrite map_map. apply map_ext_in. intros [w c] Hin. cbn.
    apply In_select_related_cafe in Hin. destruct Hin as [_ Hc].
    f_equal. rewrite existsb_visited, Hc.
    apply existsb_pointwise. intros v. apply andb_comm.
Qed.

Lemma wishlist_pages_agree_on_visited_witness :
  let s := snd (AddToWishlistView.post (Example.request "") 1 Example.store1) in
  Forall (fun d => WishlistView.has_visited d =
                   CafeWish_has_been_visited (WishlistView.wish d) s)
         (WishlistView.get_context_data (Example.request "") s) /\
  ShowCafeProfileView.wishlist 1 s =
    map (fun d => (WishlistView.wish d, WishlistView.cafe d, WishlistView.has_visited d))
        (WishlistView.get_context_data (Example.request "") s).
Proof.
  apply (wishlist_pages_agree_on_visited (Example.request "") 1). reflexivity.
Defined.

Lemma filter_length_le {A : Type} (f g : A -> bool) (l : list A) :
  (forall x, f x = true -> g x = true) ->
  (List.length (filter f l) <= List.length (filter g l))%nat.
Proof.
  intros H. induction l as [|x l IH]; simpl; [lia|].
  destruct (f x) eqn:E.
  - rewrite (H x E). simpl. lia.
  - destruct (g x); simpl; lia.
Qed.

Lemma counted_on_wishlist (profile : pk) (s : Store) (l : list CafeWish) :
  (forall w, In w l -> In (wish_cafe w) (map cafe_id (cafes s))) ->
  let ids := map visit_cafe (filter (fun v => visit_profile v =? profile) (visits s)) in
  let deco := fun wc : CafeWish * Cafe =>
                {| WishlistView.wish := fst wc; WishlistView.cafe := snd wc;
                   WishlistView.has_visited := existsb (Z.eqb (cafe_id (snd wc))) ids |} in
  List.length (map deco (select_related_cafe s
                           (filter (fun w => wish_profile w =? profile) l))) =
    List.length (filter (fun w => wish_profile w =? profile) l) /\
  List.length (filter WishlistView.has_visited
                 (map deco (select_related_cafe s
                              (filter (fun w => wish_profile w =? profile) l)))) =
    List.length (filter (fun w => (wish_profile w =? profile)
                                  && existsb (Z.eqb (wish_cafe w)) ids) l).
Proof.
  intros Hall ids deco. induction l as [|w l IH]; [split; reflexivity|].
  assert (Hl : forall w', In w' l -> In (wish_cafe w') (map cafe_id (cafes s)))
    by (intros w' Hw'; apply Hall; right; exact Hw').
  specialize (IH Hl). destruct IH as [IH1 IH2].
  cbn [filter]. destruct (wish_profile w =? profile); cbn [andb]; [|split; assumption].
  destruct (find_pk cafe_id (cafes s) (Some (wish_cafe w))) as [c|] eqn:Hc.
  - pose proof (find_pk_key _ _ _ _ Hc) as Hkey.
    unfold select_related_cafe. cbn [flat_map]. rewrite Hc.
    cbn [app map List.length filter]. fold (select_related_cafe s).
    split; [f_equal; exact IH1|].
    unfold deco at 1. cbn [WishlistView.has_visited snd]. rewrite Hkey.
    destruct (existsb (Z.eqb (wish_cafe w)) ids); cbn [List.length];
      [f_equal|]; exact IH2.
  - exfalso. apply find_pk_none in Hc. apply Hc. apply Hall. left. reflexivity.
Qed.

(** X21.  The wishlist counters of the statistics page.  The number of
    visited wishes is between zero and the number of wishes, so the
    number of unvisited ones is not negative; and where every wish refers
    to a cafe that is there, the counters count what the wishlist page
    lists: its entries, and those of them it flags as visited. *)
Theorem wishlist_counters_consistent
    (req : Request) (s : Store) (c : CafeStatsView.Counters) :
  wishes_refer_to_cafes s ->
  CafeStatsView.get_context_data req s = inr c ->
  0 <= CafeStatsView.visited_wishlist_count c <= CafeStatsView.total_wishlist_cafes c /\
  0 <= CafeStatsView.unvisited_wishlist_count c /\
  CafeStatsView.total_wishlist_cafes c =
    Z.of_nat (List.length (WishlistView.get_context_data req s)) /\
  CafeStatsView.visited_wishlist_count c =
    Z.of_nat (List.length (filter WishlistView.has_visited
                             (WishlistView.get_context_data req s))).
Proof.
  intros Hrefs. unfold CafeStatsView.get_context_data.
  destruct (user req) as [|[profile|]] eqn:Hu; cbn [user_cafe_profile]; try discriminate.
  intros H. inversion H; subst c. clear H.
  cbn [CafeStatsView.visited_wishlist_count CafeStatsView.total_wishlist_cafes
       CafeStatsView.unvisited_wishlist_count].
  set (ids := map visit_cafe (filter (fun v => visit_profile v =? profile) (visits s))).
  assert (Hle : Nat.le
                  (List.length
                     (filter (fun w => (wish_profile w =? profile)
                                       && existsb (Z.eqb (wish_cafe w)) ids) (wishes s)))
                  (List.length (filter (fun w => wish_profile w =? profile) (wishes s)))).
  { apply filter_length_le. intros w Hw. apply andb_true_iff in Hw. tauto. }
  split; [lia|]. split; [lia|].
  unfold WishlistView.get_context_data, WishlistView.get_queryset. rewrite Hu.
  destruct (counted_on_wishlist profile s (wishes s) Hrefs) as [H1 H2].
  cbv zeta in H1, H2. subst ids.
  split; [rewrite H1|rewrite H2]; reflexivity.
Qed.

Lemma wishlist_counters_consistent_witness :
  let s := snd (AddToWishlistView.post (Example.request "") 1 Example.store1) in
  let c := {| CafeStatsView.total_wishlist_cafes := 1;
              CafeStatsView.visited_wishlist_count := 1;
              CafeStatsView.unvisited_wishlist_count := 0;
              CafeStatsView.total_visits := 1 |} in
  0 <= CafeStatsView.visited_wishlist_count c <= CafeStatsView.total_wishlist_cafes c /\
  0 <= CafeStatsView.unvisited_wishlist_count c /\
  CafeStatsView.total_wishlist_cafes c =
    Z.of_nat (List.length (WishlistView.get_context_data (Example.request "") s)) /\
  CafeStatsView.visited_wishlist_count c =
    Z.of_nat (List.length (filter WishlistView.has_visited
                             (WishlistView.get_context_data (Example.request "") s))).
Proof.
  apply (wishlist_counters_consistent (Example.request "")).
  - intros w [<-|[]]. left. reflexivity.
  - reflexivity.
Defined.

Section NewVisit.
Context {RT : PyRuntime}.

Lemma create_dispatch_created req cafe_pk s k :
  created (fst (VisitCreateView.dispatch req cafe_pk s)) = Some k ->
  exists row profile,
    user req = AuthUser (Some profile) /\
    visits (snd (VisitCreateView.dispatch req cafe_pk s)) = visits s ++ [row] /\
    visit_id row = k /\ visit_profile row = profile /\ visit_cafe row = cafe_pk.
Proof.
  unfold VisitCreateView.dispatch. unfold bind. rewrite Cafe_or_404_run.
  destruct (find_pk cafe_id (cafes s) (Some cafe_pk)) as [cafe|] eqn:Hc; [|discriminate].
  unfold login_required. destruct (user req) as [|p] eqn:Hu; [discriminate|].
  unfold VisitCreateView.post.
  destruct (is_ok (VisitForm (POST req))); [|discriminate].
  destruct (create_form_valid_atomic req cafe (VisitForm (POST req)) s)
    as [[Hn _]|(data & object & _ & Ht & Hf)].
  - rewrite Hn. discriminate.
  - rewrite Hf. cbn [created]. intros H. inversion H; subst object.
    unfold create_transaction in Ht.
    apply create_save_all_visits in Ht.
    destruct Ht as (row & profile & Hp & Hv & Hid & Hpr & Hcafe).
    exists row, profile. rewrite <- Hu.
    rewrite (find_pk_key _ _ _ _ Hc) in Hcafe. repeat split; assumption.
Qed.

Lemma log_dispatch_created req cafe_pk s k :
  created (fst (LogCafeVisitView.dispatch req cafe_pk s)) = Some k ->
  exists row profile,
    user req = AuthUser (Some profile) /\
    visits (snd (LogCafeVisitView.dispatch req cafe_pk s)) = visits s ++ [row] /\
    visit_id row = k /\ visit_profile row = profile /\ visit_cafe row = cafe_pk.
Proof.
  unfold LogCafeVisitView.dispatch, login_required.
  destruct (user req) as [|p] eqn:Hu; [discriminate|].
  destruct (log_post_atomic req cafe_pk s)
    as [[Hn _]|(cafe & text & dd & nv & Hc & _ & _ & Hs & Hf)].
  - rewrite Hn. discriminate.
  - rewrite Hf. cbn [created]. intros H. inversion H; subst nv.
    apply log_save_all_visits in Hs.
    destruct Hs as (row & profile & Hp & Hv & Hid & Hpr & Hcafe).
    exists row, profile. rewrite <- Hu.
    rewrite (find_pk_key _ _ _ _ Hc) in Hcafe. repeat split; assumption.
Qed.

Lemma has_been_visited_after w s s1 row :
  visits s1 = visits s ++ [row] ->
  visit_profile row = wish_profile w -> visit_cafe row = wish_cafe w ->
  CafeWish_has_been_visited w s1 = true.
Proof.
  intros Hv Hp Hc. unfold CafeWish_has_been_visited.
  rewrite Hv, existsb_app. cbn [existsb]. rewrite Hp, Hc, !Z.eqb_refl.
  cbn. apply orb_true_r.
Qed.

End NewVisit.

(** X22.  A new visit makes the wish visited.  Once a request to
    [VisitCreateView] or to [LogCafeVisitView] has created a visit, every
    wish of the user for that cafe has [has_been_visited]; the wishes
    themselves, their stored [visited] column included, are as they
    were. *)
Theorem new_visit_marks_wishes_visited
    {RT : PyRuntime} (req : Request) (cafe_pk profile k : pk) (s : Store) :
  user req = AuthUser (Some profile) ->
  (created (fst (VisitCreateView.dispatch req cafe_pk s)) = Some k ->
   wishes (snd (VisitCreateView.dispatch req cafe_pk s)) = wishes s /\
   forall w, wish_profile w = profile -> wish_cafe w = cafe_pk ->
     CafeWish_has_been_visited w (snd (VisitCreateView.dispatch req cafe_pk s)) = true) /\
  (created (fst (LogCafeVisitView.dispatch req cafe_pk s)) = Some k ->
   wishes (snd (LogCafeVisitView.dispatch req cafe_pk s)) = wishes s /\
   forall w, wish_profile w = profile -> wish_cafe w = cafe_pk ->
     CafeWish_has_been_visited w (snd (LogCafeVisitView.dispatch req cafe_pk s)) = true).
Proof.
  intros Hu. split; intros Hc.
  - split; [exact (proj1 (proj2 (extends_create_dispatch req cafe_pk s)))|].
    intros w Hp Hcafe. apply create_dispatch_created in Hc.
    destruct Hc as (row & profile' & Hu' & Hv & _ & Hpr & Hcr).
    rewrite Hu in Hu'. inversion Hu'; subst profile'.
    apply (has_been_visited_after w s _ row Hv); congruence.
  - split; [exact (proj1 (proj2 (extends_log_dispatch req cafe_pk s)))|].
    intros w Hp Hcafe. apply log_dispatch_created in Hc.
    destruct Hc as (row & profile' & Hu' & Hv & _ & Hpr & Hcr).
    rewrite Hu in Hu'. inversion Hu'; subst profile'.
    apply (has_been_visited_after w s _ row Hv); congruence.
Qed.

Lemma new_visit_marks_wishes_visited_witness :
  wishes (snd (LogCafeVisitView.dispatch (RT := Example2.runtime)
                 (Example.log_request "two photos, one file" [("f1", "door.png")])
                 1 Example.store1)) = wishes Example.store1 /\
  forall w, wish_profile w = 1 -> wish_cafe w = 1 ->
    CafeWish_has_been_visited w
      (snd (LogCafeVisitView.dispatch (RT := Example2.runtime)
              (Example.log_request "two photos, one file" [("f1", "door.png")])
              1 Example.store1)) = true.
Proof.
  refine (proj2 (new_visit_marks_wishes_visited (RT := Example2.runtime)
                   (Example.log_request "two photos, one file" [("f1", "door.png")])
                   1 1 2 Example.store1 eq_refl) _).
  vm_compute. reflexivity.
Defined.

Lemma no_wish_marked_added s profile cafe :
  no_wish_marked s ->
  no_wish_marked (set_wishes s (wishes s ++ [wish_row s profile cafe])).
Proof.
  unfold no_wish_marked. cbn [wishes set_wishes]. intros H.
  apply Forall_app. split; [exact H|]. constructor; [reflexivity|constructor].
Qed.

Lemma no_wish_marked_removed s k :
  no_wish_marked s -> no_wish_marked (set_wishes s (remove_pk wish_id k (wishes s))).
Proof.
  unfold no_wish_marked, remove_pk. cbn [wishes set_wishes]. intros H.
  rewrite Forall_forall in *. intros w Hw. apply filter_In in Hw. apply H. tauto.
Qed.

Lemma remove_post_store req cafe_pk s :
  snd (RemoveFromWishlistView.post req cafe_pk s) = s \/
  exists k, snd (RemoveFromWishlistView.post req cafe_pk s) =
            set_wishes s (remove_pk wish_id k (wishes s)).
Proof.
  unfold RemoveFromWishlistView.post.
  destruct (find_pk cafe_id (cafes s) (Some cafe_pk)) as [cafe|]; [|left; reflexivity].
  destruct (user_cafe_profile (user req)) as [e|profile]; [left; reflexivity|].
  destruct (CafeWish_get profile (cafe_id cafe) s) as [[[]|]|w];
    try (left; reflexivity).
  right. exists (wish_id w). reflexivity.
Qed.

(** X23.  The stored [visited] column of a wish is never set by the
    wishlist views: if no wish has it set, then after
    [AddToWishlistView], after the selection branch of [AddWishlistView]
    and after [RemoveFromWishlistView] no wish has it set, whatever the
    request.  (Whether a wish was visited is computed from the visits.) *)
Theorem stored_visited_flag_is_never_set
    {RT : PyRuntime} (req : Request) (cafe_pk : pk) (raw : string) (s : Store) :
  no_wish_marked s ->
  no_wish_marked (snd (AddToWishlistView.dispatch req cafe_pk s)) /\
  no_wish_marked (snd (AddWishlistView.post_cafe_choice req raw s)) /\
  no_wish_marked (snd (RemoveFromWishlistView.dispatch req cafe_pk s)).
Proof.
  intros H. split; [|split].
  - unfold AddToWishlistView.dispatch, login_required.
    destruct (user req) eqn:Hu; [exact H|].
    rewrite AddToWishlistView_post_eq.
    destruct (find_pk cafe_id (cafes s) (Some cafe_pk)) as [cafe|]; [|exact H].
    destruct (user_cafe_profile (user req)) as [e|profile]; [exact H|].
    destruct (wish_exists profile (cafe_id cafe) s); [exact H|].
    apply no_wish_marked_added. exact H.
  - rewrite AddWishlistView_post_cafe_choice_eq.
    destruct (AddWishlistView.clean_cafe_choice raw s) as [cafe|]; [|exact H].
    destruct (user_cafe_profile (user req)) as [e|profile]; [exact H|].
    destruct (wish_exists profile (cafe_id cafe) s); [exact H|].
    apply no_wish_marked_added. exact H.
  - unfold RemoveFromWishlistView.dispatch.
    destruct (user req); [exact H|].
    destruct (remove_post_store req cafe_pk s) as [->|[k ->]]; [exact H|].
    apply no_wish_marked_removed. exact H.
Qed.

Lemma stored_visited_flag_is_never_set_witness :
  no_wish_marked (snd (AddToWishlistView.dispatch (Example.request "") 1 Example.store1)) /\
  no_wish_marked (snd (AddWishlistView.post_cafe_choice (RT := Example.runtime)
                         (Example.request "") "1" Example.store1)) /\
  no_wish_marked (snd (RemoveFromWishlistView.dispatch (Example.request "") 1
                         Example.store1)).
Proof.
  apply (stored_visited_flag_is_never_set (RT := Example.runtime)).
  constructor.
Defined.

(* ================================================================== *)
(** * Showing and deleting a visit *)
(* ================================================================== *)

Lemma find_filter_first {R : Type} (f g : R -> bool) (l : list R) (r : R) :
  find f l = Some r -> g r = true -> find f (filter g l) = Some r.
Proof.
  induction l as [|x l IH]; simpl; [discriminate|].
  destruct (f x) eqn:Ef.
  - intros H Hg. inversion H; subst x. rewrite Hg. simpl. rewrite Ef. reflexivity.
  - intros H Hg. destruct (g x); simpl; [rewrite Ef|]; apply IH; assumption.
Qed.

Lemma find_filter_none {R : Type} (f g : R -> bool) (l : list R) :
  (forall x, In x l -> f x = true -> g x = false) -> find f (filter g l) = None.
Proof.
  intros H. destruct (find f (filter g l)) as [r|] eqn:E; [|reflexivity].
  apply find_some in E. destruct E as [Hin Hf]. apply filter_In in Hin.
  rewrite (H r (proj1 Hin) Hf) in Hin. destruct Hin. discriminate.
Qed.

(** With unique keys, the row of a filtered table under a key is the row
    of the table under that key, when it passes the filter. *)
Lemma find_pk_filter {R : Type} (key : R -> pk) (g : R -> bool) rows k :
  NoDup (map key rows) ->
  find_pk key (filter g rows) (Some k) =
  match find_pk key rows (Some k) with
  | Some r => if g r then Some r else None
  | None => None
  end.
Proof.
  intros Hn. destruct (find_pk key rows (Some k)) as [r|] eqn:Hf.
  - destruct (g r) eqn:Hg.
    + unfold find_pk in *. apply find_filter_first; assumption.
    + unfold find_pk. apply find_filter_none. intros x Hx Hk.
      apply Z.eqb_eq in Hk.
      pose proof (find_pk_In _ _ _ _ Hf) as Hr.
      pose proof (find_pk_key _ _ _ _ Hf) as Hkr.
      rewrite (NoDup_map_eq key rows x r Hn Hx Hr); [exact Hg|congruence].
  - unfold find_pk in *. apply find_filter_none. intros x Hx Hk.
    exfalso. apply (find_none _ _ Hf) in Hx. congruence.
Qed.

(** X24.  The detail pages show a user their own rows only.  For a user
    with a profile, keys being unique, [VisitDetailView] returns the
    visit under the key of the route when it belongs to that profile, and
    [FavoriteItemDetailView] the item under the key when its visit does;
    for the row of another profile both raise [Http404], as they do when
    no row has the key.  Neither writes. *)
Theorem detail_pages_show_own_rows_only
    (req : Request) (profile k : pk) (s : Store) :
  user req = AuthUser (Some profile) ->
  NoDup (map visit_id (visits s)) ->
  NoDup (map item_id (favorite_items s)) ->
  VisitDetailView.get_object req k s =
    match find_pk visit_id (visits s) (Some k) with
    | Some v => if visit_profile v =? profile then (inr v, s) else (inl Http404, s)
    | None => (inl Http404, s)
    end /\
  FavoriteItemDetailView.get_object req k s =
    match find_pk item_id (favorite_items s) (Some k) with
    | Some i =>
        match find_pk visit_id (visits s) (Some (item_visit i)) with
        | Some v => if visit_profile v =? profile then (inr i, s) else (inl Http404, s)
        | None => (inl Http404, s)
        end
    | None => (inl Http404, s)
    end.
Proof.
  intros Hu Hv Hi. split.
  - unfold VisitDetailView.get_object, VisitDetailView.get_queryset.
    rewrite Hu. cbn [user_cafe_profile]. db_unfold.
    rewrite (find_pk_filter visit_id _ _ _ Hv).
    destruct (find_pk visit_id (visits s) (Some k)) as [v|]; [|reflexivity].
    destruct (visit_profile v =? profile); reflexivity.
  - unfold FavoriteItemDetailView.get_object, FavoriteItemDetailView.get_queryset.
    rewrite Hu. db_unfold.
    rewrite (find_pk_filter item_id _ _ _ Hi).
    destruct (find_pk item_id (favorite_items s) (Some k)) as [i|]; [|reflexivity].
    destruct (find_pk visit_id (visits s) (Some (item_visit i))) as [v|]; [|reflexivity].
    destruct (visit_profile v =? profile); reflexivity.
Qed.

Lemma detail_pages_show_own_rows_only_witness :
  VisitDetailView.get_object (sent_by (AuthUser (Some 2)) (Example.request "")) 1
    Example.store1 = (inl Http404, Example.store1) /\
  FavoriteItemDetailView.get_object (sent_by (AuthUser (Some 2)) (Example.request "")) 1
    Example.store1 = (inl Http404, Example.store1).
Proof.
  apply (detail_pages_show_own_rows_only
           (sent_by (AuthUser (Some 2)) (Example.request "")) 2 1 Example.store1).
  - reflexivity.
  - repeat constructor. simpl. tauto.
  - constructor.
Defined.

Section DeleteVisit.

Lemma visit_delete_post_run req visit_pk s visit cafe :
  find_pk visit_id (visits s) (Some visit_pk) = Some visit ->
  find_pk cafe_id (cafes s) (Some (visit_cafe visit)) = Some cafe ->
  VisitDeleteView.post req visit_pk s =
    (inr {| redirect_to := to_cafe_home;
            notices := [success_visit_deleted (cafe_name cafe)] |},
     snd (Visit_delete visit s)).
Proof.
  intros Hv Hc. unfold VisitDeleteView.post, VisitDeleteView.form_valid.
  db_unfold. rewrite Hv, Hc. reflexivity.
Qed.

Lemma visit_delete_post_store req visit_pk s :
  snd (VisitDeleteView.post req visit_pk s) = s \/
  exists visit, find_pk visit_id (visits s) (Some visit_pk) = Some visit /\
                snd (VisitDeleteView.post req visit_pk s) = snd (Visit_delete visit s).
Proof.
  unfold VisitDeleteView.post, VisitDeleteView.form_valid. db_unfold.
  destruct (find_pk visit_id (visits s) (Some visit_pk)) as [visit|] eqn:Hv;
    [|left; reflexivity].
  destruct (find_pk cafe_id (cafes s) (Some (visit_cafe visit))) as [cafe|];
    [|left; reflexivity].
  right. exists visit. split; reflexivity.
Qed.

End DeleteVisit.

(** X25.  Deleting a visit takes everything that hangs on it, and
    nothing else.  For any logged-in user (the view does not ask whose
    the visit is) and a visit whose cafe is there, [VisitDeleteView]
    answers with the redirect home; afterwards no visit has the key, no
    photo, item or sticker refers to it, the item photos of its items
    are gone, and every other row of every table is still there. *)
Theorem visit_delete_cascades
    (req : Request) (visit_pk : pk) (s : Store) (visit : Visit) (cafe : Cafe) :
  user req <> AnonymousUser ->
  find_pk visit_id (visits s) (Some visit_pk) = Some visit ->
  find_pk cafe_id (cafes s) (Some (visit_cafe visit)) = Some cafe ->
  let s1 := snd (VisitDeleteView.dispatch req visit_pk s) in
  fst (VisitDeleteView.dispatch req visit_pk s) =
    inr {| redirect_to := to_cafe_home;
           notices := [success_visit_deleted (cafe_name cafe)] |} /\
  find_pk visit_id (visits s1) (Some visit_pk) = None /\
  (forall v, In v (visits s1) <-> In v (visits s) /\ visit_id v <> visit_pk) /\
  (forall p, In p (visit_photos s1) <->
             In p (visit_photos s) /\ vphoto_visit p <> visit_pk) /\
  (forall i, In i (favorite_items s1) <->
             In i (favorite_items s) /\ item_visit i <> visit_pk) /\
  (forall st, In st (stickers s1) <-> In st (stickers s) /\ sticker_visit st <> visit_pk) /\
  (forall p, In p (item_photos s1) <->
             In p (item_photos s) /\
             forall i, In i (favorite_items s) -> item_visit i = visit_pk ->
                       iphoto_item p <> item_id i) /\
  cafes s1 = cafes s /\ wishes s1 = wishes s /\ sticker_types s1 = sticker_types s.
Proof.
  intros Hu Hv Hc s1. subst s1. unfold VisitDeleteView.dispatch.
  destruct (user req); [congruence|].
  rewrite (visit_delete_post_run _ _ _ _ _ Hv Hc). cbn [fst snd].
  pose proof (find_pk_key _ _ _ _ Hv) as Hk. unfold Visit_delete. rewrite Hk.
  cbn [snd visits visit_photos favorite_items stickers item_photos cafes wishes
       sticker_types].
  split; [reflexivity|].
  split; [apply find_remove_pk|].
  assert (Hneq : forall a b : Z, negb (a =? b) = true <-> a <> b).
  { intros a b. rewrite negb_true_iff. apply Z.eqb_neq. }
  split; [intros v; unfold remove_pk; rewrite filter_In, Hneq; reflexivity|].
  split; [intros p; rewrite filter_In, Hneq; reflexivity|].
  split; [intros i; rewrite filter_In, Hneq; reflexivity|].
  split; [intros st; rewrite filter_In, Hneq; reflexivity|].
  split; [|repeat split].
  intros p. rewrite filter_In, negb_true_iff. split.
  - intros [Hin Hex]. split; [exact Hin|]. intros i Hi Hiv Heq.
    assert (Ht : existsb (Z.eqb (iphoto_item p))
                   (map item_id (filter (fun i => item_visit i =? visit_pk)
                                   (favorite_items s))) = true).
    { apply existsb_exists. exists (item_id i). split; [|apply Z.eqb_eq; exact Heq].
      apply in_map. apply filter_In. split; [exact Hi|apply Z.eqb_eq; exact Hiv]. }
    congruence.
  - intros [Hin Hall]. split; [exact Hin|].
    destruct (existsb _ _) eqn:E; [|reflexivity].
    apply existsb_exists in E. destruct E as (x & Hx & Heq).
    apply in_map_iff in Hx. destruct Hx as (i & <- & Hi).
    apply filter_In in Hi. destruct Hi as [Hi Hiv].
    apply Z.eqb_eq in Hiv, Heq. exfalso. exact (Hall i Hi Hiv Heq).
Qed.

Lemma visit_delete_cascades_witness :
  let s1 := snd (VisitDeleteView.dispatch
                   (sent_by (AuthUser (Some 99)) (Example.request "")) 1 Example.store1) in
  fst (VisitDeleteView.dispatch
         (sent_by (AuthUser (Some 99)) (Example.request "")) 1 Example.store1) =
    inr {| redirect_to := to_cafe_home;
           notices := [success_visit_deleted "Pavement"] |} /\
  find_pk visit_id (visits s1) (Some 1) = None /\
  (forall v, In v (visits s1) <-> In v (visits Example.store1) /\ visit_id v <> 1) /\
  (forall p, In p (visit_photos s1) <->
             In p (visit_photos Example.store1) /\ vphoto_visit p <> 1) /\
  (forall i, In i (favorite_items s1) <->
             In i (favorite_items Example.store1) /\ item_visit i <> 1) /\
  (forall st, In st (stickers s1) <->
              In st (stickers Example.store1) /\ sticker_visit st <> 1) /\
  (forall p, In p (item_photos s1) <->
             In p (item_photos Example.store1) /\
             forall i, In i (favorite_items Example.store1) -> item_visit i = 1 ->
                       iphoto_item p <> item_id i) /\
  cafes s1 = cafes Example.store1 /\ wishes s1 = wishes Example.store1 /\
  sticker_types s1 = sticker_types Example.store1.
Proof.
  apply (visit_delete_cascades (sent_by (AuthUser (Some 99)) (Example.request "")) 1
           Example.store1 Example.visit1 {| cafe_id := 1; cafe_name := "Pavement" |}).
  - discriminate.
  - reflexivity.
  - reflexivity.
Defined.

(** X26.  Deleting a visit leaves no dangling row: if every photo, item
    and sticker refers to a visit of the store and every item photo to an
    item of the store, the same holds after any request to
    [VisitDeleteView]. *)
Theorem visit_delete_keeps_rows_consistent
    (req : Request) (visit_pk : pk) (s : Store) :
  visit_rows_consistent s ->
  visit_rows_consistent (snd (VisitDeleteView.dispatch req visit_pk s)).
Proof.
  intros H. unfold VisitDeleteView.dispatch. destruct (user req); [exact H|].
  destruct (visit_delete_post_store req visit_pk s) as [->|(visit & Hv & ->)]; [exact H|].
  destruct H as (Hp & Hi & Hip & Hs).
  pose proof (find_pk_key _ _ _ _ Hv) as Hk.
  unfold Visit_delete, visit_rows_consistent. rewrite Hk.
  cbn [snd visits visit_photos favorite_items stickers item_photos].
  assert (Hkeep : forall x, In x (map visit_id (visits s)) -> x <> visit_pk ->
                    In x (map visit_id (remove_pk visit_id visit_pk (visits s)))).
  { intros x Hx Hne. apply in_map_iff in Hx. destruct Hx as (v & <- & Hin).
    apply in_map. unfold remove_pk. apply filter_In. split; [exact Hin|].
    apply negb_true_iff. apply Z.eqb_neq. exact Hne. }
  split; [|split; [|split]].
  - intros p Hin. apply filter_In in Hin. destruct Hin as [Hin Hne].
    apply negb_true_iff, Z.eqb_neq in Hne. apply Hkeep; [apply Hp; exact Hin|exact Hne].
  - intros i Hin. apply filter_In in Hin. destruct Hin as [Hin Hne].
    apply negb_true_iff, Z.eqb_neq in Hne. apply Hkeep; [apply Hi; exact Hin|exact Hne].
  - intros p Hin. apply filter_In in Hin. destruct Hin as [Hin Hne].
    apply negb_true_iff in Hne.
    pose proof (Hip p Hin) as Hitem. apply in_map_iff in Hitem.
    destruct Hitem as (i & Hid & Hiin).
    rewrite <- Hid. apply in_map. apply filter_In. split; [exact Hiin|].
    destruct (item_visit i =? visit_pk) eqn:E; [|reflexivity].
    exfalso.
    assert (Ht : existsb (Z.eqb (iphoto_item p))
                   (map item_id (filter (fun i => item_visit i =? visit_pk)
                                   (favorite_items s))) = true).
    { apply existsb_exists. exists (item_id i).
      split; [|apply Z.eqb_eq; symmetry; exact Hid].
      apply in_map. apply filter_In. split; [exact Hiin|exact E]. }
    congruence.
  - intros st Hin. apply filter_In in Hin. destruct Hin as [Hin Hne].
    apply negb_true_iff, Z.eqb_neq in Hne. apply Hkeep; [apply Hs; exact Hin|exact Hne].
Qed.

Lemma visit_delete_keeps_rows_consistent_witness :
  visit_rows_consistent
    (snd (VisitDeleteView.dispatch (Example.request "") 1 Example.store1)).
Proof.
  apply (visit_delete_keeps_rows_consistent (Example.request "") 1 Example.store1).
  unfold visit_rows_consistent. simpl.
  repeat split; intros x Hx; try tauto.
  destruct Hx as [<-|[]]. simpl. tauto.
Defined.

(* ================================================================== *)
(** * The theme of a user *)
(* ================================================================== *)

Lemma find_replace_pk_other {R : Type} (key : R -> pk) (r' : R) rows k :
  k <> key r' ->
  find_pk key (replace_pk key r' rows) (Some k) = find_pk key rows (Some k).
Proof.
  intros Hne. unfold find_pk, replace_pk.
  induction rows as [|x rows IH]; simpl; [reflexivity|].
  destruct (key x =? key r') eqn:E.
  - apply Z.eqb_eq in E.
    assert (E1 : (key r' =? k) = false) by (apply Z.eqb_neq; congruence).
    assert (E2 : (key x =? k) = false) by (apply Z.eqb_neq; congruence).
    rewrite E1, E2. exact IH.
  - destruct (key x =? k); [reflexivity|exact IH].
Qed.

Lemma allowed_theme_In theme :
  existsb (String.eqb theme) allowed_themes = true <-> In theme theme_choices.
Proof.
  rewrite existsb_exists. split.
  - intros (x & Hin & Heq). apply String.eqb_eq in Heq. subst x. exact Hin.
  - intros Hin. exists theme. split; [exact Hin|apply String.eqb_refl].
Qed.

Lemma update_theme_success_inv u method theme profiles t profiles' :
  update_theme_preference u method theme profiles = (theme_success t, profiles') ->
  exists k row,
    u = AuthUser (Some k) /\ method = "POST" /\ t = theme /\ In theme theme_choices /\
    find_pk profile_id profiles (Some k) = Some row /\
    profiles' = replace_pk profile_id
                  {| profile_id := k; theme_preference := theme |} profiles.
Proof.
  unfold update_theme_preference. destruct u as [|[k|]]; [discriminate| |].
  - destruct (String.eqb method "POST") eqn:Em; cbn [negb]; [|discriminate].
    destruct (existsb (String.eqb theme) allowed_themes) eqn:Ea; cbn [negb];
      [|discriminate].
    unfold cafe_profile_row. cbn [user_cafe_profile].
    destruct (find_pk profile_id profiles (Some k)) as [row|] eqn:Hf; [|discriminate].
    intros H. inversion H; subst. exists k, row.
    rewrite (find_pk_key _ _ _ _ Hf).
    split; [reflexivity|]. split; [apply String.eqb_eq; exact Em|].
    split; [reflexivity|]. split; [apply allowed_theme_In; exact Ea|].
    split; [exact Hf|reflexivity].
  - destruct (String.eqb method "POST"); cbn [negb]; [|discriminate].
    destruct (existsb (String.eqb theme) allowed_themes); cbn [negb]; discriminate.
Qed.

(** X27.  A theme that was saved is the theme that is shown.  When
    [update_theme_preference] answers with success, the theme is one of
    the choices of the model, [user_theme_processor] gives that theme for
    the same user from then on, and for the profile of any other user it
    gives what it gave before. *)
Theorem saved_theme_is_shown
    (u : User) (method theme t : string) (profiles profiles' : list CafeProfile) :
  update_theme_preference u method theme profiles = (theme_success t, profiles') ->
  t = theme /\ In theme theme_choices /\
  user_theme_processor u profiles' = theme /\
  forall k, u <> AuthUser (Some k) ->
    user_theme_processor (AuthUser (Some k)) profiles' =
    user_theme_processor (AuthUser (Some k)) profiles.
Proof.
  intros H. apply update_theme_success_inv in H.
  destruct H as (k0 & row & -> & _ & -> & Hin & Hf & ->).
  split; [reflexivity|]. split; [exact Hin|]. split.
  - unfold user_theme_processor, cafe_profile_row. cbn [user_cafe_profile].
    pose proof (find_replace_pk profile_id
                  {| profile_id := k0; theme_preference := theme |} profiles row Hf)
      as Hnew.
    cbn [profile_id] in Hnew. rewrite Hnew. reflexivity.
  - intros k Hne. unfold user_theme_processor, cafe_profile_row.
    cbn [user_cafe_profile].
    rewrite find_replace_pk_other; [reflexivity|].
    cbn [profile_id]. congruence.
Qed.

Lemma saved_theme_is_shown_witness :
  "forest" = "forest" /\ In "forest" theme_choices /\
  user_theme_processor (AuthUser (Some 1))
    [{| profile_id := 1; theme_preference := "forest" |};
     {| profile_id := 2; theme_preference := "dark" |}] = "forest" /\
  forall k, AuthUser (Some 1) <> AuthUser (Some k) ->
    user_theme_processor (AuthUser (Some k))
      [{| profile_id := 1; theme_preference := "forest" |};
       {| profile_id := 2; theme_preference := "dark" |}] =
    user_theme_processor (AuthUser (Some k))
      [{| profile_id := 1; theme_preference := "default" |};
       {| profile_id := 2; theme_preference := "dark" |}].
Proof.
  apply (saved_theme_is_shown (AuthUser (Some 1)) "POST" "forest" "forest"
           [{| profile_id := 1; theme_preference := "default" |};
            {| profile_id := 2; theme_preference := "dark" |}]).
  reflexivity.
Defined.

(** X28.  Only a choice of the model is ever stored as a theme.  If
    every stored theme is one of the choices of
    [CafeProfile.theme_preference], so it is after any call of
    [update_theme_preference]; and a call with a theme that is not one
    of them, or by another method than POST, writes nothing. *)
Theorem stored_themes_stay_choices
    (u : User) (method theme : string) (profiles : list CafeProfile) :
  themes_are_choices profiles ->
  themes_are_choices (snd (update_theme_preference u method theme profiles)) /\
  ((In theme theme_choices /\ method = "POST") \/
   snd (update_theme_preference u method theme profiles) = profiles).
Proof.
  intros H. unfold update_theme_preference.
  destruct u as [|p]; [split; [exact H|right; reflexivity]|].
  destruct (String.eqb method "POST") eqn:Em; cbn [negb];
    [|split; [exact H|right; reflexivity]].
  destruct (existsb (String.eqb theme) allowed_themes) eqn:Ea; cbn [negb];
    [|split; [exact H|right; reflexivity]].
  apply allowed_theme_In in Ea. apply String.eqb_eq in Em.
  destruct (cafe_profile_row (AuthUser p) profiles) as [e|row];
    [split; [exact H|right; reflexivity]|].
  cbn [snd]. split; [|left; split; assumption].
  unfold themes_are_choices, replace_pk in *. rewrite Forall_forall in *.
  intros x Hx. apply in_map_iff in Hx. destruct Hx as (y & <- & Hy).
  destruct (profile_id y =? _); [exact Ea|apply H; exact Hy].
Qed.

Lemma stored_themes_stay_choices_witness :
  themes_are_choices
    (snd (update_theme_preference (AuthUser (Some 1)) "POST" "neon"
            [{| profile_id := 1; theme_preference := "default" |}])) /\
  ((In "neon" theme_choices /\ "POST" = "POST") \/
   snd (update_theme_preference (AuthUser (Some 1)) "POST" "neon"
          [{| profile_id := 1; theme_preference := "default" |}]) =
   [{| profile_id := 1; theme_preference := "default" |}]).
Proof.
  apply (stored_themes_stay_choices (AuthUser (Some 1)) "POST" "neon").
  repeat constructor.
Defined.
